(** * InfluxQL to PromQL dashboard converter: a shallow embedding

    The development embeds
    [src/converter/influxql_to_promql/influxql_to_promql_dashboard_converter.py]
    together with the two collaborators it calls,
    [src/common/influx_detection.py] and [src/common/error_manager.py].

    Conventions of the embedding.
    - Python [str] is [string]; a character is an [ascii], so the character
      classes [\w], [\s], [\d] and [str.lower] are the ASCII ones.
    - Python exceptions are values of [exn]; a call that can raise returns a
      [result].  The converter object's mutable attributes are the fields of
      the record [converter], threaded through every method.
    - A literal that contains the double quote is written with a backquote in
      its place and passed through [py]. *)

From Stdlib Require Import String Ascii ZArith List Lia Bool.
From Stdlib Require Import DecimalString DecimalZ DecimalN DecimalPos.
From stdpp Require Import base list strings sorting.

Local Open Scope Z_scope.

(* Patterns are quoted in comments as strings; no induction scheme of the
   nested type of values is used. *)
Set Warnings "-comment-terminator-in-string,-register-all".

(** ** Python strings *)

Module PyStr.

(** The double quote character. *)
Definition dq : ascii := "034"%char.

(** [py s] is [s] with every backquote replaced by a double quote. *)
Fixpoint py (s : string) : string :=
  match s with
  | EmptyString => EmptyString
  | String c s' => String (if Ascii.eqb c "`"%char then dq else c) (py s')
  end.

Definition chars (s : string) : list ascii := list_ascii_of_string s.
Definition str (l : list ascii) : string := string_of_list_ascii l.

Definition code (c : ascii) : N := N_of_ascii c.

Definition in_range (lo hi c : ascii) : bool :=
  (code lo <=? code c)%N && (code c <=? code hi)%N.

Definition is_digit (c : ascii) : bool := in_range "0" "9" c.
Definition is_upper (c : ascii) : bool := in_range "A" "Z" c.
Definition is_lower (c : ascii) : bool := in_range "a" "z" c.
Definition is_alpha (c : ascii) : bool := is_upper c || is_lower c.

(** [\w]: letters, digits and the underscore. *)
Definition is_word (c : ascii) : bool :=
  is_alpha c || is_digit c || Ascii.eqb c "_".

(** [\s] and [str.strip]: space, tab, line feed, vertical tab, form feed,
    carriage return and the four separators 28 to 31. *)
Definition is_space (c : ascii) : bool :=
  Ascii.eqb c " " || in_range "009" "013" c || in_range "028" "031" c.

Definition lower_char (c : ascii) : ascii :=
  if is_upper c then ascii_of_N (code c + 32) else c.

Definition upper_char (c : ascii) : ascii :=
  if is_lower c then ascii_of_N (code c - 32) else c.

(** [s.lower()] *)
Fixpoint lower (s : string) : string :=
  match s with
  | EmptyString => EmptyString
  | String c s' => String (lower_char c) (lower s')
  end.

(** [s.startswith(p)] *)
Fixpoint startswith (p s : string) : bool :=
  match p, s with
  | EmptyString, _ => true
  | String a p', String b s' => Ascii.eqb a b && startswith p' s'
  | String _ _, EmptyString => false
  end.

Fixpoint rev_string_acc (s acc : string) : string :=
  match s with
  | EmptyString => acc
  | String c s' => rev_string_acc s' (String c acc)
  end.

Definition rev_string (s : string) : string := rev_string_acc s EmptyString.

(** [s.endswith(p)] *)
Definition endswith (p s : string) : bool :=
  startswith (rev_string p) (rev_string s).

(** [s[n:]] *)
Fixpoint drop (n : nat) (s : string) : string :=
  match n, s with
  | O, _ => s
  | S n', String _ s' => drop n' s'
  | S _, EmptyString => EmptyString
  end.

(** [s[:-1]] *)
Fixpoint drop_last (s : string) : string :=
  match s with
  | EmptyString => EmptyString
  | String c EmptyString => EmptyString
  | String c s' => String c (drop_last s')
  end.

(** [sub in s] for two strings. *)
Fixpoint contains (sub s : string) : bool :=
  startswith sub s ||
  match s with
  | EmptyString => false
  | String _ s' => contains sub s'
  end.

(** [s.replace(old, new, count)] for a non-empty [old]; [count = None] is the
    call without a count.  [skip] counts the characters of a match that are
    still to be passed over. *)
Fixpoint replace_go (old new : string) (count : option nat) (skip : nat)
    (s : string) : string :=
  match s with
  | EmptyString => EmptyString
  | String c s' =>
      match skip with
      | S k => replace_go old new count k s'
      | O =>
          let more := match count with Some O => false | _ => true end in
          if more && startswith old s then
            new +:+ replace_go old new (option_map Nat.pred count)
                      (String.length old - 1) s'
          else String c (replace_go old new count O s')
      end
  end.

(** With an empty [old] Python inserts [new] before every character and at
    the end, as long as the count allows. *)
Fixpoint replace_empty (new : string) (count : option nat) (s : string)
    : string :=
  match count with
  | Some O => s
  | _ =>
      match s with
      | EmptyString => new
      | String c s' =>
          new +:+ String c (replace_empty new (option_map Nat.pred count) s')
      end
  end.

Definition replace_n (old new : string) (count : option nat) (s : string)
    : string :=
  match old with
  | EmptyString => replace_empty new count s
  | _ => replace_go old new count O s
  end.

(** [s.replace(old, new)] *)
Definition replace (old new s : string) : string := replace_n old new None s.

(** [s.split(sep)] for a non-empty [sep]: [cur] is the piece being read, in
    reverse. *)
Fixpoint split_go (sep : string) (skip : nat) (cur : string) (s : string)
    : list string :=
  match s with
  | EmptyString => [rev_string cur]
  | String c s' =>
      match skip with
      | S k => split_go sep k cur s'
      | O =>
          if startswith sep s then
            rev_string cur ::
              split_go sep (String.length sep - 1) EmptyString s'
          else split_go sep O (String c cur) s'
      end
  end.

Definition split (sep s : string) : list string :=
  split_go sep O EmptyString s.

(** [sep.join(l)] *)
Fixpoint join (sep : string) (l : list string) : string :=
  match l with
  | [] => EmptyString
  | [x] => x
  | x :: l' => x +:+ sep +:+ join sep l'
  end.

Definition last_piece (l : list string) : string :=
  List.last l EmptyString.

(** [s.rsplit(sep, maxsplit=1)]: split at the last occurrence of [sep]. *)
Definition rsplit1 (sep s : string) : list string :=
  match rev (split sep s) with
  | [] => [s]
  | [_] => [s]
  | tl :: before => [join sep (rev before); tl]
  end.

(** [s.lstrip(cs)], [s.rstrip(cs)] and [s.strip(cs)] for a set [cs] of
    characters given by its membership test. *)
Fixpoint lstrip_by (f : ascii -> bool) (s : string) : string :=
  match s with
  | EmptyString => EmptyString
  | String c s' => if f c then lstrip_by f s' else s
  end.

Definition rstrip_by (f : ascii -> bool) (s : string) : string :=
  rev_string (lstrip_by f (rev_string s)).

Definition strip_by (f : ascii -> bool) (s : string) : string :=
  rstrip_by f (lstrip_by f s).

(** [s.strip()] *)
Definition strip (s : string) : string := strip_by is_space s.

Definition is_dq (c : ascii) : bool := Ascii.eqb c dq.

(** [str(n)] for an integer. *)
Definition of_Z (z : Z) : string := NilZero.string_of_int (Z.to_int z).

(** The digits of an [int(...)] argument after the sign: decimal digits, a
    single underscore allowed between two digits.  The result is the digits
    without the underscores. *)
Fixpoint int_digits (after_digit : bool) (s : string) : option string :=
  match s with
  | EmptyString => if after_digit then Some EmptyString else None
  | String c s' =>
      if is_digit c then option_map (String c) (int_digits true s')
      else if Ascii.eqb c "_" && after_digit then
        match s' with
        | String d _ => if is_digit d then int_digits false s' else None
        | EmptyString => None
        end
      else None
  end.

Definition nat_of_digits (s : string) : option Z :=
  match int_digits false s with
  | Some ds =>
      match NilZero.uint_of_string ds with
      | Some u => Some (Z.of_N (N.of_uint u))
      | None => None
      end
  | None => None
  end.

(** The white space that [int(...)] passes over at the two ends of its
    argument: the space and the codes 9 to 13.  The separators 28 to 31,
    which [str.strip] removes, are not among them. *)
Definition is_int_space (c : ascii) : bool :=
  Ascii.eqb c " " || in_range "009" "013" c.

(** [int(s)] for a string of ASCII characters: [None] stands for the
    [ValueError] Python raises. *)
Definition to_Z (s : string) : option Z :=
  match strip_by is_int_space s with
  | String "-" s' => option_map Z.opp (nat_of_digits s')
  | String "+" s' => nat_of_digits s'
  | s' => nat_of_digits s'
  end.

End PyStr.

Import PyStr.

(** ** Exceptions *)

(** The [ValueError]s of the converter, one constructor for each [raise]
    (and for the two built-in operations that raise it).  The names used by
    the specification are noted where they differ. *)
Inductive verr :=
| UnableToFindMetricName (query : string)        (* UnrecognizedShape *)
| UnableToFindMetricKey (query : string)         (* UnrecognizedShape *)
| UnableToFindAggregations (query : string)      (* UnrecognizedShape *)
| ConditionNotOnSelectField (query : string)     (* AmbiguousLabelFilter *)
| UnparseableGroupBy (group : string)
| DivideBySelfCombined (query : string)          (* UnsupportedCombination *)
| UnsupportedSubquery (query : string)
| UnexpectedAngleBrackets (query : string)
| UnsupportedStarQuery
| MissingSelect (dashboard : string)
| UnknownItemType (item_type : string)
| UnsupportedOrDifferentKey                      (* UnsupportedOrGroup *)
| UnsupportedOrOperator                          (* UnsupportedOrGroup *)
| UnknownGroupType (group_type : string)
| MissingMeasurement (dashboard : string)        (* MissingRequiredField *)
| MissingFieldName                               (* MissingRequiredField *)
| UnknownTemplateType (item : string)            (* UnknownTemplateKind *)
| UnableToFindTagValues (query : string)         (* UnrecognizedTemplatingShape *)
| AlertMappingMissing (notification : string)    (* NotificationMappingMissing *)
| InvalidIntLiteral (text : string)              (* int(...) *)
| InvalidFormatString                            (* str.format *)
| MaxOfEmptySequence                             (* max(...) *)
| WrongNumberOfValuesToUnpack (expected got : nat).

Inductive exn :=
| ValueError (e : verr)
| KeyError (key : string)
| AttributeError (what : string)
| TypeError (what : string)
| NotImplementedError (what : string)
| IndexError (what : string)
| RecursionError
| ConvertError (cause : exn).

(** [isinstance(e, ValueError)], the test of the two [except ValueError]
    clauses.  [ConvertError] derives from [Exception] directly. *)
Definition is_ValueError (e : exn) : bool :=
  match e with ValueError _ => true | _ => false end.

Inductive result (A : Type) :=
| Ok (a : A)
| Raise (e : exn).

Arguments Ok {A} a.
Arguments Raise {A} e.

(** ** Durations *)

(** [_duration_to_seconds] *)
Definition _duration_to_seconds (v : string) : result Z :=
  let v := lower v in
  let number (mult : Z) :=
    match to_Z (drop_last v) with
    | Some n => Ok (n * mult)
    | None => Raise (ValueError (InvalidIntLiteral (drop_last v)))
    end in
  if endswith "s" v then number 1
  else if endswith "m" v then number 60
  else if endswith "h" v then number 3600
  else if endswith "d" v then number 86400
  else if endswith "w" v then number (86400 * 7)
  else Raise (NotImplementedError v).

(** [_seconds_to_duration]; [divmod] is floor division and its remainder. *)
Definition _seconds_to_duration (seconds : Z) : string :=
  let mins := seconds / 60 in
  let div := seconds mod 60 in
  if negb (div =? 0) || (mins =? 0) then of_Z seconds +:+ "s"
  else
    let hours := mins / 60 in
    let div := mins mod 60 in
    if negb (div =? 0) || (hours =? 0) then of_Z mins +:+ "m"
    else of_Z hours +:+ "h".

(** ** Regular expressions

    The part of Python's [re] the converter uses, as a backtracking matcher:
    alternatives are tried left to right, a greedy repetition tries the
    longest run first and a lazy one the shortest, exactly the order in which
    Python explores a pattern, so the first match found is Python's. *)

Module Re.

Inductive regex :=
| Eps
| Chr (c : ascii)                      (* a literal character *)
| Cls (f : ascii -> bool)              (* a character class, [.] included *)
| Seq (r1 r2 : regex)
| Alt (r1 r2 : regex)                  (* r1|r2 *)
| Star (greedy : bool) (r : regex)     (* r* and r*? *)
| Grp (n : nat) (r : regex)            (* the n-th capturing group *)
| Bref (n : nat)                       (* \n *)
| NotAfter (c : ascii)                 (* (?<!c) *)
| Eos.                                 (* $ *)

(** A position in the subject: the character before it, the text from it on,
    and the groups captured so far (latest first). *)
Record mstate := MState {
  prev : option ascii;
  rest : list ascii;
  caps : list (nat * list ascii)
}.

Definition char_eq (ic : bool) (a b : ascii) : bool :=
  if ic then Ascii.eqb (lower_char a) (lower_char b) else Ascii.eqb a b.

Definition cls_match (ic : bool) (f : ascii -> bool) (x : ascii) : bool :=
  f x || (ic && (f (lower_char x) || f (upper_char x))).

Definition step (s : mstate) (x : ascii) (xs : list ascii) : mstate :=
  MState (Some x) xs (caps s).

(** The text between two positions of one subject. *)
Definition between (s s' : mstate) : list ascii :=
  take (length (rest s) - length (rest s')) (rest s).

Fixpoint get_cap (n : nat) (cs : list (nat * list ascii))
    : option (list ascii) :=
  match cs with
  | [] => None
  | (m, t) :: cs' => if Nat.eqb n m then Some t else get_cap n cs'
  end.

(** Reads the text [t] at position [s], or fails. *)
Fixpoint read_text (ic : bool) (t : list ascii) (s : mstate)
    : option mstate :=
  match t with
  | [] => Some s
  | c :: t' =>
      match rest s with
      | x :: xs =>
          if char_eq ic c x then read_text ic t' (step s x xs) else None
      | [] => None
      end
  end.

(** [run ic r k s] matches [r] at [s] and hands the position reached to the
    continuation [k]; a [None] from [k] makes the matcher backtrack.  [ic] is
    [re.IGNORECASE].  An iteration of a repetition has to consume a character,
    which every repeated pattern of the converter does. *)
Fixpoint run (ic : bool) (r : regex) (k : mstate -> option mstate)
    (s : mstate) : option mstate :=
  match r with
  | Eps => k s
  | Chr c =>
      match rest s with
      | x :: xs => if char_eq ic c x then k (step s x xs) else None
      | [] => None
      end
  | Cls f =>
      match rest s with
      | x :: xs => if cls_match ic f x then k (step s x xs) else None
      | [] => None
      end
  | Seq r1 r2 => run ic r1 (run ic r2 k) s
  | Alt r1 r2 =>
      match run ic r1 k s with
      | Some m => Some m
      | None => run ic r2 k s
      end
  | Star greedy r1 =>
      (fix loop (fuel : nat) (s : mstate) {struct fuel} : option mstate :=
         match fuel with
         | O => k s
         | S fuel' =>
             let again :=
               run ic r1
                 (fun s' =>
                    if (length (rest s') <? length (rest s))%nat
                    then loop fuel' s' else None) in
             if greedy then
               match again s with
               | Some m => Some m
               | None => k s
               end
             else
               match k s with
               | Some m => Some m
               | None => again s
               end
         end) (length (rest s)) s
  | Grp n r1 =>
      run ic r1
        (fun s' => k (MState (prev s') (rest s') ((n, between s s') :: caps s')))
        s
  | Bref n =>
      match get_cap n (caps s) with
      | Some t =>
          match read_text ic t s with
          | Some s' => k s'
          | None => None
          end
      | None => None
      end
  | NotAfter c =>
      match prev s with
      | Some x => if Ascii.eqb x c then None else k s
      | None => k s
      end
  | Eos =>
      match rest s with
      | [] => k s
      | [x] => if Ascii.eqb x "010" then k s else None
      | _ => None
      end
  end.

(** A match object: the matched text, the groups, and where it ends. *)
Record rmatch := RMatch {
  m_text : string;
  m_caps : list (nat * list ascii);
  m_end : mstate
}.

(** [m.group(n)]; [None] for a group that took no part in the match. *)
Definition group (n : nat) (m : rmatch) : option string :=
  option_map str (get_cap n (m_caps m)).

(** A group as [re.findall] reports it: empty when it took no part. *)
Definition group_text (n : nat) (m : rmatch) : string :=
  default EmptyString (group n m).

(** One attempt at position [s].  With [must_advance] an empty match is
    refused, which is how Python goes on after an empty match. *)
Definition attempt (ic : bool) (r : regex) (must_advance : bool)
    (s : mstate) : option rmatch :=
  let s0 := MState (prev s) (rest s) [] in
  match
    run ic r
      (fun s' =>
         if must_advance && (length (rest s') =? length (rest s))%nat
         then None else Some s')
      s0
  with
  | Some s' => Some (RMatch (str (between s0 s')) (caps s') s')
  | None => None
  end.

(** The leftmost match at or after a position. *)
Fixpoint scan (ic : bool) (r : regex) (must_advance : bool)
    (p : option ascii) (l : list ascii) : option (list ascii * rmatch) :=
  match attempt ic r must_advance (MState p l []) with
  | Some m => Some ([], m)
  | None =>
      match l with
      | [] => None
      | x :: xs =>
          match scan ic r false (Some x) xs with
          | Some (skipped, m) => Some (x :: skipped, m)
          | None => None
          end
      end
  end.

(** [re.match(r, s)] *)
Definition rmatch_at_start (ic : bool) (r : regex) (s : string)
    : option rmatch :=
  attempt ic r false (MState None (chars s) []).

(** [re.search(r, s)] *)
Definition search (ic : bool) (r : regex) (s : string) : option rmatch :=
  option_map snd (scan ic r false None (chars s)).

(** The successive non-overlapping matches of [r], each with the text
    skipped before it, and the text left after the last one.  At most
    [count] matches are taken when a count is given. *)
Fixpoint matches_go (fuel : nat) (ic : bool) (r : regex)
    (count : option nat) (must_advance : bool) (p : option ascii)
    (l : list ascii) : list (string * rmatch) * string :=
  match fuel with
  | O => ([], str l)
  | S fuel' =>
      match count with
      | Some O => ([], str l)
      | _ =>
          match scan ic r must_advance p l with
          | None => ([], str l)
          | Some (skipped, m) =>
              let empty := match m_text m with EmptyString => true | _ => false end in
              let '(ms, tl) :=
                matches_go fuel' ic r (option_map Nat.pred count) empty
                  (prev (m_end m)) (rest (m_end m)) in
              ((str skipped, m) :: ms, tl)
          end
      end
  end.

Definition matches (ic : bool) (r : regex) (count : option nat)
    (s : string) : list (string * rmatch) * string :=
  matches_go (2 * String.length s + 2) ic r count false None (chars s).

(** [re.findall(r, s)], as match objects. *)
Definition findall (ic : bool) (r : regex) (s : string) : list rmatch :=
  map snd (fst (matches ic r None s)).

(** [re.sub(r, repl, s, count)] for a function [repl] that also updates an
    accumulator [a], as the closure [_replace] of [get_labels] does. *)
Definition sub_fold {A : Type} (ic : bool) (r : regex)
    (repl : A -> rmatch -> A * string) (count : option nat) (a : A)
    (s : string) : A * string :=
  let '(ms, tl) := matches ic r count s in
  let '(a', out) :=
    fold_left
      (fun '(a, out) '(skipped, m) =>
         let '(a', t) := repl a m in (a', out +:+ skipped +:+ t))
      ms (a, EmptyString) in
  (a', out +:+ tl).

(** [re.sub(r, repl, s)] for a replacement computed from the match. *)
Definition sub (ic : bool) (r : regex) (repl : rmatch -> string)
    (s : string) : string :=
  snd (sub_fold ic r (fun (_ : unit) m => (tt, repl m)) None tt s).

(** *** Pattern combinators *)

Fixpoint seq (rs : list regex) : regex :=
  match rs with
  | [] => Eps
  | [r] => r
  | r :: rs' => Seq r (seq rs')
  end.

Fixpoint alt (rs : list regex) : regex :=
  match rs with
  | [] => Eps
  | [r] => r
  | r :: rs' => Alt r (alt rs')
  end.

Fixpoint lit (s : string) : regex :=
  match s with
  | EmptyString => Eps
  | String c EmptyString => Chr c
  | String c s' => Seq (Chr c) (lit s')
  end.

Definition star (r : regex) : regex := Star true r.          (* r*  *)
Definition star_lazy (r : regex) : regex := Star false r.    (* r*? *)
Definition plus (r : regex) : regex := Seq r (Star true r).  (* r+  *)
Definition plus_lazy (r : regex) : regex := Seq r (Star false r). (* r+? *)
Definition opt (r : regex) : regex := Alt r Eps.             (* r?  *)

Definition one_of (cs : string) (c : ascii) : bool :=
  existsb (Ascii.eqb c) (chars cs).

Definition any : regex := Cls (fun c => negb (Ascii.eqb c "010")).  (* . *)
Definition ws : regex := Cls is_space.                          (* \s *)
Definition nws : regex := Cls (fun c => negb (is_space c)).     (* \S *)
Definition wd : regex := Cls is_word.                           (* \w *)
Definition dg : regex := Cls is_digit.                          (* \d *)
Definition qt : regex := Chr dq.                                (* the double quote *)

End Re.

Import Re.

(** ** Module constants *)

Definition SCRAPE_INTERVAL_SECONDS : Z := 30.

Definition OVER_TIME_AGGREGATIONS : list string :=
  ["avg"; "min"; "max"; "sum"; "quantile"; "stddev"; "stdvar"; "count"].

Definition LABEL_COMPARISON_OPERATORS : list string := ["="; "!="; "=~"; "!~"].
Definition LABEL_CONDITIONS_OPERATORS : list string := ["<"; ">"; "<="; ">="; "="].

(** [TIME_INTERVAL_REGEX = "[0-9]+[mhdwy][s]?"] *)
Definition TIME_INTERVAL_REGEX : regex :=
  seq [plus dg; Cls (one_of "mhdwy"); opt (Chr "s")].

Definition INVALID_PROMQL_METRIC_CHARACTERS : list string :=
  ["."; "-"; " "; "%"].

Definition AGGREGATION_MAP : list (string * string) :=
  [("count", "count"); ("max", "max"); ("min", "min"); ("median", "avg");
   ("mean", "avg"); ("non_negative_derivative", "rate");
   ("non_negative_difference", "increase"); ("percentile", "avg");
   ("stddev", "stddev"); ("sum", "sum"); ("last", "avg");
   ("moving_average", "avg"); ("derivative", "rate"); ("difference", "delta")].

Definition AGGREGATION_TOPLEVEL_MAP : list (string * string) :=
  [("count", "sum")].

Definition NONDEFAULT_METRIC_PREFIX_SCRAPE_INTERVAL_SECONDS
    : list (string * Z) :=
  [("busy_metric_", 1)].

(** [METRIC_AGGREGATION_REGEXPS]:
    [.*_remaining_(percent_|)value], [(disk|swap)_free], [mem_available],
    [.*_error_value], [.*_size(_value|$)], [disk_used.*]. *)
Definition METRIC_AGGREGATION_REGEXPS : list (regex * string) :=
  [(seq [star any; lit "_remaining_"; Grp 1 (alt [lit "percent_"; Eps]);
         lit "value"], "min");
   (seq [Grp 1 (alt [lit "disk"; lit "swap"]); lit "_free"], "min");
   (lit "mem_available", "min");
   (seq [star any; lit "_error_value"], "max");
   (seq [star any; lit "_size"; Grp 1 (alt [lit "_value"; Eos])], "max");
   (seq [lit "disk_used"; star any], "max")].

(** A Python dict with string keys, in insertion order. *)
Fixpoint assoc {A : Type} (k : string) (d : list (string * A)) : option A :=
  match d with
  | [] => None
  | (k', v) :: d' => if String.eqb k k' then Some v else assoc k d'
  end.

(** [x in l] for a list of strings. *)
Definition mem (x : string) (l : list string) : bool :=
  existsb (String.eqb x) l.

(** The truth value of a string and of an optional string. *)
Definition nonempty (s : string) : bool :=
  match s with EmptyString => false | _ => true end.

Definition truthy_str (o : option string) : bool :=
  match o with Some s => nonempty s | None => false end.

(** A Python set of strings: no element twice.  The embedding lists the
    elements in the order they were first added; Python's iteration order is
    unspecified. *)
Definition set_add (x : string) (l : list string) : list string :=
  if mem x l then l else l ++ [x].

Definition set_of_list (l : list string) : list string :=
  fold_left (fun acc x => set_add x acc) l [].

Definition set_discard (x : string) (l : list string) : list string :=
  List.filter (fun y => negb (String.eqb x y)) l.

(** [sorted(l, key=key)]: a stable insertion sort, comparing the keys by
    code point order. *)
Fixpoint insert_by {A : Type} (key : A -> string) (x : A) (l : list A)
    : list A :=
  match l with
  | [] => [x]
  | y :: l' =>
      if String.ltb (key x) (key y) then x :: l else y :: insert_by key x l'
  end.

Definition sorted_by {A : Type} (key : A -> string) (l : list A) : list A :=
  fold_left (fun acc x => insert_by key x acc) l [].

(** [sorted(l)] for strings. *)
Definition sorted (l : list string) : list string :=
  sorted_by (fun x => x) l.

(** ** Python values

    The JSON-shaped data of a dashboard.  A dict keeps its keys in insertion
    order.  [VRef o] is a dict that is shared by reference: its content is the
    [o]-th object of the converter's store.  The converter shares template
    variables this way: one object sits in the dashboard's templating list, in
    [_get_rep_metric] and, after the back-fill, in the metric-usage index. *)

Inductive value :=
| VNone
| VBool (b : bool)
| VInt (n : Z)
| VStr (s : string)
| VList (l : list value)
| VDict (d : list (string * value))
| VRef (o : nat).

Definition dict := list (string * value).

(** [==] on values; [True == 1] and [False == 0] as in Python. *)
Fixpoint py_eq (a b : value) {struct a} : bool :=
  match a, b with
  | VNone, VNone => true
  | VBool x, VBool y => Bool.eqb x y
  | VBool x, VInt n | VInt n, VBool x => (n =? (if x then 1 else 0))
  | VInt n, VInt m => (n =? m)
  | VStr s, VStr t => String.eqb s t
  | VList l, VList m =>
      (fix eq_list (l m : list value) : bool :=
         match l, m with
         | [], [] => true
         | x :: l', y :: m' => py_eq x y && eq_list l' m'
         | _, _ => false
         end) l m
  | VDict d, VDict e =>
      (* the same keys with equal values, in any order *)
      (length d =? length e)%nat &&
      (fix sub_dict (d : dict) : bool :=
         match d with
         | [] => true
         | (k, v) :: d' =>
             match assoc k e with
             | Some w => py_eq v w && sub_dict d'
             | None => false
             end
         end) d
  | VRef o, VRef o' => Nat.eqb o o'
  | _, _ => false
  end.

(** [v == "text"] *)
Definition is_str (text : string) (v : value) : bool :=
  match v with VStr s => String.eqb s text | _ => false end.

(** [d[k] = v]: in place when the key exists, at the end otherwise. *)
Fixpoint dset (k : string) (v : value) (d : dict) : dict :=
  match d with
  | [] => [(k, v)]
  | (k', v') :: d' =>
      if String.eqb k k' then (k, v) :: d' else (k', v') :: dset k v d'
  end.

(** [d.pop(k, None)] and [del d[k]], as far as the dict goes. *)
Definition ddel (k : string) (d : dict) : dict :=
  List.filter (fun kv => negb (String.eqb k (fst kv))) d.

(** [k in d] *)
Definition dhas (k : string) (d : dict) : bool :=
  match assoc k d with Some _ => true | None => false end.

(** ** The error manager and the converter object *)

Record GrafanaDashboard := {
  gd_uid : value; gd_title : value; gd_folder : value; gd_updater : value
}.

Record GrafanaPanel := { gp_id : value; gp_title : value }.

(** The message of an error record: a text, or the text
    ["Unable to convert - {ex}"] for an exception [ex]. *)
Inductive emsg :=
| Text (s : string)
| UnableToConvert (ex : exn).

Inductive enotes :=
| NoNotes
| NoteText (s : string)
| NoteValue (v : value)
| NoteTarget (ref_id : value)       (* f'target={old_target["refId"]}' *)
| NoteExn (ex : exn)
| NoteStrings (l : list string).

(** [ConversionError] of [error_manager.py]; its link is computed from the
    dashboard and the panel recorded here. *)
Record ConversionError := {
  ce_message : emsg;
  ce_level : string;
  ce_notes : enotes;
  ce_dashboard : GrafanaDashboard;
  ce_panel : GrafanaPanel
}.

(** The converter object together with the error manager it holds and the
    store of shared objects. *)
Record converter := {
  (* the constructor's arguments *)
  grafana_datasources : dict;
  datasource_map : option (list (value * value));
  alert_notifications_map : option (list (Z * value));
  alert_notifications_uid_map : option (list (string * value));
  scrape_interval : Z;
  replacement_datasource : value;
  (* the attributes *)
  group_by_labels : option (list string);
  metric_to_objects : list (string * list (value * list value));
  (* metric -> title -> objects *)
  _current_dashboard : value;
  _get_rep_metric : list (bool * string * nat);
  _context_templating : value;
  (* the error manager: its context and its list *)
  ctx_dashboard : option GrafanaDashboard;
  ctx_panel : option GrafanaPanel;
  _conversion_errors : list ConversionError;
  (* the store *)
  objects : list dict
}.

Definition set_group_by_labels (x : option (list string)) (c : converter) :=
  {| grafana_datasources := grafana_datasources c;
     datasource_map := datasource_map c;
     alert_notifications_map := alert_notifications_map c;
     alert_notifications_uid_map := alert_notifications_uid_map c;
     scrape_interval := scrape_interval c;
     replacement_datasource := replacement_datasource c;
     group_by_labels := x;
     metric_to_objects := metric_to_objects c;
     _current_dashboard := _current_dashboard c;
     _get_rep_metric := _get_rep_metric c;
     _context_templating := _context_templating c;
     ctx_dashboard := ctx_dashboard c;
     ctx_panel := ctx_panel c;
     _conversion_errors := _conversion_errors c;
     objects := objects c |}.

Definition set_metric_to_objects
    (x : list (string * list (value * list value))) (c : converter) :=
  {| grafana_datasources := grafana_datasources c;
     datasource_map := datasource_map c;
     alert_notifications_map := alert_notifications_map c;
     alert_notifications_uid_map := alert_notifications_uid_map c;
     scrape_interval := scrape_interval c;
     replacement_datasource := replacement_datasource c;
     group_by_labels := group_by_labels c;
     metric_to_objects := x;
     _current_dashboard := _current_dashboard c;
     _get_rep_metric := _get_rep_metric c;
     _context_templating := _context_templating c;
     ctx_dashboard := ctx_dashboard c;
     ctx_panel := ctx_panel c;
     _conversion_errors := _conversion_errors c;
     objects := objects c |}.

Definition set_current_dashboard (x : value) (c : converter) :=
  {| grafana_datasources := grafana_datasources c;
     datasource_map := datasource_map c;
     alert_notifications_map := alert_notifications_map c;
     alert_notifications_uid_map := alert_notifications_uid_map c;
     scrape_interval := scrape_interval c;
     replacement_datasource := replacement_datasource c;
     group_by_labels := group_by_labels c;
     metric_to_objects := metric_to_objects c;
     _current_dashboard := x;
     _get_rep_metric := _get_rep_metric c;
     _context_templating := _context_templating c;
     ctx_dashboard := ctx_dashboard c;
     ctx_panel := ctx_panel c;
     _conversion_errors := _conversion_errors c;
     objects := objects c |}.

Definition set_get_rep_metric (x : list (bool * string * nat))
    (c : converter) :=
  {| grafana_datasources := grafana_datasources c;
     datasource_map := datasource_map c;
     alert_notifications_map := alert_notifications_map c;
     alert_notifications_uid_map := alert_notifications_uid_map c;
     scrape_interval := scrape_interval c;
     replacement_datasource := replacement_datasource c;
     group_by_labels := group_by_labels c;
     metric_to_objects := metric_to_objects c;
     _current_dashboard := _current_dashboard c;
     _get_rep_metric := x;
     _context_templating := _context_templating c;
     ctx_dashboard := ctx_dashboard c;
     ctx_panel := ctx_panel c;
     _conversion_errors := _conversion_errors c;
     objects := objects c |}.

Definition set_context_templating (x : value) (c : converter) :=
  {| grafana_datasources := grafana_datasources c;
     datasource_map := datasource_map c;
     alert_notifications_map := alert_notifications_map c;
     alert_notifications_uid_map := alert_notifications_uid_map c;
     scrape_interval := scrape_interval c;
     replacement_datasource := replacement_datasource c;
     group_by_labels := group_by_labels c;
     metric_to_objects := metric_to_objects c;
     _current_dashboard := _current_dashboard c;
     _get_rep_metric := _get_rep_metric c;
     _context_templating := x;
     ctx_dashboard := ctx_dashboard c;
     ctx_panel := ctx_panel c;
     _conversion_errors := _conversion_errors c;
     objects := objects c |}.

Definition set_ctx_dashboard (x : option GrafanaDashboard) (c : converter) :=
  {| grafana_datasources := grafana_datasources c;
     datasource_map := datasource_map c;
     alert_notifications_map := alert_notifications_map c;
     alert_notifications_uid_map := alert_notifications_uid_map c;
     scrape_interval := scrape_interval c;
     replacement_datasource := replacement_datasource c;
     group_by_labels := group_by_labels c;
     metric_to_objects := metric_to_objects c;
     _current_dashboard := _current_dashboard c;
     _get_rep_metric := _get_rep_metric c;
     _context_templating := _context_templating c;
     ctx_dashboard := x;
     ctx_panel := ctx_panel c;
     _conversion_errors := _conversion_errors c;
     objects := objects c |}.

Definition set_ctx_panel (x : option GrafanaPanel) (c : converter) :=
  {| grafana_datasources := grafana_datasources c;
     datasource_map := datasource_map c;
     alert_notifications_map := alert_notifications_map c;
     alert_notifications_uid_map := alert_notifications_uid_map c;
     scrape_interval := scrape_interval c;
     replacement_datasource := replacement_datasource c;
     group_by_labels := group_by_labels c;
     metric_to_objects := metric_to_objects c;
     _current_dashboard := _current_dashboard c;
     _get_rep_metric := _get_rep_metric c;
     _context_templating := _context_templating c;
     ctx_dashboard := ctx_dashboard c;
     ctx_panel := x;
     _conversion_errors := _conversion_errors c;
     objects := objects c |}.

Definition set_conversion_errors (x : list ConversionError) (c : converter) :=
  {| grafana_datasources := grafana_datasources c;
     datasource_map := datasource_map c;
     alert_notifications_map := alert_notifications_map c;
     alert_notifications_uid_map := alert_notifications_uid_map c;
     scrape_interval := scrape_interval c;
     replacement_datasource := replacement_datasource c;
     group_by_labels := group_by_labels c;
     metric_to_objects := metric_to_objects c;
     _current_dashboard := _current_dashboard c;
     _get_rep_metric := _get_rep_metric c;
     _context_templating := _context_templating c;
     ctx_dashboard := ctx_dashboard c;
     ctx_panel := ctx_panel c;
     _conversion_errors := x;
     objects := objects c |}.

Definition set_objects (x : list dict) (c : converter) :=
  {| grafana_datasources := grafana_datasources c;
     datasource_map := datasource_map c;
     alert_notifications_map := alert_notifications_map c;
     alert_notifications_uid_map := alert_notifications_uid_map c;
     scrape_interval := scrape_interval c;
     replacement_datasource := replacement_datasource c;
     group_by_labels := group_by_labels c;
     metric_to_objects := metric_to_objects c;
     _current_dashboard := _current_dashboard c;
     _get_rep_metric := _get_rep_metric c;
     _context_templating := _context_templating c;
     ctx_dashboard := ctx_dashboard c;
     ctx_panel := ctx_panel c;
     _conversion_errors := _conversion_errors c;
     objects := x |}.

(** A method of the converter: it reads and updates the object and returns
    or raises.  The updates made before a [raise] stay. *)
Definition M (A : Type) : Type := converter -> result A * converter.

Definition ret {A : Type} (a : A) : M A := fun c => (Ok a, c).

Definition raise {A : Type} (e : exn) : M A := fun c => (Raise e, c).

Definition bind {A B : Type} (m : M A) (f : A -> M B) : M B :=
  fun c =>
    match m c with
    | (Ok a, c') => f a c'
    | (Raise e, c') => (Raise e, c')
    end.

Definition lift {A : Type} (r : result A) : M A := fun c => (r, c).

Definition get {A : Type} (f : converter -> A) : M A := fun c => (Ok (f c), c).

Definition modify (f : converter -> converter) : M unit :=
  fun c => (Ok tt, f c).

Notation "'let*' x ':=' m 'in' k" := (bind m (fun x => k))
  (at level 10, x name, m at level 100, k at level 200, only parsing).
Notation "'let*' ' p ':=' m 'in' k" := (bind m (fun x => let 'p := x in k))
  (at level 10, p pattern, m at level 100, k at level 200, only parsing).

(** The same sequencing for a computation that uses no state. *)
Definition rbind {A B : Type} (r : result A) (f : A -> result B) : result B :=
  match r with
  | Ok a => f a
  | Raise e => Raise e
  end.

(** A list comprehension whose element expression can raise. *)
Fixpoint rmap {A B : Type} (f : A -> result B) (l : list A)
    : result (list B) :=
  match l with
  | [] => Ok []
  | x :: l' => rbind (f x) (fun y => rbind (rmap f l') (fun ys => Ok (y :: ys)))
  end.

(** [for x in l: body], threading the loop's variables [acc]. *)
Fixpoint for_each {A B : Type} (l : list A) (acc : B) (body : B -> A -> M B)
    : M B :=
  match l with
  | [] => ret acc
  | x :: l' => let* acc' := body acc x in for_each l' acc' body
  end.

(** [ErrorManager.add_error]: the record is kept only when a dashboard and a
    panel are in context. *)
Definition add_error (msg : emsg) (error_level : string) (notes : enotes)
    : M unit :=
  modify (fun c =>
    let msg :=
      match msg with
      | Text s => Text (replace "," "-" s)
      | UnableToConvert ex => UnableToConvert ex
      end in
    match ctx_dashboard c, ctx_panel c with
    | Some d, Some p =>
        set_conversion_errors
          (_conversion_errors c ++
             [{| ce_message := msg; ce_level := error_level;
                 ce_notes := notes; ce_dashboard := d; ce_panel := p |}]) c
    | _, _ => c
    end).

(** ** Reading Python values

    The source annotates targets, panels and template variables as dicts and
    their collections as lists.  A value of another type in such a place makes
    Python raise [TypeError] or [AttributeError], depending on the operation;
    the embedding raises [TypeError] for both.  Neither is a [ValueError]. *)

Definition as_dict (v : value) : result dict :=
  match v with
  | VDict d => Ok d
  | _ => Raise (TypeError "dict expected")
  end.

Definition as_list (v : value) : result (list value) :=
  match v with
  | VList l => Ok l
  | _ => Raise (TypeError "list expected")
  end.

(** A string on which a [str] method is called. *)
Definition as_str (v : value) : result string :=
  match v with
  | VStr s => Ok s
  | _ => Raise (AttributeError "str method on a value that is no str")
  end.

(** [d[k]] *)
Definition getitem (k : string) (d : dict) : result value :=
  match assoc k d with
  | Some v => Ok v
  | None => Raise (KeyError k)
  end.

(** [d.get(k)], with [None] for a missing key. *)
Definition dget (k : string) (d : dict) : value := default VNone (assoc k d).

(** [l[0]] *)
Definition first_item (l : list value) : result value :=
  match l with
  | x :: _ => Ok x
  | [] => Raise (IndexError "list index out of range")
  end.

(** The truth value of a value. *)
Definition truthy (v : value) : bool :=
  match v with
  | VNone => false
  | VBool b => b
  | VInt n => negb (n =? 0)
  | VStr s => nonempty s
  | VList l => negb (Nat.eqb (length l) 0)
  | VDict d => negb (Nat.eqb (length d) 0)
  | VRef _ => true
  end.

(** [repr(s)] for a string: single quotes, unless the string has a single
    quote and no double quote. *)
Fixpoint escape_for (quote : ascii) (s : string) : string :=
  match s with
  | EmptyString => EmptyString
  | String c s' =>
      (if Ascii.eqb c "\" then "\\"
       else if Ascii.eqb c quote then String "\" (String c EmptyString)
       else if Ascii.eqb c "010" then "\n"
       else if Ascii.eqb c "013" then "\r"
       else if Ascii.eqb c "009" then "\t"
       else String c EmptyString) +:+ escape_for quote s'
  end.

Definition repr_str (s : string) : string :=
  let quote :=
    if contains "'" s && negb (contains (String dq EmptyString) s)
    then dq else "'"%char in
  String quote (escape_for quote s) +:+ String quote EmptyString.

(** [repr(v)]; a shared dict is shown by its place in the store. *)
Fixpoint py_repr (v : value) : string :=
  match v with
  | VNone => "None"
  | VBool true => "True"
  | VBool false => "False"
  | VInt n => of_Z n
  | VStr s => repr_str s
  | VList l => "[" +:+ join ", " (map py_repr l) +:+ "]"
  | VDict d =>
      "{" +:+
      join ", " (map (fun kv => repr_str (fst kv) +:+ ": " +:+ py_repr (snd kv)) d)
      +:+ "}"
  | VRef o => "<" +:+ of_Z (Z.of_nat o) +:+ ">"
  end.

(** [str(v)] and the text [format] puts for [v]. *)
Definition py_str (v : value) : string :=
  match v with
  | VStr s => s
  | _ => py_repr v
  end.

(** [k in v] for a string [k] and any value [v]. *)
Definition py_in (k : string) (v : value) : result bool :=
  match v with
  | VDict d => Ok (dhas k d)
  | VStr s => Ok (contains k s)
  | VList l => Ok (existsb (is_str k) l)
  | _ => Raise (TypeError "argument is not iterable")
  end.

(** [v[k]] for a string [k] and any value [v]. *)
Definition py_index (k : string) (v : value) : result value :=
  match v with
  | VDict d => getitem k d
  | _ => Raise (TypeError "indices must be integers")
  end.

(** ** QueryShapeParser: the extraction functions *)

(** [_replace_invalid_metric_characters] *)
Definition _replace_invalid_metric_characters (metric : string) : string :=
  fold_left (fun m character => replace character "_" m)
    INVALID_PROMQL_METRIC_CHARACTERS metric.

(** [get_metric_aggregation] *)
Fixpoint first_matching (rs : list (regex * string)) (name : string)
    : option string :=
  match rs with
  | [] => None
  | (r, f) :: rs' =>
      match rmatch_at_start false r name with
      | Some _ => Some f
      | None => first_matching rs' name
      end
  end.

Definition get_metric_aggregation (metric_name : string) : string :=
  default "avg" (first_matching METRIC_AGGREGATION_REGEXPS metric_name).

(** The pattern "from `(\S+)` where". *)
Definition metric_series_re : regex :=
  seq [lit "from "; qt; Grp 1 (plus nws); qt; lit " where"].

(** The pattern "(\(`|\(|\`)([\w.]+)(`\)|\)|`)". *)
Definition word_or_dot (c : ascii) : bool := is_word c || Ascii.eqb c ".".

Definition metric_field_re : regex :=
  seq [Grp 1 (alt [Seq (Chr "(") qt; Chr "("; qt]);
       Grp 2 (plus (Cls word_or_dot));
       Grp 3 (alt [Seq qt (Chr ")"); Chr ")"; qt])].

(** [get_metric_name] *)
Definition get_metric_name (query : string) : result (string * string) :=
  match search true metric_series_re query with
  | None => Raise (ValueError (UnableToFindMetricName query))
  | Some part1 =>
      match search true metric_field_re query with
      | None => Raise (ValueError (UnableToFindMetricKey query))
      | Some part2 =>
          let g1 := group_text 1 part2 in
          Ok (group_text 1 part1,
              if mem g1 [String dq EmptyString; "("; String "(" (String dq EmptyString)]
              then group_text 2 part2 else g1)
      end
  end.

(** The pattern "select (.*) from". *)
Definition select_re : regex :=
  seq [lit "select "; Grp 1 (star any); lit " from"].

(** [get_aggregations] *)
Definition get_aggregations (query : string) : result (list string) :=
  match search true select_re query with
  | None => Raise (ValueError (UnableToFindAggregations query))
  | Some part1 =>
      let part2 := split "(" (group_text 1 part1) in
      Ok (omap (fun item => assoc item AGGREGATION_MAP) part2)
  end.

(** [single_eq_re], the pattern "`(\S+)`\s*=\s*'(\S+)'"; its two groups
    are numbered [g] and [g + 1]. *)
Definition single_eq_re (g : nat) : regex :=
  seq [qt; Grp g (plus nws); qt; star ws; Chr "="; star ws;
       Chr "'"; Grp (g + 1) (plus nws); Chr "'"].

(** The pattern "(\({single_eq_re}\s+(OR\s+{single_eq_re})*\))". *)
Definition or_group_re : regex :=
  Grp 1 (seq [Chr "("; single_eq_re 2; plus ws;
              star (Grp 4 (seq [lit "OR"; plus ws; single_eq_re 5]));
              Chr ")"]).

(** The closure [_replace] of [get_labels]; [labels] is the set it adds to. *)
Definition _replace (labels : list string) (m : rmatch)
    : list string * string :=
  let original_string := group_text 1 m in
  let results :=
    map (fun r => (group_text 1 r, group_text 2 r))
      (findall false (single_eq_re 1) original_string) in
  let keys := set_of_list (map fst results) in
  match keys with
  | [key] =>
      let values := join "|" (map snd results) in
      (set_add (key +:+ "=~" +:+ String dq values +:+ String dq EmptyString)
         labels,
       EmptyString)
  | _ => (labels, original_string)
  end.

(** The key of a comparison, "(\w+?|`\S+?`)". *)
Definition key_re : regex :=
  Grp 1 (alt [plus_lazy wd; seq [qt; plus_lazy nws; qt]]).

(** "(?<!\\)(?:\\{2})*" followed by the closing character [c]: the closing
    character is not escaped. *)
Definition closing (c : ascii) : regex :=
  seq [NotAfter "\"; star (Seq (Chr "\") (Chr "\")); Chr c].

(** "(\w+?|`\S+?`)\s*{op}\s*/(.*?)(?<!\\)(?:\\{2})*/" *)
Definition label_regex_re (op : string) : regex :=
  seq [key_re; star ws; lit op; star ws; Chr "/"; Grp 2 (star_lazy any);
       closing "/"].

(** "(\w+?|`\S+?`)\s*{op}\s*'(.*?)(?<!\\)(?:\\{2})*'" *)
Definition label_quoted_re (op : string) : regex :=
  seq [key_re; star ws; lit op; star ws; Chr "'"; Grp 2 (star_lazy any);
       closing "'"].

(** "(\w+?|`\S+?`)\s*{op}\s*([^\s'~].*?)(?:\)|\s)" *)
Definition label_plain_re (op : string) : regex :=
  seq [key_re; star ws; lit op; star ws;
       Grp 2 (seq [Cls (fun c => negb (is_space c || one_of "'~" c));
                   star_lazy any]);
       alt [Chr ")"; ws]].

Definition key_value (m : rmatch) : string * string :=
  (group_text 1 m, group_text 2 m).

Definition label (key operator value : string) : string :=
  key +:+ operator +:+ String dq value +:+ String dq EmptyString.

(** The body of the loop over the matches of a regex comparison. *)
Definition regex_label (field_name operator : string) (labels : list string)
    (kv : string * string) : list string :=
  let '(key, value) := kv in
  let key := replace "-" "_" (rstrip_by is_dq (lstrip_by is_dq key)) in
  if String.eqb key field_name then labels
  else
    let value :=
      if startswith "^" value then drop 1 value
      else if negb (startswith ".*" value) then ".*" +:+ value
      else value in
    let value :=
      if endswith "$" value then drop_last value
      else if negb (endswith ".*" value) then value +:+ ".*"
      else value in
    let value := replace "\/" "/" value in
    let value := replace "\" "\\" value in
    let value := replace "'" "\'" value in
    set_add (label key operator value) labels.

Definition _escape_backslashes (s : string) : string := replace "\" "\\" s.

(** The body of the two loops over the matches of a plain comparison. *)
Definition plain_label (field_name operator : string) (labels : list string)
    (kv : string * string) : list string :=
  let '(key, value) := kv in
  let key := rstrip_by is_dq (lstrip_by is_dq key) in
  if String.eqb key field_name then labels
  else set_add (label key operator (_escape_backslashes value)) labels.

(** The body of the loop over [LABEL_COMPARISON_OPERATORS]. *)
Definition operator_labels (query field_name : string)
    (labels : list string) (operator : string) : list string :=
  if mem operator ["!~"; "=~"] then
    fold_left (regex_label field_name operator)
      (map key_value (findall false (label_regex_re operator) query)) labels
  else
    let labels :=
      fold_left (plain_label field_name operator)
        (map key_value (findall false (label_quoted_re operator) query))
        labels in
    fold_left (plain_label field_name operator)
      (map key_value (findall false (label_plain_re operator) query)) labels.

(** The set [labels] when [get_labels] returns, and the rewritten query.
    [re.sub] is called with [re.IGNORECASE] in the place of its count: at
    most two groups are replaced, case-sensitively. *)
Definition collect_labels (query field_name : string)
    : string * list string :=
  let '(labels, query) :=
    sub_fold false or_group_re _replace (Some 2%nat) [] query in
  (query, fold_left (operator_labels query field_name)
            LABEL_COMPARISON_OPERATORS labels).

(** [get_labels] *)
Definition get_labels (query field_name : string) : string * string :=
  let '(query, labels) := collect_labels query field_name in
  (query, join "," (sorted labels)).

(** "(\w+?|`\S+?`)\s*{op}\s*(-?\w+(?:\.?\d+)?)" *)
Definition condition_re (op : string) : regex :=
  seq [key_re; star ws; lit op; star ws;
       Grp 2 (seq [opt (Chr "-"); plus wd;
                   opt (seq [opt (Chr "."); plus dg])])].

(** The loop over the matches of one operator of [get_conditions].  The
    loop rebinds [operator], so it is one of the loop's variables. *)
Fixpoint conditions_of_matches (query field_name : string)
    (kvs : list (string * string)) (operator : string)
    (conditions : list string) : result (list string) :=
  match kvs with
  | [] => Ok conditions
  | (key, value) :: kvs' =>
      let key := strip_by is_dq key in
      if negb (String.eqb key field_name) then
        if String.eqb operator "=" then
          conditions_of_matches query field_name kvs' operator conditions
        else Raise (ValueError (ConditionNotOnSelectField query))
      else
        let operator := if String.eqb operator "=" then "==" else operator in
        conditions_of_matches query field_name kvs' operator
          (conditions ++ [operator +:+ " " +:+ value])
  end.

Fixpoint conditions_of_operators (query field_name : string)
    (operators : list string) (conditions : list string)
    : result (list string) :=
  match operators with
  | [] => Ok conditions
  | operator :: operators' =>
      rbind
        (conditions_of_matches query field_name
           (map key_value (findall false (condition_re operator) query))
           operator conditions)
        (conditions_of_operators query field_name operators')
  end.

(** What [get_conditions] returns: a string, or a list of strings. *)
Inductive conds :=
| CondStr (s : string)
| CondList (l : list string).

(** [get_conditions] *)
Definition get_conditions (query field_name : string) : result conds :=
  rbind
    (conditions_of_operators query field_name LABEL_CONDITIONS_OPERATORS [])
    (fun conditions =>
       if contains " OR " query && negb (Nat.eqb (length conditions) 0)
       then Ok (CondList conditions)
       else Ok (CondStr (join " " conditions))).

(** The truth value of what [get_conditions] returned. *)
Definition conds_truthy (c : conds) : bool :=
  match c with
  | CondStr EmptyString => false
  | CondStr _ => true
  | CondList [] => false
  | CondList _ => true
  end.

(** "select\s+(\S+?)\s*/\s*\1\s+from " *)
Definition divide_by_self_re : regex :=
  seq [lit "select"; plus ws; Grp 1 (plus_lazy nws); star ws; Chr "/";
       star ws; Bref 1; plus ws; lit "from "].

(** [does_divide_by_self] *)
Definition does_divide_by_self (query : string) : bool :=
  match search true divide_by_self_re query with
  | Some _ => true
  | None => false
  end.

(** "[`)](\s*[*/+\-]\s*-?[\d]+?(?:\.\d+?)?) from" *)
Definition modification_re : regex :=
  seq [Cls (fun c => is_dq c || Ascii.eqb c ")");
       Grp 1 (seq [star ws; Cls (one_of "*/+-"); star ws; opt (Chr "-");
                   plus_lazy dg; opt (seq [Chr "."; plus_lazy dg])]);
       lit " from"].

(** [get_modifications] *)
Definition get_modifications (query : string) : list string :=
  match search true modification_re query with
  | Some part1 => [group_text 1 part1]
  | None => []
  end.

(** [GroupBy] *)
Record GroupBy := {
  group_by : string;
  over_time : string;
  fills : list string
}.

(** "(?i)fill\((.*)\)" and "\((.*)\)" *)
Definition fill_re : regex := seq [lit "fill("; Grp 1 (star any); Chr ")"].
Definition parens_re : regex := seq [Chr "("; Grp 1 (star any); Chr ")"].

(** The variables of the loops of [get_group_by]. *)
Record group_by_vars := {
  gb_fills : list string;
  gb_group_by : list string;
  gb_time_val : string
}.

(** The body of the inner loop of [get_group_by]. *)
Definition group_by_step (vars : group_by_vars) (group : string)
    : result group_by_vars :=
  match group with
  | EmptyString => Ok vars
  | _ =>
      match rmatch_at_start true fill_re group with
      | Some m =>
          Ok {| gb_fills := gb_fills vars ++ [group_text 1 m];
                gb_group_by := gb_group_by vars;
                gb_time_val := gb_time_val vars |}
      | None =>
          if contains "time" group then
            match search false parens_re group with
            | None => Raise (ValueError (UnparseableGroupBy group))
            | Some m =>
                Ok {| gb_fills := gb_fills vars;
                      gb_group_by := gb_group_by vars;
                      gb_time_val :=
                        replace "$interval" "$__interval"
                          (replace "auto" "$__interval"
                             (replace "$_interval" "$__interval"
                                (group_text 1 m))) |}
            end
          else
            Ok {| gb_fills := gb_fills vars;
                  gb_group_by :=
                    gb_group_by vars ++
                      [replace (String dq EmptyString) EmptyString
                         (replace "," EmptyString group)];
                  gb_time_val := gb_time_val vars |}
      end
  end.

Fixpoint group_by_loop (vars : group_by_vars) (groups : list string)
    : result group_by_vars :=
  match groups with
  | [] => Ok vars
  | group :: groups' =>
      rbind (group_by_step vars group) (fun vars => group_by_loop vars groups')
  end.

(** [get_group_by] *)
Definition get_group_by (query : string) : M (option GroupBy) :=
  let* _ := modify (set_group_by_labels None) in
  match split "group by" (lower query) with
  | _ :: groups1 :: _ =>
      let groups := flat_map (split ",") (split " " groups1) in
      let* vars :=
        lift (group_by_loop
                {| gb_fills := []; gb_group_by := []; gb_time_val := EmptyString |}
                groups) in
      let* _ := modify (set_group_by_labels (Some (gb_group_by vars))) in
      let group_by_str :=
        match gb_group_by vars with
        | [] => EmptyString
        | _ => " by (" +:+ join "," (gb_group_by vars) +:+ ")"
        end in
      ret (Some {| group_by := group_by_str;
                   over_time := gb_time_val vars;
                   fills := gb_fills vars |})
  | _ => ret None
  end.

(** "(\(`|\(|\`)(?P<field>[\w.]+)(`\)|\)|`)( AS ['`]?(?P<alias>\w+)['`]?)?";
    [field] is group 2 and [alias] group 5. *)
Definition alias_re : regex :=
  seq [Grp 1 (alt [Seq (Chr "(") qt; Chr "("; qt]);
       Grp 2 (plus (Cls word_or_dot));
       Grp 3 (alt [Seq qt (Chr ")"); Chr ")"; qt]);
       opt (Grp 4 (seq [lit " AS "; opt (Cls (fun c => one_of "'" c || is_dq c));
                        Grp 5 (plus wd);
                        opt (Cls (fun c => one_of "'" c || is_dq c))]))].

(** [get_alias_from_query]: [None] is Python's [None], the value of a group
    that took no part in the match. *)
Definition get_alias_from_query (query : string) : result (option string) :=
  match search true alias_re query with
  | None => Raise (ValueError (UnableToFindMetricKey query))
  | Some m => Ok (group 5 m)
  end.

(** ** ExpressionBuilder *)

(** The first loop of [format_expression], over [aggregations]; the loop
    variable is [aggregation] itself. *)
Definition over_time_aggregations_of (aggregations : list string)
    (aggregation : string) : string * list string :=
  fold_left
    (fun '(_, ota) aggregation =>
       (aggregation,
        if mem aggregation OVER_TIME_AGGREGATIONS then
          if mem "rate" aggregations then set_add "rate" ota
          else if mem "increase" aggregations then set_add "increase" ota
          else set_add (aggregation +:+ "_over_time") ota
        else ota))
    aggregations (aggregation, []).

(** The scrape interval of a metric: the loop over
    [NONDEFAULT_METRIC_PREFIX_SCRAPE_INTERVAL_SECONDS]. *)
Definition scrape_interval_of (default_interval : Z) (metric_name : string)
    : Z :=
  fold_left
    (fun scrape_interval '(metric_prefix, scrape_interval_override) =>
       if startswith metric_prefix metric_name
       then scrape_interval_override else scrape_interval)
    NONDEFAULT_METRIC_PREFIX_SCRAPE_INTERVAL_SECONDS default_interval.

(** The body of the loop of [format_expression] over the conditions, in
    the four parts below.  [metric_name] is the name with its invalid
    characters replaced.

    The first part, up to [if divide_by_self]: the aggregation, the window
    [over_time] and the set [over_time_aggregations]. *)
Definition format_windows (aggregations : list string)
    (group_by_ : option GroupBy) : string * option string * list string :=
  let over_time_ : option string := option_map over_time group_by_ in
  let aggregation := List.last aggregations EmptyString in
  match group_by_ with
  | Some _ =>
      if negb (truthy_str over_time_) then
        (aggregation,
         if mem "count" aggregations then Some "$__range" else over_time_,
         [])
      else
        let '(aggregation, ota) :=
          over_time_aggregations_of aggregations aggregation in
        (aggregation, over_time_, ota)
  | None => (aggregation, over_time_, [])
  end.

(** The second part: the condition, made boolean for a query that divides
    by itself, and dropped when it is ["> 0"] on a sum. *)
Definition format_bool_condition (divide_by_self : bool)
    (aggregation condition : string) : string :=
  let condition :=
    if divide_by_self then
      replace_n " " " bool " (Some 1%nat)
        (if negb (nonempty condition) then "!= 0" else condition)
    else condition in
  if String.eqb condition "> 0" && String.eqb aggregation "sum"
  then EmptyString else condition.

(** The third part, [if aggregation:]: the text before the opening
    parenthesis, the window and the set. *)
Definition format_outer (metric_name : string) (group_by_ : option GroupBy)
    (condition aggregation : string) (over_time_ : option string)
    (over_time_aggregations : list string)
    : string * option string * list string :=
  if nonempty aggregation then
    let '(aggregation, over_time_, over_time_aggregations) :=
      if mem aggregation ["rate"; "increase"]
         && Nat.eqb (length over_time_aggregations) 0
      then
        (get_metric_aggregation metric_name,
         if negb (truthy_str over_time_) then Some "$__rate_interval"
         else over_time_,
         set_add aggregation over_time_aggregations)
      else (aggregation, over_time_, over_time_aggregations) in
    match group_by_ with
    | Some g =>
        if nonempty (group_by g)
           || negb (Nat.eqb (length over_time_aggregations) 0)
        then
          let '(aggregation, over_time_aggregations) :=
            if negb (nonempty condition) then
              let old_agg := aggregation in
              let aggregation :=
                default aggregation
                  (assoc aggregation AGGREGATION_TOPLEVEL_MAP) in
              (aggregation,
               if String.eqb old_agg "count" && String.eqb aggregation "sum"
               then ["count_over_time"] else over_time_aggregations)
            else (aggregation, over_time_aggregations) in
          (aggregation +:+ _replace_invalid_metric_characters (group_by g),
           over_time_, over_time_aggregations)
        else (aggregation, over_time_, over_time_aggregations)
    | None => (aggregation, over_time_, over_time_aggregations)
    end
  else (EmptyString, over_time_, over_time_aggregations).

(** [if condition and set(aggregations).difference({"avg", "max", "min"})] *)
Definition format_clear_windows (aggregations : list string)
    (condition : string) (over_time_aggregations : list string)
    : list string :=
  if nonempty condition
     && negb (Nat.eqb
                (length (List.filter (fun a => negb (mem a ["avg"; "max"; "min"]))
                           aggregations)) 0)
  then [] else over_time_aggregations.

(** The fourth part: [inner_expr] and what follows the closing parenthesis,
    and [over_times] extended. *)
Definition format_inner (self_scrape_interval : Z) (metric_name : string)
    (aggregations : list string) (labels : string)
    (modifications : list string) (over_times : list string)
    (condition : string) (over_time_ : option string)
    (over_time_aggregations : list string) : string * list string :=
  let windowed := negb (Nat.eqb (length over_time_aggregations) 0) in
  let inner_expr :=
    if windowed then join " " over_time_aggregations +:+ "("
    else EmptyString in
  let inner_expr := inner_expr +:+ metric_name in
  let inner_expr :=
    if nonempty labels then inner_expr +:+ "{" +:+ labels +:+ "}"
    else inner_expr in
  let '(inner_expr, over_times) :=
    match over_time_ with
    | Some ot =>
        if nonempty ot then
          let scrape_interval :=
            scrape_interval_of self_scrape_interval metric_name in
          let '(ot, over_times) :=
            if mem "rate" aggregations || mem "increase" aggregations then
              if mem ot ["$__rate_interval"; "$__interval"]
                 && (scrape_interval =? self_scrape_interval)
              then ("$__rate_interval", over_times)
              else
                (ot, over_times ++ [_seconds_to_duration (scrape_interval * 4)])
            else (ot, over_times ++ [_seconds_to_duration scrape_interval]) in
          let inner_expr :=
            if windowed then
              inner_expr +:+ "[" +:+
                sub false TIME_INTERVAL_REGEX (fun _ => "$__interval") ot
                +:+ "]"
            else inner_expr in
          (inner_expr, over_times ++ [ot])
        else (inner_expr, over_times)
    | None => (inner_expr, over_times)
    end in
  let inner_expr :=
    if windowed then inner_expr +:+ ")" +:+ condition
    else inner_expr +:+ condition +:+ ")" +:+ join " " modifications in
  (if windowed then inner_expr +:+ ") " +:+ join " " modifications
   else inner_expr,
   over_times).

(** The body of the loop: the expression of one condition, and
    [over_times] extended. *)
Definition format_condition (self_scrape_interval : Z) (divide_by_self : bool)
    (metric_name : string) (aggregations : list string) (labels : string)
    (group_by_ : option GroupBy) (modifications : list string)
    (over_times : list string) (condition : string)
    : string * list string :=
  let '(aggregation, over_time_, over_time_aggregations) :=
    format_windows aggregations group_by_ in
  let condition := format_bool_condition divide_by_self aggregation condition in
  let '(expr, over_time_, over_time_aggregations) :=
    format_outer metric_name group_by_ condition aggregation over_time_
      over_time_aggregations in
  let over_time_aggregations :=
    format_clear_windows aggregations condition over_time_aggregations in
  let '(inner_expr, over_times) :=
    format_inner self_scrape_interval metric_name aggregations labels
      modifications over_times condition over_time_ over_time_aggregations in
  (replace "'" "'" (expr +:+ "(" +:+ inner_expr), over_times).

(** What [convert_expression] returns: the expression, the time windows,
    the fill policies and the alias. *)
Definition expression : Type :=
  string * list string * list string * option string.

(** [format_expression] *)
Definition format_expression (divide_by_self : bool) (metric_name : string)
    (aggregations : list string) (labels : string)
    (group_by_ : option GroupBy) (modifications : list string)
    (conditions : conds) (alias_name : option string) : M expression :=
  let conditions :=
    match conditions with
    | CondList l => l
    | CondStr c => [c]
    end in
  let metric_name := _replace_invalid_metric_characters metric_name in
  let* self_scrape_interval := get scrape_interval in
  let '(expressions, over_times) :=
    fold_left
      (fun '(expressions, over_times) condition =>
         let '(expr, over_times) :=
           format_condition self_scrape_interval divide_by_self metric_name
             aggregations labels group_by_ modifications over_times condition in
         (expressions ++ [expr], over_times))
      conditions ([], []) in
  let fills_ := match group_by_ with Some g => fills g | None => [] end in
  ret (join " or " expressions, over_times, fills_, alias_name).

(** [x == ["avg"]] *)
Definition is_just_avg (l : list string) : bool :=
  match l with
  | [a] => String.eqb a "avg"
  | _ => false
  end.

(** [convert_expression] *)
Definition convert_expression (query : string) : M expression :=
  let* '(series_name, field_name) := lift (get_metric_name query) in
  let series_name :=
    replace (String dq EmptyString) EmptyString
      (List.last (split "." series_name) EmptyString) in
  let* alias_name := lift (get_alias_from_query query) in
  let field_name := replace "." "_" field_name in
  let metric_name := series_name +:+ "_" +:+ field_name in
  let* aggregations := lift (get_aggregations query) in
  let aggregations :=
    if is_just_avg aggregations then [get_metric_aggregation metric_name]
    else aggregations in
  let '(query, labels) := get_labels query field_name in
  let modifications := get_modifications query in
  let* group_by_ := get_group_by query in
  let* aggregations :=
    match aggregations, group_by_ with
    | [], Some g =>
        if nonempty (group_by g) then
          let aggregations := [get_metric_aggregation metric_name] in
          let* _ :=
            if is_just_avg aggregations then
              add_error
                (Text ("Using default aggregation of avg for " +:+ query))
                "WARN" NoNotes
            else ret tt in
          ret aggregations
        else ret aggregations
    | _, _ => ret aggregations
    end in
  let* conditions := lift (get_conditions query field_name) in
  let divide_by_self := does_divide_by_self query in
  if divide_by_self
     && (conds_truthy conditions
         || negb (Nat.eqb (length modifications) 0))
  then raise (ValueError (DivideBySelfCombined query))
  else
    format_expression divide_by_self metric_name aggregations labels
      group_by_ modifications conditions alias_name.

(** A converter as its constructor leaves it, for the given arguments. *)
Definition new_converter (datasources : dict)
    (replacement : value) (interval : Z) : converter :=
  {| grafana_datasources := datasources;
     datasource_map := None;
     alert_notifications_map := None;
     alert_notifications_uid_map := None;
     scrape_interval := interval;
     replacement_datasource := replacement;
     group_by_labels := None;
     metric_to_objects := [];
     _current_dashboard := VStr EmptyString;
     _get_rep_metric := [];
     _context_templating := VNone;
     ctx_dashboard := None;
     ctx_panel := None;
     _conversion_errors := [];
     objects := [] |}.

(** The converter of the examples: no datasource registry, the default
    scrape interval, and a Prometheus replacement datasource. *)
Definition converter0 : converter :=
  new_converter [] (VDict [("uid", VStr "m3"); ("type", VStr "prometheus")])
    SCRAPE_INTERVAL_SECONDS.

(** ** DatasourceClassifier ([influx_detection.py]) *)

(** The dict behind an element of a collection: the element itself, or the
    object of the store it refers to. *)
Definition item_dict (c : converter) (v : value) : result dict :=
  match v with
  | VDict d => Ok d
  | VRef o =>
      match objects c !! o with
      | Some d => Ok d
      | None => Raise (TypeError "dict expected")
      end
  | _ => Raise (TypeError "dict expected")
  end.

(** [normalize_target_uid] *)
Definition normalize_target_uid (target : dict) : result string :=
  match target with
  | [] => Ok EmptyString
  | _ =>
      let ds := default (VDict []) (assoc "datasource" target) in
      rbind (py_in "uid" ds) (fun has_uid =>
      let normalize (uid : value) :=
        rbind (as_str uid) (fun uid =>
        Ok (replace "}" EmptyString
              (replace "{" EmptyString (replace "$" EmptyString uid)))) in
      if has_uid then rbind (py_index "uid" ds) normalize
      else
        match ds with
        | VStr _ => normalize ds
        | _ => Ok EmptyString
        end)
  end.

(** [_influxdb_datasource_type], with [_basic_ds_type_check] *)
Definition _influxdb_datasource_type (target : dict) : result bool :=
  if is_str "influxdb" (dget "dsType" target) then Ok true
  else
    match assoc "datasource" target with
    | None => Ok false
    | Some ds =>
        rbind (py_in "type" ds) (fun has_type =>
        if has_type
        then rbind (py_index "type" ds) (fun t => Ok (is_str "influxdb" t))
        else Ok false)
    end.

(** The test of the Flux variant shared by the two registry lookups:
    [ds.get("jsonData", {}).get("version", "") == "Flux"]. *)
Definition is_flux (ds : dict) : result bool :=
  rbind (as_dict (default (VDict []) (assoc "jsonData" ds))) (fun json_data =>
  Ok (is_str "Flux" (default (VStr EmptyString) (assoc "version" json_data)))).

(** [_influxdb_like_by_uid]; [typ] is [None] at every call, so the branch
    on it is never taken. *)
Definition _influxdb_like_by_uid (c : converter) (uid : string)
    : result bool :=
  match assoc uid (grafana_datasources c) with
  | None => Ok false
  | Some ds =>
      rbind (as_dict ds) (fun ds =>
      rbind (getitem "type" ds) (fun t =>
      if is_str "influxdb" t
      then rbind (is_flux ds) (fun flux => Ok (negb flux))
      else Ok false))
  end.

(** [_ds_list_by_name]: a later datasource replaces an earlier one of the
    same name. *)
Fixpoint _ds_list_by_name (datasources : dict) (acc : dict) : result dict :=
  match datasources with
  | [] => Ok acc
  | (_, v) :: rest =>
      rbind (as_dict v) (fun d =>
      rbind (getitem "name" d) (fun name =>
      match name with
      | VStr name => _ds_list_by_name rest (dset name v acc)
      | VList _ | VDict _ | VRef _ => Raise (TypeError "unhashable type")
      | _ => _ds_list_by_name rest acc
      end))
  end.

(** [_influxdb_like_by_ds_name] *)
Definition _influxdb_like_by_ds_name (c : converter) (ds : string)
    : result bool :=
  rbind (_ds_list_by_name (grafana_datasources c) []) (fun by_name =>
  match assoc ds by_name with
  | None => Ok false
  | Some v =>
      rbind (as_dict v) (fun d =>
      rbind (getitem "type" d) (fun t =>
      if is_str "influxdb" t
      then rbind (is_flux d) (fun flux => Ok (negb flux))
      else Ok false))
  end).

(** The loop of [_uid_matches_influx_templating]. *)
Fixpoint templating_names_uid (c : converter) (uid_normalized : string)
    (items : list value) : result bool :=
  match items with
  | [] => Ok false
  | item :: items' =>
      rbind (item_dict c item) (fun item =>
      rbind (getitem "name" item) (fun name =>
      rbind (if is_str uid_normalized name
             then rbind (getitem "type" item) (fun t =>
                  if is_str "datasource" t
                  then rbind (getitem "query" item) (fun q =>
                       Ok (is_str "influxdb" q))
                  else Ok false)
             else Ok false) (fun found =>
      if found then Ok true
      else templating_names_uid c uid_normalized items')))
  end.

(** [_uid_matches_influx_templating]: a [KeyError] or [TypeError] raised
    inside counts as no match. *)
Definition _uid_matches_influx_templating (c : converter) (target : dict)
    (templating : value) : result bool :=
  let body :=
    rbind (normalize_target_uid target) (fun uid_normalized =>
    rbind (py_index "list" templating) (fun l =>
    rbind (as_list l) (templating_names_uid c uid_normalized))) in
  match body with
  | Raise (KeyError _) | Raise (TypeError _) => Ok false
  | r => r
  end.

(** [a or b], where [b] is evaluated only when [a] is false. *)
Definition or_else (a : result bool) (b : result bool) : result bool :=
  rbind a (fun x => if x then Ok true else b).

(** [is_target_influx] without the look at the panel's datasource. *)
Definition target_looks_influx (c : converter) (target : dict)
    (templating : value) : result bool :=
  rbind (normalize_target_uid target) (fun uid =>
  let ds := default (VDict []) (assoc "datasource" target) in
  or_else (_influxdb_datasource_type target)
    (or_else (_influxdb_like_by_uid c uid)
       (or_else (_uid_matches_influx_templating c target templating)
          (or_else
             (match ds with
              | VStr ds => _influxdb_like_by_ds_name c ds
              | _ => Ok false
              end)
             (_influxdb_like_by_ds_name c uid))))).

(** [is_target_influx]; the call on the panel's datasource passes no panel
    datasource in turn. *)
Definition is_target_influx (c : converter) (target : dict)
    (templating : value) (panel_datasource : value) : result bool :=
  rbind (target_looks_influx c target templating) (fun ret =>
  if negb ret && truthy panel_datasource then
    target_looks_influx c [("datasource", panel_datasource)] templating
  else Ok ret).

(** ** Structured targets: [convert_to_query] *)

(** [template.format(alias=alias)]: [{{] and [}}] stand for a brace, and
    [{name}] for the argument of that name.  [field] is the name being read.
    Names with a conversion or a format specification do not occur. *)
Fixpoint format_alias (alias : string) (field : option string) (s : string)
    : result string :=
  match s with
  | EmptyString =>
      match field with
      | None => Ok EmptyString
      | Some _ => Raise (ValueError InvalidFormatString)
      end
  | String c s' =>
      match field with
      | Some acc =>
          if Ascii.eqb c "}" then
            let name := rev_string acc in
            if String.eqb name "alias" then
              rbind (format_alias alias None s') (fun t => Ok (alias +:+ t))
            else if forallb is_digit (chars name) then
              Raise (IndexError "Replacement index out of range")
            else Raise (KeyError name)
          else if Ascii.eqb c "{" then Raise (ValueError InvalidFormatString)
          else format_alias alias (Some (String c acc)) s'
      | None =>
          if Ascii.eqb c "{" then
            match s' with
            | String "{" s'' =>
                rbind (format_alias alias None s'') (fun t => Ok (String "{" t))
            | _ => format_alias alias (Some EmptyString) s'
            end
          else if Ascii.eqb c "}" then
            match s' with
            | String "}" s'' =>
                rbind (format_alias alias None s'') (fun t => Ok (String "}" t))
            | _ => Raise (ValueError InvalidFormatString)
            end
          else rbind (format_alias alias None s') (fun t => Ok (String c t))
      end
  end.

(** What [convert_to_query] returns: the query, or the tuple
    [("not-influx-target", [], [])] for a flagged target. *)
Inductive query_or_flag :=
| QueryText (query : string)
| NotInfluxTuple.

(** The variables of the loop over the select items. *)
Record select_vars := {
  sv_value : string;
  sv_select_what : string;
  sv_alias : value;
  sv_modifications : list value
}.

(** The lower-cased type of a select item, the sort key. *)
Definition select_item_key (item : value) : result string :=
  rbind (as_dict item) (fun item =>
  rbind (getitem "type" item) (fun t =>
  rbind (as_str t) (fun t => Ok (lower t)))).

(** [item["params"][0]] *)
Definition first_param (item : dict) : result value :=
  rbind (getitem "params" item) (fun params =>
  rbind (as_list params) first_item).

(** The body of the loop over the sorted items of one select. *)
Definition select_item (vars : select_vars) (item : value) : M select_vars :=
  let* item := lift (as_dict item) in
  let* item_type := lift (getitem "type" item) in
  if is_str "field" item_type then
    let* p := lift (first_param item) in
    let* p := lift (as_str p) in
    ret {| sv_value := replace "::tag" EmptyString p;
           sv_select_what := sv_select_what vars;
           sv_alias := sv_alias vars;
           sv_modifications := sv_modifications vars |}
  else if is_str "math" item_type then
    let* params := lift (getitem "params" item) in
    let* params := lift (as_list params) in
    ret {| sv_value := sv_value vars;
           sv_select_what := sv_select_what vars;
           sv_alias := sv_alias vars;
           sv_modifications := sv_modifications vars ++ params |}
  else
    match item_type with
    | VList _ | VDict _ | VRef _ => raise (TypeError "unhashable type")
    | _ =>
        let name := match item_type with VStr t => t | _ => EmptyString end in
        let is_aggregation :=
          match item_type with
          | VStr t => match assoc t AGGREGATION_MAP with Some _ => true | None => false end
          | _ => false
          end in
        if is_aggregation then
          let* params := lift (getitem "params" item) in
          let* param_str :=
            if truthy params then
              let* p := lift (rbind (as_list params) first_item) in
              ret (", " +:+ replace "::tag" EmptyString (py_str p))
            else ret EmptyString in
          let* select_what :=
            if nonempty (sv_select_what vars) then
              ret (name +:+ "(" +:+ sv_select_what vars +:+ param_str +:+ ")")
            else if negb (mem name ["max"; "last"]) then
              lift (format_alias
                      (if truthy (sv_alias vars)
                       then " AS " +:+ String dq (py_str (sv_alias vars))
                              +:+ String dq EmptyString
                       else EmptyString)
                      None
                      (name +:+ "(" +:+ String dq (sv_value vars)
                         +:+ String dq EmptyString +:+ param_str
                         +:+ "){alias}"))
            else ret (sv_select_what vars) in
          ret {| sv_value := sv_value vars;
                 sv_select_what := select_what;
                 sv_alias := sv_alias vars;
                 sv_modifications := sv_modifications vars |}
        else if is_str "alias" item_type then
          let* p := lift (first_param item) in
          ret {| sv_value := sv_value vars;
                 sv_select_what := sv_select_what vars;
                 sv_alias := p;
                 sv_modifications := sv_modifications vars |}
        else if is_str "distinct" item_type then
          let* _ :=
            add_error (Text "Dropping unsupported item type: distinct")
              "INFO" NoNotes in
          ret vars
        else raise (ValueError (UnknownItemType (py_repr item_type)))
    end.

(** The body of the loop over [target["select"]]: the items of one select,
    sorted by their lower-cased type. *)
Definition select_group (vars : select_vars) (select : value)
    : M select_vars :=
  let* items := lift (as_list select) in
  let* keys := lift (rmap select_item_key items) in
  let sorted_items := map snd (sorted_by fst (combine keys items)) in
  for_each sorted_items vars select_item.

(** [tag.get("condition") == "OR"] and the like, for a tag of the list. *)
Definition tag_field_is (field text : string) (tag : value) : result bool :=
  rbind (as_dict tag) (fun tag => Ok (is_str text (dget field tag))).

(** [any(p(x) for x in l)] and [all(p(x) for x in l)], which stop at the
    first element that decides. *)
Fixpoint any_of {A : Type} (p : A -> result bool) (l : list A) : result bool :=
  match l with
  | [] => Ok false
  | x :: l' => rbind (p x) (fun b => if b then Ok true else any_of p l')
  end.

Fixpoint all_of {A : Type} (p : A -> result bool) (l : list A) : result bool :=
  match l with
  | [] => Ok true
  | x :: l' => rbind (p x) (fun b => if b then all_of p l' else Ok false)
  end.

(** The elements of [set(keys)]: a key is kept the first time it occurs. *)
Fixpoint distinct_values (l : list value) (acc : list value) : list value :=
  match l with
  | [] => acc
  | x :: l' =>
      distinct_values l' (if existsb (py_eq x) acc then acc else acc ++ [x])
  end.

Definition hashable (v : value) : bool :=
  match v with
  | VList _ | VDict _ | VRef _ => false
  | _ => true
  end.

(** [tag["value"].replace("::tag", "")] *)
Definition tag_value (tag : value) : result string :=
  rbind (as_dict tag) (fun tag =>
  rbind (getitem "value" tag) (fun v =>
  rbind (as_str v) (fun v => Ok (replace "::tag" EmptyString v)))).

(** The variables of the loop that cleans the regular expressions of an OR
    group. *)
Record regex_vars := {
  rv_cleaned : list string;
  rv_start : nat;
  rv_end : nat
}.

Definition clean_regex (vars : regex_vars) (tag : value) : result regex_vars :=
  rbind (tag_value tag) (fun v =>
  let cleaned := strip (replace "/" EmptyString v) in
  let '(cleaned, starts) :=
    if startswith "^" cleaned then (drop 1 cleaned, S (rv_start vars))
    else (".*" +:+ cleaned, rv_start vars) in
  let '(cleaned, ends) :=
    if endswith "$" cleaned then (drop_last cleaned, S (rv_end vars))
    else (cleaned +:+ ".*", rv_end vars) in
  Ok {| rv_cleaned := rv_cleaned vars ++ [cleaned];
        rv_start := starts; rv_end := ends |}).

Fixpoint clean_regexes (vars : regex_vars) (tags : list value)
    : result regex_vars :=
  match tags with
  | [] => Ok vars
  | tag :: tags' =>
      rbind (clean_regex vars tag) (fun vars => clean_regexes vars tags')
  end.

(** The [where] item of a tag that is not part of an OR group. *)
Definition plain_tag (tag : value) : result string :=
  rbind (as_dict tag) (fun tag =>
  rbind (getitem "operator" tag) (fun operator =>
  let operator := if is_str "<>" operator then VStr "!=" else operator in
  rbind (getitem "key" tag) (fun key =>
  rbind (as_str key) (fun key =>
  rbind (getitem "value" tag) (fun v =>
  Ok (String dq (replace "::tag" EmptyString key) +:+ String dq EmptyString
        +:+ py_str operator +:+ py_str v)))))).

(** The [where] items of [target["tags"]]. *)
Definition where_of_tags (tags : list value) : M (list string) :=
  let* has_or := lift (any_of (tag_field_is "condition" "OR") tags) in
  if has_or then
    let* keys :=
      lift (rmap (fun tag => rbind (as_dict tag) (getitem "key")) tags) in
    if negb (forallb hashable keys) then raise (TypeError "unhashable type")
    else if negb (Nat.eqb (length (distinct_values keys [])) 1) then
      raise (ValueError UnsupportedOrDifferentKey)
    else
      let* all_eq := lift (all_of (tag_field_is "operator" "=") tags) in
      let* regex_parsing :=
        if negb all_eq then
          let* all_re := lift (all_of (tag_field_is "operator" "=~") tags) in
          if negb all_re then raise (ValueError UnsupportedOrOperator)
          else ret true
        else ret false in
      let key := py_str (List.hd VNone keys) in
      if regex_parsing then
        let* vars :=
          lift (clean_regexes
                  {| rv_cleaned := []; rv_start := 0; rv_end := 0 |} tags) in
        let n := length (rv_cleaned vars) in
        let* _ :=
          if negb (Nat.eqb (rv_end vars) 0 || Nat.eqb (rv_end vars) n) then
            add_error
              (Text "End boundaries are different - resulting regex can be different than intended !!!! Skipping end boundary")
              "INFO" NoNotes
          else ret tt in
        let* _ :=
          if negb (Nat.eqb (rv_start vars) 0 || Nat.eqb (rv_start vars) n) then
            add_error
              (Text "Start boundaries are different - resulting regex can be different than intended !!!! Skipping start boundary")
              "INFO" NoNotes
          else ret tt in
        ret [String dq key +:+ String dq EmptyString +:+ "=~/^("
               +:+ join "|" (rv_cleaned vars) +:+ ")$/"]
      else
        let* values := lift (rmap tag_value tags) in
        ret [String dq key +:+ String dq EmptyString +:+ "=~/^"
               +:+ join "|" values +:+ "$/"]
  else lift (rmap plain_tag tags).

(** The body of the loop over [target["groupBy"]]. *)
Definition group_by_item (items : list string) (group : value)
    : result (list string) :=
  rbind (as_dict group) (fun group =>
  rbind (getitem "type" group) (fun t =>
  if is_str "time" t then
    rbind (first_param group) (fun p =>
    Ok (items ++ [py_str t +:+ "(" +:+ py_str p +:+ ")"]))
  else if is_str "tag" t then
    rbind (first_param group) (fun p =>
    rbind (as_str p) (fun p =>
    Ok (items ++ [String dq (replace "::tag" EmptyString p)
                    +:+ String dq EmptyString])))
  else if is_str "fill" t then Ok items
  else Raise (ValueError (UnknownGroupType (py_str t))))).

Fixpoint group_by_items (items : list string) (groups : list value)
    : result (list string) :=
  match groups with
  | [] => Ok items
  | group :: groups' =>
      rbind (group_by_item items group) (fun items =>
      group_by_items items groups')
  end.

(** [convert_to_query] *)
Definition convert_to_query (target : dict) (legend : string)
    : M query_or_flag :=
  if truthy (dget "not-influx-target" target) then ret NotInfluxTuple
  else
    let* current := get _current_dashboard in
    match dget "select" target with
    | VNone => raise (ValueError (MissingSelect (py_str current)))
    | select =>
        let* selects := lift (as_list select) in
        let* vars :=
          for_each selects
            {| sv_value := EmptyString; sv_select_what := EmptyString;
               sv_alias := VStr EmptyString; sv_modifications := [] |}
            select_group in
        let select_what :=
          if String.eqb (sv_select_what vars) EmptyString
          then String dq (sv_value vars) +:+ String dq EmptyString
          else sv_select_what vars in
        let* where_items :=
          match assoc "tags" target with
          | Some tags =>
              let* tags := lift (as_list tags) in
              let* items := where_of_tags tags in
              ret ("$timeFilter" :: items)
          | None => ret ["$timeFilter"]
          end in
        let where_ := "(" +:+ join " AND " where_items +:+ ")" in
        let* groups := lift (getitem "groupBy" target) in
        let* groups := lift (as_list groups) in
        let* items := lift (group_by_items [] groups) in
        let group_by_ :=
          match items with
          | [] => EmptyString
          | _ => " GROUP BY " +:+ join "," items
          end in
        if negb (truthy (dget "measurement" target)) then
          raise (ValueError (MissingMeasurement (py_str current)))
        else
          let* modifications :=
            lift (rmap (fun m =>
                          match m with
                          | VStr m => Ok m
                          | _ => Raise (TypeError "sequence item: expected str instance")
                          end) (sv_modifications vars)) in
          ret (QueryText
                 ("SELECT " +:+ select_what +:+ join " " modifications
                    +:+ " FROM " +:+ String dq (py_str (dget "measurement" target))
                    +:+ String dq EmptyString +:+ " WHERE " +:+ where_
                    +:+ group_by_))
    end.

(** ** Targets *)

(** [convert_subquery].  Its pattern, written with [re.VERBOSE], is
    "\s*SELECT\s+SUM\(`(?P<outer_key>[a-z]+)`\)\s*FROM\s*\((?P<inner1>\s*SELECT\s*[^\s]+\s*)(AS\s\S+\s+)?(?P<inner2>.*)\s+GROUP\s+BY.*\)\s*(?P<outer_group>GROUP\sBY\s.*)";
    [inner1], [inner2] and [outer_group] are the groups 2, 4 and 5. *)
Definition subquery_re : regex :=
  seq [star ws; lit "SELECT"; plus ws; lit "SUM("; qt;
       Grp 1 (plus (Cls is_lower)); qt; Chr ")"; star ws; lit "FROM"; star ws;
       Chr "(";
       Grp 2 (seq [star ws; lit "SELECT"; star ws; plus nws; star ws]);
       opt (Grp 3 (seq [lit "AS"; ws; plus nws; plus ws]));
       Grp 4 (star any); plus ws; lit "GROUP"; plus ws; lit "BY"; star any;
       Chr ")"; star ws;
       Grp 5 (seq [lit "GROUP"; ws; lit "BY"; ws; star any])].

(** [convert_subquery] unpacks three values from [convert_expression], which
    returns four: when the inner expression converts, the unpacking raises
    [ValueError], and the statements after it are never reached. *)
Definition convert_subquery (query : string) : M expression :=
  match rmatch_at_start true subquery_re query with
  | Some m =>
      let subquery :=
        group_text 2 m +:+ " " +:+ group_text 4 m +:+ " " +:+ group_text 5 m in
      let* _ := convert_expression subquery in
      raise (ValueError (WrongNumberOfValuesToUnpack 3 4))
  | None => raise (ValueError (UnsupportedSubquery query))
  end.

(** [convert_query].  The [query] argument is what [convert_to_query]
    returned; on the tuple, [in] looks for an equal element and [lower] does
    not exist. *)
Definition convert_query (query : query_or_flag) (target : dict)
    (legend : string) : M (value * list string * list string) :=
  match query with
  | NotInfluxTuple =>
      raise (AttributeError "'tuple' object has no attribute 'lower'")
  | QueryText query =>
      if contains "<>" query then
        raise (ValueError (UnexpectedAngleBrackets query))
      else if contains "(*)" query then raise (ValueError UnsupportedStarQuery)
      else
        let* '(expr, over_times, fills_, alias_name) :=
          if contains "from (" (lower query) then convert_subquery query
          else convert_expression query in
        let* fmt := lift (getitem "resultFormat" target) in
        let* legend :=
          if contains "$col" legend then
            if truthy_str alias_name then
              ret (replace "$col" (default EmptyString alias_name) legend)
            else
              let* _ :=
                add_error (Text "Alias not detected, not replacing $col")
                  "WARN" NoNotes in
              ret legend
          else ret legend in
        let* ref_id := lift (getitem "refId" target) in
        let new_target :=
          [("expr", VStr expr); ("format", fmt);
           ("instant", VBool (py_eq fmt (VStr "table")));
           ("intervalFactor", VInt 1); ("refId", ref_id);
           ("legendFormat", VStr legend)] in
        let new_target :=
          match assoc "hide" target with
          | Some hide => dset "hide" hide new_target
          | None => new_target
          end in
        ret (VDict new_target, over_times, fills_)
  end.

(** "(\[\[|\$)tag_([a-zA-Z_]+)(\]\]|)" and "\d+\w+\spercentile" *)
Definition legend_tag_re : regex :=
  seq [Grp 1 (alt [lit "[["; Chr "$"]); lit "tag_";
       Grp 2 (plus (Cls (fun c => is_alpha c || Ascii.eqb c "_")));
       Grp 3 (alt [lit "]]"; Eps])].

Definition percentile_re : regex :=
  seq [plus dg; plus wd; ws; lit "percentile"].

(** [get_legend_format]; [re.sub] raises [TypeError] on an alias that is no
    string. *)
Definition get_legend_format (target : dict) : M string :=
  match default (VStr EmptyString) (assoc "alias" target) with
  | VStr alias =>
      let legend :=
        sub false legend_tag_re
          (fun m => "{{ " +:+ group_text 2 m +:+ " }}") alias in
      let legend := sub false percentile_re (fun _ => "Mean") legend in
      let* labels := get group_by_labels in
      match legend, labels with
      | EmptyString, Some (label :: labels') =>
          ret (join " " (map (fun label => "{{" +:+ label +:+ "}}")
                           (label :: labels')))
      | _, _ => ret legend
      end
  | _ => raise (TypeError "expected string or bytes-like object")
  end.

(** The notes of the record for a skipped target. *)
Definition skipped_target_notes (target : dict) : enotes :=
  match assoc "refId" target with
  | Some ref_id => NoteTarget ref_id
  | None => NoteText "target unknown"
  end.

(** "  +": two or more spaces. *)
Definition spaces_re : regex := seq [Chr " "; plus (Chr " ")].

(** The body of the loop of [convert_targets]; the loop's variables are
    [new_targets], [r_over_times] and [r_fills]. *)
Definition convert_target (old_panel_datasource : value)
    (acc : list value * list string * list string) (target : value)
    : M (list value * list string * list string) :=
  let '(new_targets, r_over_times, r_fills) := acc in
  let* target_d := lift (as_dict target) in
  let* templating := get _context_templating in
  let* influx :=
    fun c => (is_target_influx c target_d templating old_panel_datasource, c) in
  if influx then
    let* legend := get_legend_format target_d in
    let legend :=
      if nonempty legend then _replace_invalid_metric_characters legend
      else legend in
    let* '(new_target, over_times, fills_) :=
      if truthy (dget "rawQuery" target_d) then
        let* query := lift (getitem "query" target_d) in
        let* query := lift (as_str query) in
        let query := replace (String "010" EmptyString) " " query in
        let query := sub false spaces_re (fun _ => " ") query in
        convert_query (QueryText query) target_d legend
      else
        let* query := convert_to_query target_d legend in
        convert_query query target_d legend in
    if py_eq new_target (VStr "not-influx-target") then
      ret (new_targets ++ [target], r_over_times, r_fills)
    else
      ret (new_targets ++ [new_target], r_over_times ++ over_times,
           r_fills ++ fills_)
  else
    let* _ :=
      add_error (Text "Skipping target - not Influx or is Flux") "DEBUG"
        (skipped_target_notes target_d) in
    (* deepcopy(target), then the flag *)
    ret (new_targets ++ [VDict (dset "not-influx-target" (VBool true) target_d)],
         r_over_times, r_fills).

(** [convert_targets] *)
Definition convert_targets (targets : list value)
    (old_panel_datasource : value)
    : M (list value * list string * list string) :=
  for_each targets ([], [], []) (convert_target old_panel_datasource).

(** [get_metric_field_from_select] *)
Fixpoint first_field (items : list value) : result value :=
  match items with
  | [] => Ok VNone
  | item :: items' =>
      rbind (as_dict item) (fun d =>
      rbind (getitem "type" d) (fun t =>
      if is_str "field" t then first_param d else first_field items'))
  end.

Definition get_metric_field_from_select (select : value) : result value :=
  rbind (as_list select) (fun selects =>
  rbind (first_item selects) (fun first =>
  rbind (as_list first) first_field)).


Fixpoint vassoc {A : Type} (k : value) (d : list (value * A)) : option A :=
  match d with
  | [] => None
  | (k', v) :: d' => if py_eq k k' then Some v else vassoc k d'
  end.

Fixpoint vset {A : Type} (k : value) (v : A) (d : list (value * A))
    : list (value * A) :=
  match d with
  | [] => [(k, v)]
  | (k', v') :: d' =>
      if py_eq k k' then (k', v) :: d' else (k', v') :: vset k v d'
  end.

Fixpoint sset {A : Type} (k : string) (v : A) (d : list (string * A))
    : list (string * A) :=
  match d with
  | [] => [(k, v)]
  | (k', v') :: d' =>
      if String.eqb k k' then (k, v) :: d' else (k', v') :: sset k v d'
  end.

(** [self.metric_to_objects[metric][self._current_dashboard].append(x)];
    [x] is [new_targets[i]], [None] when the list has no such element. *)
Definition index_append (metric : string) (x : option value) : M unit :=
  let* title := get _current_dashboard in
  let* idx := get metric_to_objects in
  match assoc metric idx with
  | None => raise (KeyError metric)
  | Some d =>
      if negb (hashable title) then raise (TypeError "unhashable type")
      else
        match vassoc title d with
        | None => raise (KeyError (py_str title))
        | Some l =>
            match x with
            | None => raise (IndexError "list index out of range")
            | Some x =>
                modify (set_metric_to_objects
                          (sset metric (vset title (l ++ [x]) d) idx))
            end
        end
  end.

(** The handler of the [KeyError]: the metric gets an empty dict when it has
    none or an empty one, and the title an empty list. *)
Definition index_make_room (metric : string) : M unit :=
  let* title := get _current_dashboard in
  let* idx := get metric_to_objects in
  let d :=
    match assoc metric idx with
    | Some (kv :: d) => kv :: d
    | _ => []
    end in
  let idx := sset metric d idx in
  let* _ := modify (set_metric_to_objects idx) in
  if negb (hashable title) then raise (TypeError "unhashable type")
  else modify (set_metric_to_objects (sset metric (vset title [] d) idx)).

(** [try: m except KeyError: handler] *)
Definition except_KeyError {A : Type} (m : M A) (handler : M A) : M A :=
  fun c =>
    match m c with
    | (Raise (KeyError _), c') => handler c'
    | r => r
    end.

(** The body of the loop of [add_to_metric_and_object_list]. *)
Definition add_target_to_index (old_panel_datasource : value)
    (old_new : value * option value) : M unit :=
  let '(old_target, new_target) := old_new in
  let* old_target := lift (as_dict old_target) in
  let* templating := get _context_templating in
  let* influx :=
    fun c =>
      (is_target_influx c old_target templating old_panel_datasource, c) in
  if negb influx then
    add_error (Text "Skipping target - not Influx or is Flux") "DEBUG"
      (skipped_target_notes old_target)
  else
    let* metric_name :=
      if match dget "rawQuery" old_target with VBool true => true | _ => false end
      then
        let* query := lift (getitem "query" old_target) in
        let* query :=
          match query with
          | VStr q => ret q
          | _ => raise (TypeError "expected string or bytes-like object")
          end in
        let* '(metric_name, field_name) := lift (get_metric_name query) in
        ret (metric_name +:+ field_name)
      else
        let* metric_name :=
          match assoc "measurement" old_target with
          | Some (VStr m) => ret (m +:+ "_")
          | Some _ =>
              let* _ :=
                add_error (Text "Missing measurement field") "INFO"
                  (NoteValue (VDict old_target)) in
              raise (TypeError "unsupported operand type(s) for +")
          | None =>
              let* _ :=
                add_error (Text "Missing measurement field") "INFO"
                  (NoteValue (VDict old_target)) in
              raise (KeyError "measurement")
          end in
        let* select := lift (getitem "select" old_target) in
        let* field_name := lift (get_metric_field_from_select select) in
        if truthy field_name then
          match field_name with
          | VStr f => ret (metric_name +:+ f)
          | _ => raise (TypeError "can only concatenate str to str")
          end
        else
          let* _ :=
            add_error (Text "Missing field name") "INFO"
              (NoteValue (VDict old_target)) in
          raise (ValueError MissingFieldName) in
    let metric_name := _replace_invalid_metric_characters metric_name in
    let* _ :=
      except_KeyError (index_append metric_name new_target)
        (index_make_room metric_name) in
    index_append metric_name new_target.

(** [enumerate(old_targets)] paired with [new_targets[i]]. *)
Fixpoint with_new_targets (old_targets new_targets : list value)
    : list (value * option value) :=
  match old_targets with
  | [] => []
  | t :: old' => (t, head new_targets) :: with_new_targets old' (tail new_targets)
  end.

(** [add_to_metric_and_object_list] *)
Definition add_to_metric_and_object_list (old_targets new_targets : list value)
    (old_panel_datasource : value) : M unit :=
  for_each (with_new_targets old_targets new_targets) tt
    (fun _ => add_target_to_index old_panel_datasource).

(** ** Panels *)

(** [int(v)] for a value. *)
Definition py_int (v : value) : result Z :=
  match v with
  | VInt n => Ok n
  | VBool b => Ok (if b then 1 else 0)
  | VStr s =>
      match to_Z s with
      | Some n => Ok n
      | None => Raise (ValueError (InvalidIntLiteral s))
      end
  | _ => Raise (TypeError "int() argument must be a string or a number")
  end.

(** [d.get(k)] for the map from notification ids; [True] and [1] are the
    same key. *)
Definition get_by_id (d : list (Z * value)) (k : value) : result value :=
  let find (n : Z) :=
    default VNone (snd <$> List.find (fun kv => fst kv =? n) d) in
  match k with
  | VInt n => Ok (find n)
  | VBool b => Ok (find (if b then 1 else 0))
  | VList _ | VDict _ | VRef _ => Raise (TypeError "unhashable type")
  | _ => Ok VNone
  end.

Definition get_by_uid (d : list (string * value)) (k : value) : result value :=
  match k with
  | VStr s => Ok (default VNone (assoc s d))
  | VList _ | VDict _ | VRef _ => Raise (TypeError "unhashable type")
  | _ => Ok VNone
  end.

Definition is_none (v : value) : bool :=
  match v with VNone => true | _ => false end.

(** The body of the loop of [convert_alerts]. *)
Definition convert_notification (ids : list (Z * value))
    (uids : list (string * value)) (notifications : list value)
    (notification : value) : result (list value) :=
  rbind (as_dict notification) (fun n =>
  let n_id := dget "id" n in
  rbind (if truthy n_id then get_by_id ids n_id else Ok VNone) (fun new_uid =>
  rbind
    (if is_none new_uid then
       rbind (getitem "uid" n) (fun n_uid =>
       match py_int n_uid with
       | Ok i => get_by_id ids (VInt i)
       | Raise (ValueError _) => get_by_uid uids n_uid
       | Raise e => Raise e
       end)
     else Ok new_uid) (fun new_uid =>
  if is_none new_uid then
    Raise (ValueError (AlertMappingMissing (py_str notification)))
  else
    let new_notification := VDict [("uid", new_uid)] in
    if existsb (py_eq new_notification) notifications then Ok notifications
    else Ok (notifications ++ [new_notification])))).

Fixpoint convert_notifications (ids : list (Z * value))
    (uids : list (string * value)) (notifications : list value)
    (l : list value) : result (list value) :=
  match l with
  | [] => Ok notifications
  | n :: l' =>
      rbind (convert_notification ids uids notifications n) (fun ns =>
      convert_notifications ids uids ns l')
  end.

(** [convert_alerts]; the alert it returns is the argument after the
    updates made in place. *)
Definition convert_alerts (alert : dict) : M dict :=
  let* ids := get alert_notifications_map in
  let* uids := get alert_notifications_uid_map in
  match ids, uids with
  | Some (i :: ids'), Some (u :: uids') =>
      let* name := lift (getitem "name" alert) in
      let alert := dset "name" (VStr (py_str name +:+ " (M3)")) alert in
      let* l := lift (rbind (getitem "notifications" alert) as_list) in
      let* notifications :=
        lift (convert_notifications (i :: ids') (u :: uids') [] l) in
      ret (dset "notifications" (VList notifications) alert)
  | _, _ =>
      let* _ := lift (getitem "notifications" alert) in
      ret (ddel "notifications" alert)
  end.

(** [convert_series_overrides] *)
Definition convert_series_override (override : value) : result value :=
  rbind (as_dict override) (fun d =>
  let alias := dget "alias" d in
  if truthy alias then
    match alias with
    | VStr a =>
        Ok (VDict (dset "alias"
                     (VStr (sub false percentile_re (fun _ => "Mean") a)) d))
    | _ => Raise (TypeError "expected string or bytes-like object")
    end
  else Ok (VDict d)).

Definition convert_series_overrides (overrides : value) : result value :=
  rbind (as_list overrides) (fun l =>
  rbind (rmap convert_series_override l) (fun l' => Ok (VList l'))).

(** A step of the body of [convert_panel]: it reads and updates the panel
    and the converter, and returns or raises; the updates made to either
    before a [raise] stay. *)
Definition P (A : Type) : Type :=
  dict -> converter -> result A * dict * converter.

Definition pret {A : Type} (a : A) : P A := fun p c => (Ok a, p, c).

Definition pbind {A B : Type} (m : P A) (f : A -> P B) : P B :=
  fun p c =>
    match m p c with
    | (Ok a, p', c') => f a p' c'
    | (Raise e, p', c') => (Raise e, p', c')
    end.

Definition of_M {A : Type} (m : M A) : P A :=
  fun p c => let '(r, c') := m c in (r, p, c').

Definition panel_get {A : Type} (f : dict -> A) : P A :=
  fun p c => (Ok (f p), p, c).

Definition panel_set (k : string) (v : value) : P unit :=
  fun p c => (Ok tt, dset k v p, c).

Definition panel_pop (k : string) : P unit :=
  fun p c => (Ok tt, ddel k p, c).

Notation "'let+' x ':=' m 'in' k" := (pbind m (fun x => k))
  (at level 10, x name, m at level 100, k at level 200, only parsing).
Notation "'let+' ' p ':=' m 'in' k" := (pbind m (fun x => let 'p := x in k))
  (at level 10, p pattern, m at level 100, k at level 200, only parsing).

(** The intervals left in [over_times] after the discards, and the records
    for those dropped by the loop. *)
Definition funny_interval (item : string) : bool :=
  contains "$__interval" item || contains "$Interval" item
  || contains "$unite_interval" item || contains "$__rate_interval" item.

Definition drop_funny_intervals (over_times : list string)
    : M (list string) :=
  let* _ :=
    for_each (List.filter funny_interval over_times) tt
      (fun _ item =>
         add_error (Text "Dropping unsupported interval") "INFO"
           (NoteText item)) in
  ret (List.filter (fun item => negb (funny_interval item)) over_times).

(** [max(_duration_to_seconds(x) for x in over_times)] for a non-empty
    set. *)
Fixpoint max_seconds (l : list string) (acc : option Z) : result Z :=
  match l with
  | [] =>
      match acc with
      | Some n => Ok n
      | None => Raise (ValueError MaxOfEmptySequence)
      end
  | x :: l' =>
      rbind (_duration_to_seconds x) (fun n =>
      max_seconds l' (Some (match acc with Some m => Z.max m n | None => n end)))
  end.

(** The statements of [convert_panel] under [if "targets" in panel]. *)
Definition convert_panel_targets (old_panel_datasource : value) : P unit :=
  let+ old_targets := panel_get (getitem "targets") in
  let+ old_targets := of_M (lift (rbind old_targets as_list)) in
  let+ '(targets, over_times_list, fills_list) :=
    of_M (convert_targets old_targets old_panel_datasource) in
  let+ _ :=
    of_M (add_to_metric_and_object_list old_targets targets
            old_panel_datasource) in
  let+ _ := panel_set "targets" (VList targets) in
  let over_times :=
    set_discard "$__rate_interval"
      (set_discard "$__interval"
         (set_discard "$interval" (set_of_list over_times_list))) in
  let+ over_times := of_M (drop_funny_intervals over_times) in
  let+ interval := panel_get (dget "interval") in
  let+ _ :=
    if negb (Nat.eqb (length over_times) 0) && negb (truthy interval)
       && negb (mem "$__range" over_times)
    then
      let+ over_time_seconds := of_M (lift (max_seconds over_times None)) in
      if negb (over_time_seconds =? SCRAPE_INTERVAL_SECONDS) then
        panel_set "interval" (VStr (_seconds_to_duration over_time_seconds))
      else pret tt
    else pret tt in
  let fills_ := set_discard "null" (set_of_list fills_list) in
  let+ fills_ :=
    if mem "0" fills_ then
      let+ _ := panel_set "nullPointMode" (VStr "null as zero") in
      pret (set_discard "0" fills_)
    else pret fills_ in
  match fills_ with
  | [] => pret tt
  | _ => of_M (add_error (Text "Unsupported fills") "INFO" (NoteStrings fills_))
  end.

(** The statements of [convert_panel] under [if "alert" in panel]. *)
Definition convert_panel_alert : P unit :=
  let+ alert := panel_get (assoc "alert") in
  match alert with
  | None => pret tt
  | Some alert =>
      (* the second argument of the call, [panel["title"]] *)
      let+ title := panel_get (getitem "title") in
      let+ _ := of_M (lift title) in
      let+ alert := of_M (lift (as_dict alert)) in
      let+ alert := of_M (convert_alerts alert) in
      panel_set "alert" (VDict alert)
  end.

(** The body of the [try] of [convert_panel]. *)
Definition convert_panel_try (old_panel_datasource : value) : P unit :=
  let+ has_targets := panel_get (dhas "targets") in
  let+ _ :=
    if has_targets then convert_panel_targets old_panel_datasource
    else pret tt in
  convert_panel_alert.

(** The handler of the [try] of [convert_panel]. *)
Definition convert_panel_except (ex : exn) : P unit :=
  let+ _ := panel_pop "targets" in
  let+ _ := panel_pop "alert" in
  of_M (add_error (UnableToConvert ex) "ERROR" (NoteExn ex)).

(** [try: body except ValueError as ex: handler(ex)] *)
Definition try_except_ValueError (body : P unit) (handler : exn -> P unit)
    : P unit :=
  fun p c =>
    match body p c with
    | (Raise ex, p', c') =>
        if is_ValueError ex then handler ex p' c' else (Raise ex, p', c')
    | r => r
    end.

(** The last statement of [convert_panel]. *)
Definition convert_panel_overrides : P unit :=
  let+ overrides := panel_get (dget "seriesOverrides") in
  if truthy overrides then
    let+ overrides := of_M (lift (convert_series_overrides overrides)) in
    panel_set "seriesOverrides" overrides
  else pret tt.

(** [d.get(k)] and [k in d] for the map of datasources, whose keys can be
    any value. *)
Definition in_datasource_map (d : list (value * value)) (k : value)
    : result bool :=
  if hashable k then Ok (match vassoc k d with Some _ => true | None => false end)
  else Raise (TypeError "unhashable type").

(** What a step before the [try] decides: to go on, or to return. *)
Inductive flow := Continue | Return.

(** The statements of [convert_panel] that replace the datasource. *)
Definition convert_panel_datasource : P flow :=
  let+ replacement := of_M (get replacement_datasource) in
  let+ map_ := of_M (get datasource_map) in
  if truthy replacement then
    let+ has := panel_get (dhas "datasource") in
    let+ _ := if has then panel_set "datasource" replacement else pret tt in
    pret Continue
  else
    match map_ with
    | Some (kv :: map') =>
        let map_ := kv :: map' in
        let+ datasource := panel_get (dget "datasource") in
        let+ skip :=
          if truthy datasource then
            match datasource with
            | VDict _ => pret true
            | _ =>
                let+ known := of_M (lift (in_datasource_map map_ datasource)) in
                pret (negb known)
            end
          else pret false in
        if skip then pret Return
        else
          let+ known := of_M (lift (in_datasource_map map_ datasource)) in
          match vassoc datasource map_ with
          | Some v => let+ _ := panel_set "datasource" v in pret Continue
          | None => of_M (raise (KeyError (py_str datasource)))
          end
    | _ => pret Continue
    end.

(** The datasource of the panel before it is replaced: the panel's own, or
    the default when the panel has none or [None]. *)
Definition old_panel_datasource_of (panel : dict) : value :=
  if is_none (dget "datasource" panel) then VDict [("type", VStr "influxdb")]
  else dget "datasource" panel.

(** [GrafanaPanel(id=panel["id"], title=...)], the panel in the context of
    the error manager. *)
Definition panel_context (panel : dict) (id : value) : GrafanaPanel :=
  {| gp_id := id; gp_title := default id (assoc "title" panel) |}.

(** The body of the loop of [convert_panels], for the function [convert]
    that converts a panel. *)
Definition convert_next_panel (convert : value -> M value)
    (acc : list value) (p : value) : M (list value) :=
  let* p' := convert p in ret (acc ++ [p']).

(** [convert_panel] for a panel that is no row, after the context is set. *)
Definition convert_plain_panel : P unit :=
  let+ old_panel_datasource := panel_get old_panel_datasource_of in
  let+ next := convert_panel_datasource in
  match next with
  | Return => pret tt
  | Continue =>
      let+ _ :=
        try_except_ValueError (convert_panel_try old_panel_datasource)
          convert_panel_except in
      convert_panel_overrides
  end.

(** [convert_panel] and [convert_panels].  A row holds its panels under
    ["panels"]; [depth] bounds the nesting of rows the way Python's recursion
    limit does. *)
Fixpoint convert_panel (depth : nat) (panel : value) : M value :=
  match depth with
  | O => raise RecursionError
  | S depth' =>
      let* panel := lift (as_dict panel) in
      let* id := lift (getitem "id" panel) in
      let* _ := modify (set_ctx_panel (Some (panel_context panel id))) in
      let* type := lift (getitem "type" panel) in
      if is_str "row" type then
        match assoc "panels" panel with
        | Some panels =>
            let* panels := lift (as_list panels) in
            let* panels' :=
              for_each panels [] (convert_next_panel (convert_panel depth')) in
            ret (VDict (dset "panels" (VList panels') panel))
        | None => ret (VDict panel)
        end
      else
        fun c =>
          match convert_plain_panel panel c with
          | (Ok _, panel', c') => (Ok (VDict panel'), c')
          | (Raise e, _, c') => (Raise e, c')
          end
  end.

Definition convert_panels (depth : nat) (panels : list value)
    : M (list value) :=
  for_each panels [] (convert_next_panel (convert_panel depth)).

(** ** TemplatingTranslator *)

(** The three patterns of [convert_templating], all with [re.IGNORECASE]:
    "SHOW TAG VALUES FROM ['|\`]?(?P<tag>.+?)['|\`]? WITH KEY\s?=\s?['|\`\ ](?P<key>.+?)(?:['|\`\ ]|$)",
    "SHOW TAG VALUES WITH KEY\s?=\s?['|\`\ ](?P<key>.*?)(?:['|\`\ ]|$)" and
    "show tag values from (?P<tag>.+?) with key\s?=~\s+\/(?P<key>.+?)\/".
    [tag] is group 1 and [key] group 2. *)
Definition quote3 (c : ascii) : bool := one_of "'|" c || is_dq c.
Definition quote4 (c : ascii) : bool := one_of "'| " c || is_dq c.

Definition tag_values_from_re : regex :=
  seq [lit "SHOW TAG VALUES FROM "; opt (Cls quote3); Grp 1 (plus_lazy any);
       opt (Cls quote3); lit " WITH KEY"; opt ws; Chr "="; opt ws; Cls quote4;
       Grp 2 (plus_lazy any); alt [Cls quote4; Eos]].

Definition tag_values_re : regex :=
  seq [lit "SHOW TAG VALUES WITH KEY"; opt ws; Chr "="; opt ws; Cls quote4;
       Grp 2 (star_lazy any); alt [Cls quote4; Eos]].

Definition tag_values_regex_re : regex :=
  seq [lit "show tag values from "; Grp 1 (plus_lazy any); lit " with key";
       opt ws; lit "=~"; plus ws; Chr "/"; Grp 2 (plus_lazy any); Chr "/"].

(** [TEMPLATING_METRIC_STATIC_CONVERSION], which is empty. *)
Definition TEMPLATING_METRIC_STATIC_CONVERSION : list (string * string) := [].

(** The object of the store behind a template variable. *)
Definition template_object (item : value) : M (nat * dict) :=
  match item with
  | VRef o =>
      let* objs := get objects in
      match objs !! o with
      | Some d => ret (o, d)
      | None => raise (TypeError "dict expected")
      end
  | _ => raise (TypeError "dict expected")
  end.

(** [item[k] = v] on the object [o] of the store. *)
Definition object_set (o : nat) (k : string) (v : value) : M unit :=
  modify (fun c =>
    match objects c !! o with
    | Some d => set_objects (<[o := dset k v d]> (objects c)) c
    | None => c
    end).

(** The discovery query of a template variable after the matching: the
    metric, if the pattern has one, and the key. *)
Definition match_discovery_query (query : string)
    : M (option string * string) :=
  let first :=
    match search true tag_values_from_re query with
    | Some m => Some m
    | None => search true tag_values_re query
    end in
  let* m :=
    match first with
    | Some m => ret (Some m)
    | None =>
        let* _ :=
          add_error
            (Text "REGEXP show tag values is not supported in Prometheus, converting to STATIC")
            "WARN" NoNotes in
        ret (search true tag_values_regex_re query)
    end in
  match m with
  | None => raise (ValueError (UnableToFindTagValues (repr_str query)))
  | Some m => ret (group 1 m, group_text 2 m)
  end.

(** [if isinstance(query, dict) and query.get("query"): query = query["query"]]:
    the discovery query of a variable, which may be a dict that holds it. *)
Definition discovery_query (query : value) : value :=
  match query with
  | VDict q => if truthy (dget "query" q) then dget "query" q else query
  | _ => query
  end.

(** The body of the loop of [convert_templating] for a variable of type
    ["query"], once its datasource is settled. *)
Definition convert_query_variable (o : nat) : M bool :=
  let* _ := object_set o "sort" (VInt 3) in
  let* '(_, item) := template_object (VRef o) in
  let* query := lift (getitem "query" item) in
  let query := discovery_query query in
  let* query := lift (as_str query) in
  if startswith "show field keys" (lower query) then ret true
  else
    let* '(metric, key) := match_discovery_query query in
    let key := _replace_invalid_metric_characters key in
    let metric :=
      if truthy_str metric then
        let metric :=
          _replace_invalid_metric_characters (default EmptyString metric) in
        let metric :=
          if startswith "/" metric then replace "/" EmptyString metric
          else metric in
        if contains ".*" (lower metric) then
          replace ")" EmptyString
            (replace "(" EmptyString (replace ".*" EmptyString metric))
        else metric
      else default EmptyString metric in
    let metric :=
      default metric (assoc metric TEMPLATING_METRIC_STATIC_CONVERSION) in
    let '(metric, new_query) :=
      if nonempty metric then
        let metric := replace "/" EmptyString metric in
        (metric, "label_values(" +:+ metric +:+ "," +:+ key +:+ ")")
      else (metric, "label_values(" +:+ key +:+ ")") in
    let* _ := object_set o "query" (VStr new_query) in
    let* _ := object_set o "definition" (VStr new_query) in
    let* _ :=
      if is_str "*" (dget "allValue" item)
      then object_set o "allValue" (VStr ".*") else ret tt in
    let* _ :=
      if nonempty metric then
        modify (fun c =>
          set_get_rep_metric (_get_rep_metric c ++ [(true, metric, o)]) c)
      else ret tt in
    ret false.

(** The body of the loop of [convert_templating]: whether the variable is to
    be deleted. *)
Definition convert_template_variable (item : value) : M bool :=
  let* '(o, d) := template_object item in
  let* type := lift (getitem "type" d) in
  if is_str "query" type then
    let* replacement := get replacement_datasource in
    let* map_ := get datasource_map in
    if truthy replacement then
      let* _ := object_set o "datasource" replacement in
      convert_query_variable o
    else
      match map_ with
      | Some (kv :: map') =>
          let* datasource := lift (getitem "datasource" d) in
          match datasource with
          | VDict _ => ret false
          | _ =>
              let* _ := lift (in_datasource_map (kv :: map') datasource) in
              let* _ :=
                object_set o "datasource"
                  (default datasource (vassoc datasource (kv :: map'))) in
              convert_query_variable o
          end
      | _ => convert_query_variable o
      end
  else if negb (hashable type) then raise (TypeError "unhashable type")
  else if is_str "custom" type || is_str "interval" type
          || is_str "datasource" type then ret false
  else raise (ValueError (UnknownTemplateType (py_repr (VDict d)))).

(** The first loop of [convert_templating]: the indices to delete, in the
    order found. *)
Fixpoint templating_loop (idx : nat) (items : list value)
    (to_be_deleted : list nat) : M (list nat) :=
  match items with
  | [] => ret to_be_deleted
  | item :: items' =>
      let* delete_it := convert_template_variable item in
      templating_loop (S idx) items'
        (if delete_it then to_be_deleted ++ [idx] else to_be_deleted)
  end.

(** The second loop: [del template["list"][idx]] for the indices found, the
    largest first.  They were found in increasing order. *)
Definition delete_indices (to_be_deleted : list nat) (l : list value)
    : list value :=
  fold_left (fun l idx => delete idx l) (rev to_be_deleted) l.

(** [convert_templating]; the template it returns is the argument after the
    deletions. *)
Definition convert_templating (template : dict) : M dict :=
  let* l := lift (rbind (getitem "list" template) as_list) in
  let* to_be_deleted := templating_loop 0 l [] in
  ret (dset "list" (VList (delete_indices to_be_deleted l)) template).

(** The test of [_update_label_values_metric] on an index key. *)
Definition label_metric_matches (dashboard_metric metric : string) : bool :=
  match rsplit1 "_" metric with
  | [prefix; _] =>
      String.eqb prefix dashboard_metric || String.eqb metric dashboard_metric
  | _ => false
  end.

(** [try: m except: handler] *)
Definition except_any {A : Type} (m : M A) (handler : M A) : M A :=
  fun c =>
    match m c with
    | (Raise _, c') => handler c'
    | r => r
    end.

(** The statements run for the first index key that matches. *)
Definition backfill_under (dashboard_metric : string) (o : nat)
    (metric : string) : M unit :=
  let* '(_, label_values) := template_object (VRef o) in
  let* query := lift (rbind (getitem "query" label_values) as_str) in
  let* _ :=
    object_set o "query" (VStr (replace dashboard_metric metric query)) in
  except_any (index_append metric (Some (VRef o)))
    (let* title := get _current_dashboard in
     add_error (Text "Invalid dashboard on templating replacement split")
       "ERROR"
       (if truthy title then NoteValue title else NoteText "None")).

(** The inner loop of [_update_label_values_metric], which ends at the
    first key that matches. *)
Fixpoint backfill (dashboard_metric : string) (o : nat)
    (metrics : list string) : M unit :=
  match metrics with
  | [] => ret tt
  | metric :: metrics' =>
      if label_metric_matches dashboard_metric metric
      then backfill_under dashboard_metric o metric
      else backfill dashboard_metric o metrics'
  end.

(** [_update_label_values_metric] *)
Definition _update_label_values_metric : M unit :=
  let* rep := get _get_rep_metric in
  let* _ :=
    for_each rep tt
      (fun _ '(flag, dashboard_metric, o) =>
         if flag then
           let* idx := get metric_to_objects in
           backfill dashboard_metric o (map fst idx)
         else ret tt) in
  modify (set_get_rep_metric []).

(** ** DashboardConverter *)

(** The nesting of rows the embedding follows. *)
Definition max_row_depth : nat := 100.

(** The loop of [convert_dashboard] over [dashboard["rows"]]. *)
Definition convert_row (rows : list value) (row : value) : M (list value) :=
  let* row := lift (as_dict row) in
  let* panels := lift (rbind (getitem "panels" row) as_list) in
  let* panels := convert_panels max_row_depth panels in
  ret (rows ++ [VDict (dset "panels" (VList panels) row)]).

(** [try: m except ValueError as ex: raise ConvertError(ex)] *)
Definition reraise_as_ConvertError {A : Type} (m : M A) : M A :=
  fun c =>
    match m c with
    | (Raise ex, c') =>
        if is_ValueError ex then (Raise (ConvertError ex), c')
        else (Raise ex, c')
    | r => r
    end.

(** The statements of [convert_dashboard] before the [try]: the context,
    the panels and the rows.  It returns [dashboard.get("templating")] and
    the dashboard. *)
Definition convert_dashboard_panels (dashboard meta : dict)
    : M (value * dict) :=
  let* templating := lift (getitem "templating" dashboard) in
  let* _ := modify (set_context_templating templating) in
  let* uid := lift (getitem "uid" dashboard) in
  let* title := lift (getitem "title" dashboard) in
  let* folder := lift (getitem "folderTitle" meta) in
  let* updater := lift (getitem "updatedBy" meta) in
  let* _ :=
    modify (set_ctx_dashboard
              (Some {| gd_uid := uid; gd_title := title;
                       gd_folder := folder; gd_updater := updater |})) in
  let* _ := modify (set_current_dashboard title) in
  let* dashboard :=
    match assoc "panels" dashboard with
    | Some panels =>
        let* panels := lift (as_list panels) in
        let* panels := convert_panels max_row_depth panels in
        ret (dset "panels" (VList panels) dashboard)
    | None => ret dashboard
    end in
  let* dashboard :=
    match assoc "rows" dashboard with
    | Some rows =>
        let* rows := lift (as_list rows) in
        let* rows := for_each rows [] convert_row in
        ret (dset "rows" (VList rows) dashboard)
    | None => ret dashboard
    end in
  ret (templating, dashboard).

(** The body of the [try] of [convert_dashboard]. *)
Definition convert_dashboard_templating (templating : value)
    (dashboard : dict) : M dict :=
  if truthy templating then
    let* template := lift (as_dict templating) in
    let* template := convert_templating template in
    let* _ := modify (set_context_templating (VDict template)) in
    ret (dset "templating" (VDict template) dashboard)
  else ret dashboard.

(** The loop of [convert_dashboard] over [_get_rep_metric]; the list it
    goes through is the one the attribute held when the loop began. *)
Definition convert_dashboard_backfill : M unit :=
  let* rep := get _get_rep_metric in
  for_each rep tt
    (fun _ '(flag, _, _) =>
       if flag then _update_label_values_metric else ret tt).

(** [convert_dashboard] *)
Definition convert_dashboard (dashboard meta : dict) : M dict :=
  let* '(templating, dashboard) := convert_dashboard_panels dashboard meta in
  let* dashboard :=
    reraise_as_ConvertError
      (convert_dashboard_templating templating dashboard) in
  let* _ := convert_dashboard_backfill in
  ret dashboard.

(** ** Example inputs *)

(** A raw query with the result format ["table"]. *)
Definition table_target : dict :=
  [("refId", VStr "A"); ("resultFormat", VStr "table")].

Definition table_query : query_or_flag :=
  QueryText (py "SELECT mean(`x`) FROM `m` WHERE $timeFilter").

(** The queries of the divide-by-self examples. *)
Definition divide_foreign_condition : string :=
  py "SELECT mean(`x`)/mean(`x`) FROM `m` WHERE `y` > 0".

Definition divide_two_conditions : string :=
  py "SELECT mean(`x`)/mean(`x`) FROM `m` WHERE `y` > 0 AND `z` < 5".

Definition divide_own_condition : string :=
  py "SELECT mean(`x`)/mean(`x`) FROM `m` WHERE `x` > 0".

Definition divide_no_condition : string :=
  py "SELECT mean(`x`)/mean(`x`) FROM `m` WHERE $timeFilter".

(** The queries of the count examples. *)
Definition count_no_where : string :=
  py "SELECT count(`x`) FROM `m` GROUP BY time(5m)".

Definition count_plain : string :=
  py "SELECT count(`x`) FROM `m` WHERE $timeFilter GROUP BY time(5m)".

Definition count_tag_filter : string :=
  py "SELECT count(`x`) FROM `m` WHERE `host`='a' GROUP BY time(5m)".

Definition count_value_condition : string :=
  py "SELECT count(`x`) FROM `m` WHERE `x` > 5 GROUP BY time(5m)".

(** The queries and the target of the OR examples. *)
Definition or_raw_plain : string :=
  py "SELECT mean(`x`) FROM `m` WHERE `host`='a' OR `host`='b'".

Definition or_raw_group : string :=
  py "SELECT mean(`x`) FROM `m` WHERE (`host`='a' OR `host`='b')".

Definition or_raw_mixed : string :=
  py "SELECT mean(`x`) FROM `m` WHERE (`host`='a' OR `region`='b')".

Definition tag (key operator val : string) (condition : option string)
    : value :=
  VDict ([("key", VStr key); ("operator", VStr operator); ("value", VStr val)]
           ++ match condition with
              | Some c => [("condition", VStr c)]
              | None => []
              end).

Definition select_mean (field : string) : value :=
  VList [VList [VDict [("type", VStr "field"); ("params", VList [VStr field])];
                VDict [("type", VStr "mean"); ("params", VList [])]]].

Definition or_target (tags : list value) : dict :=
  [("refId", VStr "A"); ("measurement", VStr "m");
   ("resultFormat", VStr "time_series"); ("select", select_mean "x");
   ("tags", VList tags); ("groupBy", VList [])].

Definition or_tags_same : list value :=
  [tag "host" "=" "a" None; tag "host" "=" "b" (Some "OR")].

Definition or_tags_mixed : list value :=
  [tag "host" "=" "a" None; tag "region" "=" "b" (Some "OR")].

(** A string of decimal digits only. *)
Fixpoint all_digits (s : string) : bool :=
  match s with
  | EmptyString => true
  | String c s' => is_digit c && all_digits s'
  end.

(** The label set between braces, as [format_expression] adds it to the
    metric name: nothing for an empty label set. *)
Definition braces (labels : string) : string :=
  if nonempty labels then "{" +:+ labels +:+ "}" else EmptyString.

(** A tag of a structured target whose key is the string [k]. *)
Definition tag_with_key (tag : value) (k : string) : Prop :=
  exists d, tag = VDict d /\ assoc "key" d = Some (VStr k).

(** The targets, the datasource and the registry of the example of a
    flagged target. *)
Definition named_target : dict :=
  [("refId", VStr "A"); ("datasource", VStr "InfluxDatasource");
   ("measurement", VStr "cpu"); ("select", select_mean "usage");
   ("groupBy", VList []); ("resultFormat", VStr "time_series")].

Definition flagged_target : dict :=
  named_target ++ [("not-influx-target", VBool true)].

Definition prometheus_datasource : value :=
  VDict [("type", VStr "prometheus"); ("uid", VStr "p")].

Definition influx_registry : dict :=
  [("InfluxUid",
    VDict [("type", VStr "influxdb"); ("name", VStr "InfluxDatasource")])].

Definition converter_with_registry : converter :=
  new_converter influx_registry
    (VDict [("uid", VStr "m3"); ("type", VStr "prometheus")])
    SCRAPE_INTERVAL_SECONDS.







(** A computation whose result, when it returns, satisfies [P]. *)
Definition returns_only {A : Type} (P : A -> Prop) (m : M A) : Prop :=
  forall c a c', m c = (Ok a, c') -> P a.




(** The dashboards of the examples of error containment: a panel whose
    target has no [select], a panel whose target has no [resultFormat],
    and a panel that converts; templates with a variable of an unknown
    type and with a variable that has no type. *)
Definition target_without_select : value :=
  VDict [("refId", VStr "A"); ("measurement", VStr "m");
         ("resultFormat", VStr "time_series"); ("groupBy", VList [])].

Definition target_without_format : value :=
  VDict [("refId", VStr "A"); ("measurement", VStr "m");
         ("select", select_mean "x"); ("groupBy", VList [])].

Definition target_plain : value :=
  VDict [("refId", VStr "A"); ("measurement", VStr "m");
         ("resultFormat", VStr "time_series");
         ("select", select_mean "x"); ("groupBy", VList [])].

Definition panel_of (id : Z) (target : value) : dict :=
  [("id", VInt id); ("title", VStr "Traffic"); ("type", VStr "graph");
   ("targets", VList [target]);
   ("alert", VDict [("name", VStr "high"); ("notifications", VList [])])].

Definition dashboard_of (panels : list dict) (variables : list value)
    : dict :=
  [("uid", VStr "u1"); ("title", VStr "Net");
   ("templating", VDict [("list", VList variables)]);
   ("panels", VList (map VDict panels))].

Definition meta_example : dict :=
  [("folderTitle", VStr "General"); ("updatedBy", VStr "admin")].

Definition store_unknown_type : list dict :=
  [[("name", VStr "free"); ("type", VStr "textbox")]].

Definition store_without_type : list dict :=
  [[("name", VStr "free")]].

(** The converter once [convert_dashboard] has set the context of the
    example dashboard. *)
Definition converter_in_dashboard : converter :=
  set_current_dashboard (VStr "Net")
    (set_ctx_dashboard
       (Some {| gd_uid := VStr "u1"; gd_title := VStr "Net";
                gd_folder := VStr "General"; gd_updater := VStr "admin" |})
       converter0).

(** The dashboards of the example of the template back-fill: one panel for
    each field of the measurement [net], and the template variable [host]
    whose discovery query names the measurement. *)
Definition net_panel (id : Z) (field : string) : dict :=
  [("id", VInt id); ("title", VStr field); ("type", VStr "graph");
   ("targets",
    VList [VDict [("refId", VStr "A"); ("measurement", VStr "net");
                  ("resultFormat", VStr "time_series");
                  ("select", select_mean field); ("groupBy", VList [])]])].

Definition net_dashboard (field1 field2 : string) : dict :=
  dashboard_of [net_panel 1 field1; net_panel 2 field2] [VRef 0].

Definition host_variable : dict :=
  [("name", VStr "host"); ("type", VStr "query");
   ("query", VStr (py "SHOW TAG VALUES FROM `net` WITH KEY = `host`"))].

Definition net_converter : converter := set_objects [host_variable] converter0.


Definition net_run : result dict * converter :=
  convert_dashboard (net_dashboard "recv" "sent") meta_example net_converter.

(** The objects that the metric-usage index lists under a metric and a
    dashboard. *)
Definition entries_under (metric : string) (title : value) (c : converter)
    : list value :=
  match assoc metric (metric_to_objects c) with
  | Some per_dashboard => default [] (vassoc title per_dashboard)
  | None => []
  end.

(** The string with [f] applied to each character. *)
Fixpoint map_string (f : ascii -> ascii) (s : string) : string :=
  match s with
  | EmptyString => EmptyString
  | String c s' => String (f c) (map_string f s')
  end.

(** The characters that [_replace_invalid_metric_characters] replaces. *)
Definition invalid_metric_char (c : ascii) : bool :=
  existsb (String.eqb (String c EmptyString)) INVALID_PROMQL_METRIC_CHARACTERS.

(** The units of [_duration_to_seconds], in either case, with their
    seconds. *)
Definition DURATION_UNITS : list (ascii * Z) :=
  [("s"%char, 1); ("m"%char, 60); ("h"%char, 3600); ("d"%char, 86400);
   ("w"%char, 604800);
   ("S"%char, 1); ("M"%char, 60); ("H"%char, 3600); ("D"%char, 86400);
   ("W"%char, 604800)].

(** [deepcopy(target)] with the flag set: what [convert_targets] returns
    for a target that is not an Influx one. *)
Definition flag_target (target : dict) : value :=
  VDict (dset "not-influx-target" (VBool true) target).

(** What [convert_series_overrides] does to one override. *)
Definition override_converted (override override' : value) : Prop :=
  exists d d',
    override = VDict d /\ override' = VDict d'
    /\ map fst d' = map fst d
    /\ (forall k, k <> "alias" -> assoc k d' = assoc k d)
    /\ (truthy (dget "alias" d) = false -> d' = d).

(** A notification as [convert_alerts] writes it: a dict with the one key
    [uid], whose value is not [None]. *)
Definition mapped_notification (n : value) : Prop :=
  exists uid, n = VDict [("uid", uid)] /\ is_none uid = false.

(** No element of the list is equal to one before it. *)
Definition distinct_notifications (ns : list value) : Prop :=
  forall i j a b,
    (i < j)%nat -> ns !! i = Some a -> ns !! j = Some b -> py_eq b a = false.

(** The converter of the examples with maps for the alert notifications. *)
Definition converter_with_notifications : converter :=
  {| grafana_datasources := [];
     datasource_map := None;
     alert_notifications_map := Some [(7, VStr "uid-seven")];
     alert_notifications_uid_map := Some [("slack", VStr "uid-slack")];
     scrape_interval := SCRAPE_INTERVAL_SECONDS;
     replacement_datasource :=
       VDict [("uid", VStr "m3"); ("type", VStr "prometheus")];
     group_by_labels := None;
     metric_to_objects := [];
     _current_dashboard := VStr EmptyString;
     _get_rep_metric := [];
     _context_templating := VNone;
     ctx_dashboard := None;
     ctx_panel := None;
     _conversion_errors := [];
     objects := [] |}.

Definition alert_example : dict :=
  [("name", VStr "high");
   ("notifications",
    VList [VDict [("id", VInt 7)]; VDict [("uid", VStr "slack")];
           VDict [("uid", VStr "7")]])].

(** The panel as a step of [convert_panel] leaves it, whether the step
    returns or raises. *)
Definition panel_after {A : Type} (m : P A) (p : dict) (c : converter)
    : dict :=
  snd (fst (m p c)).

(** The keys of a panel that [convert_panel] writes or removes. *)
Definition PANEL_KEYS_WRITTEN : list string :=
  ["targets"; "interval"; "nullPointMode"; "alert"; "seriesOverrides";
   "datasource"].

(** The value of a panel under the key [k] is the one of the panel [p0]. *)
Definition same_value_at (k : string) (p0 p : dict) : Prop :=
  assoc k p = assoc k p0.

(** A panel that sets its interval and names a datasource, with a target
    grouped by time. *)
Definition panel_with_interval : dict :=
  [("id", VInt 3); ("title", VStr "Load"); ("type", VStr "graph");
   ("datasource", VDict [("type", VStr "influxdb"); ("uid", VStr "i1")]);
   ("interval", VStr "10s");
   ("gridPos", VDict [("h", VInt 8); ("w", VInt 12)]);
   ("targets",
    VList [VDict [("refId", VStr "A"); ("measurement", VStr "m");
                  ("resultFormat", VStr "time_series");
                  ("select", select_mean "x");
                  ("groupBy",
                   VList [VDict [("type", VStr "time");
                                 ("params", VList [VStr "5m"])]])]])].

(** The panel that [convert_panel] returns for it, and the empty dict if it
    raised. *)
Definition converted_panel (panel : dict) (c : converter) : dict :=
  match fst (convert_panel 1 (VDict panel) c) with
  | Ok (VDict p) => p
  | _ => []
  end.

(** The string without the characters that [f] refuses. *)
Fixpoint filter_string (f : ascii -> bool) (s : string) : string :=
  match s with
  | EmptyString => EmptyString
  | String c s' =>
      if f c then String c (filter_string f s') else filter_string f s'
  end.

(** ** The report of errors ([error_manager.py]) *)

Module ErrorReport.

(** The fields of a [ConversionError] as [str] renders them, in the order
    of the columns. *)
Record row := {
  message : string;
  folder : string;            (* dashboard.folder *)
  dashboard_title : string;   (* dashboard.title *)
  panel_title : string;       (* panel.title *)
  error_level : string;
  notes : string;
  updater : string;           (* dashboard.updater *)
  link : string
}.

(** [ConversionError.c]; the argument is [str(s)]. *)
Definition c (s : string) : string := replace "," EmptyString s.

(** [ConversionError.csv] *)
Definition csv (e : row) : string :=
  c (message e) +:+ "," +:+ c (folder e) +:+ "," +:+ c (dashboard_title e)
    +:+ "," +:+ c (panel_title e) +:+ "," +:+ c (error_level e) +:+ ","
    +:+ c (notes e) +:+ "," +:+ c (updater e) +:+ "," +:+ c (link e).

(** [ConversionError.csv_header] *)
Definition csv_header : string :=
  "Message,Folder,Dashboard,Panel,ErrorLevel,Notes,Updater,Link".

(** The line feed, the separator of the lines. *)
Definition lf : string := String "010" EmptyString.

(** [ErrorManager.errors_csv] *)
Definition errors_csv (_conversion_errors : list row) : string :=
  match _conversion_errors with
  | [] => EmptyString
  | _ => join lf (csv_header :: map csv _conversion_errors)
  end.

(** The fields of a row, in the order of the columns. *)
Definition fields (e : row) : list string :=
  [message e; folder e; dashboard_title e; panel_title e; error_level e;
   notes e; updater e; link e].

End ErrorReport.

(** The legend that [get_legend_format] builds from the labels of a
    group-by, as [convert_targets] passes it on. *)
Definition labels_legend (labels : list string) : string :=
  _replace_invalid_metric_characters
    (join " " (map (fun label => "{{" +:+ label +:+ "}}") labels)).

(** Two targets without alias in one panel: the first groups by [host], the
    second by [region]. *)
Definition grouped_target (ref_id label : string) : dict :=
  [("refId", VStr ref_id);
   ("datasource", VDict [("type", VStr "influxdb"); ("uid", VStr "i1")]);
   ("rawQuery", VBool true);
   ("query",
    VStr (py "SELECT mean(`x`) FROM `m` WHERE $timeFilter GROUP BY time(1m), "
            +:+ label));
   ("resultFormat", VStr "time_series")].

(** A query that downsamples in InfluxDB, the case [convert_subquery] is
    written for. *)
Definition downsampling_query : string :=
  py "SELECT SUM(`a`) FROM (SELECT mean(`x`) AS a FROM `m` WHERE $timeFilter GROUP BY time(1m), host) GROUP BY time(5m), host".

(** A select of one field and one function without parameters, the field
    first as Grafana writes it. *)
Definition select_of (field function : string) : value :=
  VList [VList [VDict [("type", VStr "field"); ("params", VList [VStr field])];
                VDict [("type", VStr function); ("params", VList [])]]].

(** A structured target that counts the field [usage] of [cpu]. *)
Definition count_target : dict :=
  [("refId", VStr "A");
   ("datasource", VDict [("type", VStr "influxdb"); ("uid", VStr "i1")]);
   ("measurement", VStr "cpu"); ("select", select_of "usage" "count");
   ("groupBy", VList []); ("resultFormat", VStr "time_series")].

(** ** The loop over the dashboards ([main.py]) *)

(** How the loop of [convert_dashboards] ended: it went through every
    dashboard, or [exit(code)] ended the program. *)
Inductive loop_end :=
| Completed
| Exited (code : Z).

(** The statement of the loop before the [try]: the dashboard of the error
    manager's context.  It returns the exported dashboard with its
    [dashboard] and [meta] fields. *)
Definition dashboard_context (dashboard : value) : M (dict * dict * dict) :=
  let* exported := lift (as_dict dashboard) in
  let* d := lift (rbind (getitem "dashboard" exported) as_dict) in
  let* uid := lift (getitem "uid" d) in
  let* title := lift (getitem "title" d) in
  let* meta := lift (rbind (getitem "meta" exported) as_dict) in
  let* folder := lift (getitem "folderTitle" meta) in
  let* updater := lift (getitem "updatedBy" meta) in
  let* _ :=
    modify (set_ctx_dashboard
              (Some {| gd_uid := uid; gd_title := title;
                       gd_folder := folder; gd_updater := updater |})) in
  ret (exported, d, meta).

(** [convert_dashboards] of [main.py]; [exn_str] is [str] on an exception,
    and the lists are [influx_dashboards] and [invalid_dashboards].  The
    conversion does not write the title of a dashboard, which is read after
    a [ConvertError]. *)
Fixpoint convert_dashboards (exn_str : exn -> string)
    (dashboards influx_dashboards invalid_dashboards : list value)
    : M (list value * list value * loop_end) :=
  match dashboards with
  | [] => ret (influx_dashboards, invalid_dashboards, Completed)
  | dashboard :: dashboards' =>
      let* '(exported, d, meta) := dashboard_context dashboard in
      fun c =>
        match convert_dashboard d meta c with
        | (Ok d', c') =>
            convert_dashboards exn_str dashboards'
              (influx_dashboards
                 ++ [VDict (dset "dashboard" (VDict d') exported)])
              invalid_dashboards c'
        | (Raise (ConvertError cause), c') =>
            (let* _ :=
               add_error
                 (Text ("Error converting dashboard, skipping - error:"
                          +:+ exn_str (ConvertError cause)))
                 "ERROR" NoNotes in
             let* title := lift (getitem "title" d) in
             convert_dashboards exn_str dashboards' influx_dashboards
               (invalid_dashboards ++ [title])) c'
        | (Raise _, c') =>
            (Ok (influx_dashboards, invalid_dashboards, Exited 1), c')
        end
  end.

(** Four exported dashboards: the first converts, the template of the
    second has a variable of an unknown type, that of the third a variable
    without a type, and the fourth is like the first. *)
Definition exported (title : string) (variables : list value) : value :=
  VDict [("dashboard",
          VDict [("uid", VStr title); ("title", VStr title);
                 ("templating", VDict [("list", VList variables)]);
                 ("panels", VList [VDict (panel_of 1 target_plain)])]);
         ("meta", VDict meta_example)].

Definition exported_dashboards : list value :=
  [exported "first" []; exported "second" [VRef 0];
   exported "third" [VRef 1]; exported "fourth" []].

Definition exported_converter : converter :=
  set_objects
    [[("name", VStr "free"); ("type", VStr "textbox")];
     [("name", VStr "free")]]
    converter0.

(** The characters of an integer literal in ASCII: the decimal digits, the
    two signs, the underscore and the white space of [int(...)]. *)
Definition int_literal_char (c : ascii) : bool :=
  is_digit c || one_of "+-_" c || is_int_space c.

(** A text of ASCII characters only. *)
Definition is_ascii_text (s : string) : bool :=
  forallb (fun c => (code c <? 128)%N) (chars s).

(** A text with a character that no integer literal has. *)
Definition has_foreign_char (s : string) : bool :=
  existsb (fun c => negb (int_literal_char c)) (chars s).







(** ** The matchers of [get_labels], one by one *)

(** The keys and the values of a group of equalities joined by OR, as the
    closure [_replace] reads them. *)
Definition or_group_results (m : rmatch) : list (string * string) :=
  map (fun r => (group_text 1 r, group_text 2 r))
    (findall false (single_eq_re 1) (group_text 1 m)).

(** The matcher that [_replace] adds for a group, when its equalities have
    one key. *)
Definition or_group_matcher (m : rmatch) : option string :=
  match set_of_list (map fst (or_group_results m)) with
  | [key] => Some (label key "=~" (join "|" (map snd (or_group_results m))))
  | _ => None
  end.

(** The groups that [re.sub] hands to [_replace]: the first two. *)
Definition or_groups (query : string) : list rmatch :=
  map snd (fst (matches false or_group_re (Some 2%nat) query)).

(** The query without the groups that gave a matcher. *)
Definition without_or_groups (query : string) : string :=
  snd (sub_fold false or_group_re
         (fun (_ : unit) m =>
            (tt, match or_group_matcher m with
                 | Some _ => EmptyString
                 | None => group_text 1 m
                 end))
         (Some 2%nat) tt query).

(** The key of a comparison without the double quotes at its ends. *)
Definition unquoted (key : string) : string :=
  rstrip_by is_dq (lstrip_by is_dq key).

(** The value of a regex comparison as its matcher has it: anchored at
    both ends, the escape of a slash removed, every backslash doubled and a
    backslash put before every single quote. *)
Definition regex_value (value : string) : string :=
  let value :=
    if startswith "^" value then drop 1 value
    else if negb (startswith ".*" value) then ".*" +:+ value
    else value in
  let value :=
    if endswith "$" value then drop_last value
    else if negb (endswith ".*" value) then value +:+ ".*"
    else value in
  replace "'" "\'" (replace "\" "\\" (replace "\/" "/" value)).

(** The keys and the values that a pattern finds in a query. *)
Definition comparisons (r : regex) (query : string)
    : list (string * string) :=
  map key_value (findall false r query).

(** The matchers that the loops over the matches of one operator add: for
    a regex operator, and for a plain one. *)
Definition regex_matcher_of (field_name query operator x : string) : Prop :=
  exists key value,
    In (key, value) (comparisons (label_regex_re operator) query)
    /\ replace "-" "_" (unquoted key) <> field_name
    /\ x = label (replace "-" "_" (unquoted key)) operator
             (regex_value value).

Definition plain_matcher_of (field_name query operator x : string) : Prop :=
  exists key value,
    (In (key, value) (comparisons (label_quoted_re operator) query)
     \/ In (key, value) (comparisons (label_plain_re operator) query))
    /\ unquoted key <> field_name
    /\ x = label (unquoted key) operator (replace "\" "\\" value).

(** A plain value with a double quote, and one with an escaped single
    quote. *)
Definition quote_in_value : string :=
  py "SELECT mean(`x`) FROM `m` WHERE `h` = 'a`b'".

Definition escaped_quote_in_value : string :=
  py "SELECT mean(`x`) FROM `m` WHERE `h` = 'a\'b'".

(** The PromQL aggregations that the converter writes: the values of
    [AGGREGATION_MAP]. *)
Definition PROMQL_AGGREGATIONS : list string :=
  ["count"; "max"; "min"; "avg"; "rate"; "increase"; "stddev"; "sum";
   "delta"].

(** An expression that begins with an aggregation and the clause of the
    labels, the spaces of the clause replaced. *)
Definition begins_with_clause (labels : list string) (expr : string) : Prop :=
  exists aggregation rest,
    In aggregation PROMQL_AGGREGATIONS
    /\ expr
       = aggregation +:+ "_by_("
           +:+ _replace_invalid_metric_characters (join "," labels)
           +:+ ")(" +:+ rest.

(** A query grouped by [host]. *)
Definition grouped_by_host : string :=
  py "SELECT mean(`x`) FROM `m` WHERE $timeFilter GROUP BY time(1m), host".

(* ================================================================== *)
(** * Theorems *)

Example split_example : split "," "a,b,,c" = ["a"; "b"; ""; "c"].
Proof. reflexivity. Qed.

Example split_group_by :
  split "group by" "select x group by time(5m)" = ["select x "; " time(5m)"].
Proof. reflexivity. Qed.

Example rsplit1_example :
  rsplit1 "_" "net_bytes_recv" = ["net_bytes"; "recv"] /\
  rsplit1 "_" "net" = ["net"].
Proof. split; reflexivity. Qed.

Example replace_example :
  replace "." "_" "a.b.c" = "a_b_c" /\
  replace_n " " " bool " (Some 1%nat) "> 0 1" = "> bool 0 1".
Proof. split; reflexivity. Qed.

Example to_Z_example :
  to_Z " 1_000 " = Some 1000 /\ to_Z "-5" = Some (-5) /\ to_Z "1.5" = None /\
  to_Z "" = None.
Proof. repeat split; reflexivity. Qed.

Example duration_examples :
  _duration_to_seconds "5m" = Ok 300 /\
  _duration_to_seconds "1y" = Raise (NotImplementedError "1y") /\
  _seconds_to_duration 0 = "0s" /\ _seconds_to_duration 7200 = "2h" /\
  _seconds_to_duration 120 = "2m" /\ _seconds_to_duration 30 = "30s".
Proof. repeat split; reflexivity. Qed.

Example get_metric_name_example :
  get_metric_name (py "SELECT mean(`x`)/mean(`x`) FROM `m` WHERE `y` > 0")
  = Ok ("m", "x").
Proof. vm_compute. reflexivity. Qed.

Example get_metric_name_no_where :
  get_metric_name (py "SELECT count(`x`) FROM `m` GROUP BY time(5m)")
  = Raise (ValueError (UnableToFindMetricName
             (py "SELECT count(`x`) FROM `m` GROUP BY time(5m)"))).
Proof. vm_compute. reflexivity. Qed.

Example get_aggregations_example :
  get_aggregations (py "SELECT mean(`x`)/mean(`x`) FROM `m` WHERE `y` > 0")
  = Ok ["avg"].
Proof. vm_compute. reflexivity. Qed.

Example get_metric_aggregation_examples :
  get_metric_aggregation "m_x" = "avg" /\
  get_metric_aggregation "disk_free" = "min" /\
  get_metric_aggregation "x_size" = "max" /\
  get_metric_aggregation "x_sizes" = "avg" /\
  get_metric_aggregation "a_remaining_value" = "min".
Proof. vm_compute. repeat split; reflexivity. Qed.

Example get_labels_or_group :
  get_labels (py "SELECT mean(`x`) FROM `m` WHERE (`host`='a' OR `host`='b')") "x"
  = (py "SELECT mean(`x`) FROM `m` WHERE ", py "host=~`a|b`").
Proof. vm_compute. reflexivity. Qed.

Example get_labels_plain :
  snd (get_labels (py "SELECT mean(`x`) FROM `m` WHERE `host`='a' OR `host`='b'") "x")
  = py "host=`a`,host=`b`".
Proof. vm_compute. reflexivity. Qed.

Example get_labels_regex :
  snd (get_labels (py "SELECT mean(`x`) FROM `m` WHERE ($timeFilter AND `host`=~/^a|b$/)") "x")
  = py "host=~`a|b`".
Proof. vm_compute. reflexivity. Qed.

Example get_conditions_examples :
  get_conditions (py "SELECT mean(`x`) FROM `m` WHERE `x` > 5") "x" = Ok (CondStr "> 5") /\
  get_conditions (py "SELECT mean(`x`) FROM `m` WHERE `y` > 0") "x"
  = Raise (ValueError (ConditionNotOnSelectField (py "SELECT mean(`x`) FROM `m` WHERE `y` > 0"))).
Proof. vm_compute. split; reflexivity. Qed.

Example divide_by_self_examples :
  does_divide_by_self (py "SELECT mean(`x`)/mean(`x`) FROM `m` WHERE `y` > 0") = true /\
  does_divide_by_self (py "SELECT mean(`x`)/mean(`z`) FROM `m` WHERE `y` > 0") = false.
Proof. vm_compute. split; reflexivity. Qed.

Example get_modifications_example :
  get_modifications (py "SELECT mean(`x`) * 100 FROM `m` WHERE $timeFilter") = [" * 100"].
Proof. vm_compute. reflexivity. Qed.

Example convert_expression_count :
  fst (convert_expression
         (py "SELECT count(`x`) FROM `m` WHERE ($timeFilter) GROUP BY time(5m)")
         converter0)
  = Ok ("sum(count_over_time(m_x[$__interval])) ", ["30s"; "5m"], [], None).
Proof. vm_compute. reflexivity. Qed.

Example convert_expression_count_cond :
  fst (convert_expression
         (py "SELECT count(`x`) FROM `m` WHERE `x` > 5 GROUP BY time(5m)")
         converter0)
  = Ok ("count(m_x> 5)", ["30s"; "5m"], [], None).
Proof. vm_compute. reflexivity. Qed.

Example convert_expression_divide :
  fst (convert_expression
         (py "SELECT mean(`x`)/mean(`x`) FROM `m` WHERE $timeFilter")
         converter0)
  = Ok ("avg(m_x!= bool 0)", [], [], None).
Proof. vm_compute. reflexivity. Qed.


(** ** Facts about strings *)

#[local] Arguments String.append _ _ : simpl nomatch.

Lemma append_empty_r (s : string) : s +:+ EmptyString = s.
Proof. induction s as [|c s IH]; simpl; [reflexivity | now rewrite IH]. Qed.

Lemma append_assoc (s t u : string) : (s +:+ t) +:+ u = s +:+ (t +:+ u).
Proof. induction s as [|c s IH]; simpl; [reflexivity | now rewrite IH]. Qed.

Lemma rev_string_acc_app (s t acc : string) :
  rev_string_acc (s +:+ t) acc = rev_string_acc t (rev_string_acc s acc).
Proof.
  revert acc. induction s as [|c s IH]; intros acc; simpl; [reflexivity|].
  apply IH.
Qed.

Lemma rev_string_snoc (s : string) (c : ascii) :
  rev_string (s +:+ String c EmptyString) = String c (rev_string s).
Proof. unfold rev_string. now rewrite rev_string_acc_app. Qed.

Lemma rev_string_acc_twice (s a b : string) :
  rev_string_acc (rev_string_acc s a) b = rev_string_acc a (s +:+ b).
Proof.
  revert a b. induction s as [|c s IH]; intros a b; simpl; [reflexivity|].
  now rewrite IH.
Qed.

Lemma rev_string_involutive (s : string) : rev_string (rev_string s) = s.
Proof.
  unfold rev_string. rewrite rev_string_acc_twice. simpl.
  apply append_empty_r.
Qed.

Lemma endswith_snoc (x c : ascii) (s : string) :
  endswith (String x EmptyString) (s +:+ String c EmptyString) = Ascii.eqb x c.
Proof.
  unfold endswith. rewrite rev_string_snoc. simpl.
  now rewrite andb_true_r.
Qed.

Lemma drop_last_snoc (s : string) (c : ascii) :
  drop_last (s +:+ String c EmptyString) = s.
Proof.
  induction s as [|a s IH]; [reflexivity|].
  simpl. destruct (s +:+ String c EmptyString) eqn:E.
  - destruct s; discriminate.
  - now rewrite IH.
Qed.

Lemma lower_app (s t : string) : lower (s +:+ t) = lower s +:+ lower t.
Proof. induction s as [|c s IH]; simpl; [reflexivity | now rewrite IH]. Qed.

(** ** Decimal numerals *)

Lemma digit_facts (c : ascii) :
  is_digit c = true ->
  lower_char c = c /\ is_space c = false /\ Ascii.eqb c "_" = false /\
  c <> "-"%char /\ c <> "+"%char.
Proof.
  destruct c as [[] [] [] [] [] [] [] []]; vm_compute; intros H;
    try discriminate H; repeat split; discriminate.
Qed.

Lemma all_digits_uint (d : Decimal.uint) :
  all_digits (NilEmpty.string_of_uint d) = true.
Proof. induction d; simpl; auto. Qed.

Lemma all_digits_rev_acc (s acc : string) :
  all_digits (rev_string_acc s acc) = all_digits s && all_digits acc.
Proof.
  revert acc. induction s as [|c s IH]; intros acc; simpl; [reflexivity|].
  rewrite IH. simpl. destruct (is_digit c), (all_digits s); reflexivity.
Qed.

Lemma all_digits_lower (s : string) : all_digits s = true -> lower s = s.
Proof.
  induction s as [|c s IH]; simpl; [reflexivity|].
  intros [Hc Hs]%andb_true_iff.
  rewrite IH by assumption. now destruct (digit_facts c Hc) as [-> _].
Qed.

Lemma digit_not_int_space (c : ascii) :
  is_digit c = true -> is_int_space c = false.
Proof.
  destruct c as [[] [] [] [] [] [] [] []]; vm_compute; intros H;
    try discriminate H; reflexivity.
Qed.

Lemma lstrip_digits (s : string) :
  all_digits s = true -> lstrip_by is_int_space s = s.
Proof.
  destruct s as [|c s]; simpl; [reflexivity|].
  intros [Hc _]%andb_true_iff.
  now rewrite (digit_not_int_space c Hc).
Qed.

Lemma strip_digits (s : string) :
  all_digits s = true -> strip_by is_int_space s = s.
Proof.
  intros H. unfold strip_by, rstrip_by.
  rewrite (lstrip_digits s H), lstrip_digits.
  - apply rev_string_involutive.
  - unfold rev_string. now rewrite all_digits_rev_acc, H.
Qed.

Lemma int_digits_digits (s : string) (b : bool) :
  all_digits s = true -> (s <> EmptyString \/ b = true) ->
  int_digits b s = Some s.
Proof.
  revert b. induction s as [|c s IH]; intros b H Hne; simpl.
  - destruct Hne as [Hne | ->]; [now destruct Hne | reflexivity].
  - apply andb_true_iff in H as [Hc Hs]. rewrite Hc.
    rewrite (IH true Hs) by now right. reflexivity.
Qed.

(** [int] reads back what [str] printed for a number that is not
    negative. *)
Lemma to_Z_of_Z (z : Z) : 0 <= z -> to_Z (of_Z z) = Some z.
Proof.
  intros Hz.
  assert (exists d, d <> Decimal.Nil /\ of_Z z = NilEmpty.string_of_uint d
                    /\ Z.of_N (N.of_uint d) = z) as (d & Hd & -> & Hval).
  { unfold of_Z. destruct z as [|p|p]; [| |lia].
    - exists (Decimal.D0 Decimal.Nil). repeat split; discriminate.
    - exists (Pos.to_uint p). split; [apply DecimalPos.Unsigned.to_uint_nonnil|].
      split.
      + simpl. destruct (Pos.to_uint p) eqn:E; try reflexivity.
        now destruct (DecimalPos.Unsigned.to_uint_nonnil p).
      + change (N.of_uint (Pos.to_uint p)) with (Pos.of_uint (Pos.to_uint p)).
        now rewrite DecimalPos.Unsigned.of_to. }
  pose proof (all_digits_uint d) as Hall.
  assert (NilEmpty.string_of_uint d <> EmptyString) as Hne.
  { destruct d; simpl; try discriminate. now destruct Hd. }
  unfold to_Z. rewrite (strip_digits _ Hall).
  assert (nat_of_digits (NilEmpty.string_of_uint d) = Some z) as Hnat.
  { unfold nat_of_digits. rewrite int_digits_digits by auto.
    unfold NilZero.uint_of_string.
    destruct (NilEmpty.string_of_uint d) eqn:E; [now destruct Hne|].
    rewrite <- E, NilEmpty.usu. now rewrite Hval. }
  destruct (NilEmpty.string_of_uint d) as [|c s] eqn:E; [now destruct Hne|].
  simpl in Hall. apply andb_true_iff in Hall as [Hc _].
  destruct (digit_facts c Hc) as (_ & _ & _ & Hminus & Hplus).
  destruct c as [[] [] [] [] [] [] [] []]; try exact Hnat;
    first [now destruct Hminus | now destruct Hplus].
Qed.

Lemma of_Z_digits (z : Z) : 0 <= z -> all_digits (of_Z z) = true.
Proof.
  intros Hz. unfold of_Z. destruct z as [|p|p]; [reflexivity| |lia].
  simpl. unfold NilZero.string_of_uint.
  destruct (Pos.to_uint p); first [reflexivity | apply all_digits_uint].
Qed.

(** Reading a rendered duration: the number, times the unit. *)
Lemma duration_of_rendered (z : Z) (unit_char : ascii) (mult : Z) :
  0 <= z ->
  In (unit_char, mult) [("s"%char, 1); ("m"%char, 60); ("h"%char, 3600)] ->
  _duration_to_seconds (of_Z z +:+ String unit_char EmptyString)
  = Ok (z * mult).
Proof.
  intros Hz Hunit. unfold _duration_to_seconds.
  rewrite lower_app, (all_digits_lower _ (of_Z_digits z Hz)).
  simpl in Hunit.
  destruct Hunit as [H|[H|[H|[]]]]; injection H as <- <-;
    change (lower "s") with "s"; change (lower "m") with "m";
    change (lower "h") with "h";
    rewrite !endswith_snoc, drop_last_snoc, (to_Z_of_Z z Hz); reflexivity.
Qed.

(** ** C10: durations *)

(** The form [_seconds_to_duration] chooses: seconds for zero and for what
    is no whole number of minutes, minutes for what is no whole number of
    hours, hours otherwise. *)
Lemma seconds_to_duration_form (z : Z) :
  0 <= z ->
  _seconds_to_duration z =
    if (z =? 0) || negb (z mod 60 =? 0) then of_Z z +:+ "s"
    else if negb (z mod 3600 =? 0) then of_Z (z / 60) +:+ "m"
    else of_Z (z / 3600) +:+ "h".
Proof.
  intros Hz. unfold _seconds_to_duration.
  assert (z / 60 / 60 = z / 3600) as Hdiv
    by (rewrite Z.div_div by lia; reflexivity).
  destruct (z =? 0) eqn:E0.
  - apply Z.eqb_eq in E0 as ->. reflexivity.
  - apply Z.eqb_neq in E0. simpl.
    destruct (z mod 60 =? 0) eqn:E60; simpl; [|reflexivity].
    apply Z.eqb_eq in E60.
    assert ((z / 60 =? 0) = false) as ->
      by (apply Z.eqb_neq; Z.div_mod_to_equations; lia).
    assert (((z / 60) mod 60 =? 0) = (z mod 3600 =? 0)) as ->.
    { apply eq_true_iff_eq. rewrite !Z.eqb_eq.
      Z.div_mod_to_equations. lia. }
    rewrite Hdiv.
    destruct (z mod 3600 =? 0) eqn:E3600; simpl; [|reflexivity].
    apply Z.eqb_eq in E3600.
    assert ((z / 3600 =? 0) = false) as ->
      by (apply Z.eqb_neq; Z.div_mod_to_equations; lia).
    reflexivity.
Qed.

(** C10, the claim as stated fails at zero seconds: zero is a whole number
    of hours, and the rendering is the seconds form ["0s"], not the hours
    form. *)
Lemma seconds_to_duration_zero :
  0 mod 3600 = 0 /\
  _seconds_to_duration 0 = "0s" /\
  _seconds_to_duration 0 <> of_Z (0 / 3600) +:+ "h".
Proof. repeat split. discriminate. Qed.

(** C10, amended: for every natural number of seconds, parsing the rendered
    duration gives the number back; the rendering is the seconds form for
    zero and for every number that is no whole number of minutes, the minutes
    form for a whole number of minutes that is no whole number of hours, and
    the hours form for a whole number of hours other than zero. *)
Theorem duration_round_trip (s : N) :
  _duration_to_seconds (_seconds_to_duration (Z.of_N s)) = Ok (Z.of_N s) /\
  _seconds_to_duration (Z.of_N s) =
    if (Z.of_N s =? 0) || negb (Z.of_N s mod 60 =? 0)
    then of_Z (Z.of_N s) +:+ "s"
    else if negb (Z.of_N s mod 3600 =? 0) then of_Z (Z.of_N s / 60) +:+ "m"
    else of_Z (Z.of_N s / 3600) +:+ "h".
Proof.
  pose proof (N2Z.is_nonneg s) as Hz.
  split; [|now apply seconds_to_duration_form].
  rewrite seconds_to_duration_form by assumption.
  destruct ((Z.of_N s =? 0) || negb (Z.of_N s mod 60 =? 0)) eqn:E.
  - rewrite (duration_of_rendered _ "s" 1) by (simpl; auto).
    f_equal. lia.
  - apply orb_false_iff in E as [_ E60].
    apply negb_false_iff, Z.eqb_eq in E60.
    destruct (Z.of_N s mod 3600 =? 0) eqn:E3600; simpl.
    + apply Z.eqb_eq in E3600.
      rewrite (duration_of_rendered _ "h" 3600);
        [| apply Z.div_pos; lia | simpl; auto].
      f_equal. Z.div_mod_to_equations. lia.
    + rewrite (duration_of_rendered _ "m" 60);
        [| apply Z.div_pos; lia | simpl; auto].
      f_equal. Z.div_mod_to_equations. lia.
Qed.

(** ** C7: the label-set string *)

Lemma ltb_false_le (x y : string) : String.ltb x y = false -> String.le y x.
Proof.
  unfold String.le, String.leb, String.ltb.
  rewrite (String.compare_antisym x y).
  destruct (String.compare y x); simpl; intros H; try discriminate H;
    exact I.
Qed.

Lemma ltb_true_le (x y : string) : String.ltb x y = true -> String.le x y.
Proof.
  unfold String.le, String.leb, String.ltb.
  destruct (String.compare x y); simpl; intros H; try discriminate H;
    exact I.
Qed.

Lemma insert_by_Permutation (x : string) (l : list string) :
  Permutation (insert_by (fun s => s) x l) (x :: l).
Proof.
  induction l as [|y l IH]; simpl; [reflexivity|].
  destruct (String.ltb x y); [reflexivity|].
  rewrite IH. apply perm_swap.
Qed.

Lemma insert_by_HdRel (a x : string) (l : list string) :
  String.le a x -> HdRel String.le a l ->
  HdRel String.le a (insert_by (fun s => s) x l).
Proof.
  intros Hax Hal. destruct l as [|y l]; simpl; [now constructor|].
  destruct (String.ltb x y); constructor; [assumption|].
  now apply HdRel_inv in Hal.
Qed.

Lemma insert_by_Sorted (x : string) (l : list string) :
  Sorted String.le l -> Sorted String.le (insert_by (fun s => s) x l).
Proof.
  induction l as [|y l IH]; intros Hl; simpl.
  - repeat constructor.
  - destruct (String.ltb x y) eqn:E.
    + constructor; [assumption|]. constructor. now apply ltb_true_le.
    + apply Sorted_inv in Hl as [Hl Hy]. constructor; [now apply IH|].
      apply insert_by_HdRel; [now apply ltb_false_le | assumption].
Qed.

Lemma sorted_acc_spec (l acc : list string) :
  Sorted String.le acc ->
  Sorted String.le (fold_left (fun acc x => insert_by (fun s => s) x acc) l acc)
  /\ Permutation (fold_left (fun acc x => insert_by (fun s => s) x acc) l acc)
       (acc ++ l).
Proof.
  revert acc. induction l as [|x l IH]; intros acc Hacc; simpl.
  - split; [assumption | now rewrite app_nil_r].
  - destruct (IH (insert_by (fun s => s) x acc)) as [Hs Hp];
      [now apply insert_by_Sorted|].
    split; [assumption|].
    rewrite Hp, insert_by_Permutation.
    change (x :: acc ++ l) with ((x :: acc) ++ l).
    rewrite (Permutation_middle acc l x). reflexivity.
Qed.

(** [sorted] returns its argument in order. *)
Lemma sorted_Sorted (l : list string) : Sorted String.le (sorted l).
Proof. apply (sorted_acc_spec l []). constructor. Qed.

Lemma sorted_Permutation (l : list string) : Permutation (sorted l) l.
Proof. apply (sorted_acc_spec l []). constructor. Qed.

(** The order in which a set hands out its elements does not show in
    [sorted]. *)
Lemma sorted_of_Permutation (l l' : list string) :
  Permutation l' l -> sorted l' = sorted l.
Proof.
  intros Hp. apply (Sorted_unique String.le); try apply sorted_Sorted.
  now rewrite !sorted_Permutation.
Qed.

(** A set built with [set_add] holds no element twice. *)
Lemma mem_In (x : string) (l : list string) : mem x l = true <-> In x l.
Proof.
  unfold mem. rewrite existsb_exists. split.
  - intros (y & Hy & ->%String.eqb_eq). assumption.
  - intros H. exists x. split; [assumption | apply String.eqb_refl].
Qed.

Lemma set_add_NoDup (x : string) (l : list string) :
  List.NoDup l -> List.NoDup (set_add x l).
Proof.
  intros Hl. unfold set_add. destruct (mem x l) eqn:E; [assumption|].
  apply NoDup_ListNoDup, NoDup_app. repeat split.
  - now apply NoDup_ListNoDup.
  - intros y Hy ->%list_elem_of_singleton.
    apply list_elem_of_In, mem_In in Hy. congruence.
  - apply NoDup_singleton.
Qed.

Lemma fold_left_invariant {A B : Type} (P : A -> Prop) (f : A -> B -> A)
    (l : list B) (a : A) :
  (forall a b, P a -> P (f a b)) -> P a -> P (fold_left f l a).
Proof.
  intros Hf. revert a. induction l as [|b l IH]; intros a Ha; simpl; auto.
Qed.

Lemma sub_fold_invariant {A : Type} (P : A -> Prop) (ic : bool) (r : regex)
    (repl : A -> rmatch -> A * string) (count : option nat) (a : A)
    (s : string) :
  (forall a m, P a -> P (fst (repl a m))) -> P a ->
  P (fst (sub_fold ic r repl count a s)).
Proof.
  intros Hrepl Ha. unfold sub_fold.
  destruct (matches ic r count s) as [ms tl].
  match goal with
  | |- context [fold_left ?f ms ?i] =>
      assert (P (fst (fold_left f ms i))) as H
  end.
  { apply (fold_left_invariant (fun ao => P (fst ao))); [|assumption].
    intros [a0 out] [skipped m] H0. simpl in *.
    specialize (Hrepl a0 m H0). now destruct (repl a0 m). }
  match goal with
  | |- context [fold_left ?f ms ?i] => destruct (fold_left f ms i)
  end.
  exact H.
Qed.

Lemma collect_labels_NoDup (query field_name : string) :
  List.NoDup (snd (collect_labels query field_name)).
Proof.
  unfold collect_labels.
  pose proof (sub_fold_invariant (@List.NoDup string) false or_group_re
                _replace (Some 2%nat) [] query) as H.
  destruct (sub_fold false or_group_re _replace (Some 2%nat) [] query)
    as [labels query'].
  cbn [fst snd] in *.
  apply fold_left_invariant.
  - intros a op Ha. unfold operator_labels.
    destruct (mem op ["!~"; "=~"]).
    + apply fold_left_invariant; [|assumption].
      intros a0 [k v] Ha0. unfold regex_label.
      destruct (String.eqb _ field_name); [assumption|].
      now apply set_add_NoDup.
    + repeat apply fold_left_invariant; try assumption;
        intros a0 [k v] Ha0; unfold plain_label;
        (destruct (String.eqb _ field_name);
         [assumption | now apply set_add_NoDup]).
  - apply H; [|constructor].
    intros a m Ha. unfold _replace.
    destruct (set_of_list _) as [|key [|? ?]]; simpl; try assumption.
    now apply set_add_NoDup.
Qed.

(** ** C7: the matchers of [get_labels] *)

Lemma set_add_In (x y : string) (l : list string) :
  In y (set_add x l) <-> In y l \/ y = x.
Proof.
  unfold set_add. destruct (mem x l) eqn:E.
  - apply mem_In in E. split; [auto|]. intros [H| ->]; assumption.
  - rewrite in_app_iff. cbn [In]. intuition.
Qed.

(** The elements of a set filled by a loop that adds at most one element
    for each item. *)
Lemma fold_set_add_In {B : Type} (g : B -> option string) (l : list B)
    (acc : list string) (x : string) :
  In x (fold_left
          (fun acc b =>
             match g b with Some y => set_add y acc | None => acc end)
          l acc)
  <-> In x acc \/ exists b, In b l /\ g b = Some x.
Proof.
  revert acc. induction l as [|b l IH]; intros acc; cbn [fold_left].
  - split; [auto|]. intros [H|(b & [] & _)]. exact H.
  - rewrite IH. destruct (g b) as [y|] eqn:E.
    + rewrite set_add_In. split.
      * intros [[H| ->]|(b' & Hb' & Hg)]; [auto | |].
        -- right. exists b. split; [now left | exact E].
        -- right. exists b'. split; [now right | exact Hg].
      * intros [H|(b' & [<-|Hb'] & Hg)]; [auto | |].
        -- left. right. congruence.
        -- right. exists b'. now split.
    + split.
      * intros [H|(b' & Hb' & Hg)]; [auto|].
        right. exists b'. split; [now right | exact Hg].
      * intros [H|(b' & [<-|Hb'] & Hg)]; [auto | congruence |].
        right. exists b'. now split.
Qed.

Lemma fold_left_ext {A B : Type} (f g : A -> B -> A) (l : list B) (a : A) :
  (forall a b, f a b = g a b) -> fold_left f l a = fold_left g l a.
Proof.
  intros H. revert a. induction l as [|b l IH]; intros a; [reflexivity|].
  cbn [fold_left]. now rewrite H, IH.
Qed.

(** [re.sub] with a closure: what the closure collects, and the text. *)
Lemma sub_fold_split {A : Type} (ic : bool) (r : regex)
    (repl : A -> rmatch -> A * string) (f : A -> rmatch -> A)
    (g : rmatch -> string) (count : option nat) (a : A) (s : string) :
  (forall a m, repl a m = (f a m, g m)) ->
  sub_fold ic r repl count a s
  = (fold_left f (map snd (fst (matches ic r count s))) a,
     snd (sub_fold ic r (fun (_ : unit) m => (tt, g m)) count tt s)).
Proof.
  intros H. unfold sub_fold.
  destruct (matches ic r count s) as [ms tl]. cbn [fst].
  assert (forall out,
            fold_left
              (fun '(a, out) '(skipped, m) =>
                 let '(a', t) := repl a m in (a', out +:+ skipped +:+ t))
              ms (a, out)
            = (fold_left f (map snd ms) a,
               snd (fold_left
                      (fun '(a, out) '(skipped, m) =>
                         let '(a', t) := (tt, g m) in
                         (a', out +:+ skipped +:+ t))
                      ms (tt, out)))) as Hfold.
  { revert a. induction ms as [|[skipped m] ms IH]; intros a out;
      [reflexivity|].
    cbn [fold_left map snd]. rewrite H. apply IH. }
  rewrite Hfold.
  destruct (fold_left _ ms (tt, EmptyString)) as [[] out']. reflexivity.
Qed.

Lemma replace_matcher (labels : list string) (m : rmatch) :
  _replace labels m
  = (match or_group_matcher m with
     | Some y => set_add y labels
     | None => labels
     end,
     match or_group_matcher m with
     | Some _ => EmptyString
     | None => group_text 1 m
     end).
Proof.
  unfold _replace, or_group_matcher, or_group_results, label.
  destruct (set_of_list _) as [|key [|? ?]]; reflexivity.
Qed.

(** The matcher of one match of a regex comparison, if it is kept. *)
Lemma regex_label_matcher (field_name operator : string)
    (labels : list string) (kv : string * string) :
  regex_label field_name operator labels kv
  = match (if String.eqb (replace "-" "_" (unquoted (fst kv))) field_name
           then None
           else Some (label (replace "-" "_" (unquoted (fst kv))) operator
                        (regex_value (snd kv)))) with
    | Some y => set_add y labels
    | None => labels
    end.
Proof.
  destruct kv as [key value]. unfold regex_label, unquoted, regex_value.
  cbn [fst snd]. destruct (String.eqb _ field_name); reflexivity.
Qed.

Lemma plain_label_matcher (field_name operator : string)
    (labels : list string) (kv : string * string) :
  plain_label field_name operator labels kv
  = match (if String.eqb (unquoted (fst kv)) field_name then None
           else Some (label (unquoted (fst kv)) operator
                        (replace "\" "\\" (snd kv)))) with
    | Some y => set_add y labels
    | None => labels
    end.
Proof.
  destruct kv as [key value].
  unfold plain_label, unquoted, _escape_backslashes.
  cbn [fst snd]. destruct (String.eqb _ field_name); reflexivity.
Qed.

Lemma regex_loop_In (field_name operator x : string)
    (kvs : list (string * string)) (labels : list string) :
  In x (fold_left (regex_label field_name operator) kvs labels)
  <-> In x labels
      \/ exists key value,
           In (key, value) kvs
           /\ replace "-" "_" (unquoted key) <> field_name
           /\ x = label (replace "-" "_" (unquoted key)) operator
                    (regex_value value).
Proof.
  rewrite (fold_left_ext _ _ kvs labels
             (regex_label_matcher field_name operator)).
  rewrite fold_set_add_In. apply or_iff_compat_l. split.
  - intros ([key value] & Hin & Hg). cbn [fst snd] in Hg.
    destruct (String.eqb_spec (replace "-" "_" (unquoted key)) field_name);
      [discriminate Hg|].
    injection Hg as <-. eauto.
  - intros (key & value & Hin & Hne & ->). exists (key, value).
    split; [exact Hin|]. cbn [fst snd].
    destruct (String.eqb_spec (replace "-" "_" (unquoted key)) field_name);
      [contradiction | reflexivity].
Qed.

Lemma plain_loop_In (field_name operator x : string)
    (kvs : list (string * string)) (labels : list string) :
  In x (fold_left (plain_label field_name operator) kvs labels)
  <-> In x labels
      \/ exists key value,
           In (key, value) kvs
           /\ unquoted key <> field_name
           /\ x = label (unquoted key) operator (replace "\" "\\" value).
Proof.
  rewrite (fold_left_ext _ _ kvs labels
             (plain_label_matcher field_name operator)).
  rewrite fold_set_add_In. apply or_iff_compat_l. split.
  - intros ([key value] & Hin & Hg). cbn [fst snd] in Hg.
    destruct (String.eqb_spec (unquoted key) field_name);
      [discriminate Hg|].
    injection Hg as <-. eauto.
  - intros (key & value & Hin & Hne & ->). exists (key, value).
    split; [exact Hin|]. cbn [fst snd].
    destruct (String.eqb_spec (unquoted key) field_name);
      [contradiction | reflexivity].
Qed.

Lemma operator_labels_In (query field_name operator x : string)
    (labels : list string) :
  In x (operator_labels query field_name labels operator)
  <-> In x labels
      \/ (if mem operator ["!~"; "=~"]
          then regex_matcher_of field_name query operator x
          else plain_matcher_of field_name query operator x).
Proof.
  unfold operator_labels, regex_matcher_of, plain_matcher_of, comparisons.
  destruct (mem operator ["!~"; "=~"]).
  - apply regex_loop_In.
  - rewrite plain_loop_In, plain_loop_In. split.
    + intros [[H|(key & value & Hin & H)]|(key & value & Hin & H)];
        [auto | right; exists key, value; auto
        | right; exists key, value; auto].
    + intros [H|(key & value & [Hin|Hin] & H)];
        [auto | left; right; exists key, value; auto
        | right; exists key, value; auto].
Qed.

Lemma operators_loop_In (query field_name x : string)
    (operators : list string) (labels : list string) :
  In x (fold_left (operator_labels query field_name) operators labels)
  <-> In x labels
      \/ exists operator,
           In operator operators
           /\ (if mem operator ["!~"; "=~"]
               then regex_matcher_of field_name query operator x
               else plain_matcher_of field_name query operator x).
Proof.
  revert labels. induction operators as [|op ops IH]; intros labels;
    cbn [fold_left].
  - split; [auto|]. intros [H|(op & [] & _)]. exact H.
  - rewrite IH, operator_labels_In. split.
    + intros [[H|H]|(op' & Hin & H)]; [auto | |].
      * right. exists op. split; [now left | exact H].
      * right. exists op'. split; [now right | exact H].
    + intros [H|(op' & [<-|Hin] & H)]; [auto | auto |].
      right. exists op'. now split.
Qed.

(** The set [labels] of [get_labels] and the query it returns. *)
Lemma collect_labels_spec (query field_name : string) :
  fst (collect_labels query field_name) = without_or_groups query
  /\ forall x,
       In x (snd (collect_labels query field_name))
       <-> (exists m, In m (or_groups query) /\ or_group_matcher m = Some x)
           \/ exists operator,
                In operator LABEL_COMPARISON_OPERATORS
                /\ (if mem operator ["!~"; "=~"]
                    then regex_matcher_of field_name
                           (without_or_groups query) operator x
                    else plain_matcher_of field_name
                           (without_or_groups query) operator x).
Proof.
  unfold collect_labels.
  rewrite (sub_fold_split false or_group_re _replace
             (fun labels m =>
                match or_group_matcher m with
                | Some y => set_add y labels
                | None => labels
                end)
             (fun m =>
                match or_group_matcher m with
                | Some _ => EmptyString
                | None => group_text 1 m
                end)
             (Some 2%nat) [] query replace_matcher).
  fold (without_or_groups query). fold (or_groups query).
  cbn [fst snd]. split; [reflexivity|].
  intros x. rewrite operators_loop_In, fold_set_add_In.
  cbn [In]. intuition.
Qed.

(** C7, as the code has it: for every query and field name, [get_labels]
    returns the query without its OR groups of one key, and the
    comma-separated join of a list that is in code point order, holds no
    matcher twice, and has exactly these matchers: for an OR group of
    equalities on one key, the key with [=~] and the values joined by [|],
    as they are written; for a match of a regex comparison, the key with its
    operator and the value anchored, with every backslash doubled and every
    single quote escaped; for a match of a plain comparison, the key with
    its operator and the value with every backslash doubled.  The string is
    the same whatever the order in which the set hands out its elements, so
    the same input always yields the same string. *)
Theorem get_labels_sorted_join (query field_name : string) :
  fst (get_labels query field_name) = without_or_groups query
  /\ exists L : list string,
       snd (get_labels query field_name) = join "," L
       /\ Sorted String.le L
       /\ List.NoDup L
       /\ (forall x,
             In x L <->
             (exists m key,
                In m (or_groups query)
                /\ set_of_list (map fst (or_group_results m)) = [key]
                /\ x = label key "=~"
                         (join "|" (map snd (or_group_results m))))
             \/ (exists operator,
                   In operator ["=~"; "!~"]
                   /\ regex_matcher_of field_name (without_or_groups query)
                        operator x)
             \/ (exists operator,
                   In operator ["="; "!="]
                   /\ plain_matcher_of field_name (without_or_groups query)
                        operator x))
       /\ (forall l',
             List.NoDup l' -> (forall x, In x l' <-> In x L) ->
             join "," (sorted l') = snd (get_labels query field_name)).
Proof.
  pose proof (collect_labels_NoDup query field_name) as Hnd.
  destruct (collect_labels_spec query field_name) as [Hq Hin].
  unfold get_labels.
  destruct (collect_labels query field_name) as [query' labels].
  cbn [fst snd] in *. split; [exact Hq|].
  assert (forall x, In x (sorted labels) <-> In x labels) as Hsorted.
  { intros x. rewrite <- !list_elem_of_In. now rewrite sorted_Permutation. }
  exists (sorted labels). split; [reflexivity|].
  split; [apply sorted_Sorted|].
  split.
  { apply NoDup_ListNoDup. rewrite sorted_Permutation.
    now apply NoDup_ListNoDup. }
  split.
  - intros x. rewrite Hsorted, Hin. split.
    + intros [(m & Hm & Hx)|(op & Hop & H)].
      * left. unfold or_group_matcher in Hx.
        destruct (set_of_list _) as [|key [|? ?]] eqn:E;
          try discriminate Hx.
        injection Hx as <-. exists m, key. auto.
      * right. unfold LABEL_COMPARISON_OPERATORS in Hop. cbn [In] in Hop.
        destruct Hop as [<-|[<-|[<-|[<-|[]]]]]; cbn in H.
        -- right. exists "=". split; [cbn; auto | exact H].
        -- right. exists "!=". split; [cbn; auto | exact H].
        -- left. exists "=~". split; [cbn; auto | exact H].
        -- left. exists "!~". split; [cbn; auto | exact H].
    + intros [(m & key & Hm & Hk & ->)|[(op & Hop & H)|(op & Hop & H)]].
      * left. exists m. split; [exact Hm|].
        unfold or_group_matcher. now rewrite Hk.
      * right. exists op. cbn [In] in Hop.
        destruct Hop as [<-|[<-|[]]];
          (split; [unfold LABEL_COMPARISON_OPERATORS; cbn; auto
                  | exact H]).
      * right. exists op. cbn [In] in Hop.
        destruct Hop as [<-|[<-|[]]];
          (split; [unfold LABEL_COMPARISON_OPERATORS; cbn; auto
                  | exact H]).
  - intros l' Hnd' Hsame. f_equal. apply sorted_of_Permutation.
    apply NoDup_Permutation; [now apply NoDup_ListNoDup..|].
    intros x. rewrite !list_elem_of_In. now rewrite Hsame, Hsorted.
Qed.

(** C7, the escaping is not the one the specification words: a double
    quote in a value stays as it is, in a plain and in a regex comparison,
    and so does the single quote after a backslash in a plain value, where
    only the backslash is doubled. *)
Lemma get_labels_leaves_quotes :
  snd (get_labels quote_in_value "x") = py "h=`a`b`"
  /\ snd (get_labels escaped_quote_in_value "x") = py "h=`a\\'b`"
  /\ snd (get_labels (py "SELECT mean(`x`) FROM `m` WHERE `h` =~ /a`b/") "x")
     = py "h=~`.*a`b.*`".
Proof. repeat split; vm_compute; reflexivity. Qed.

(** ** Reasoning about methods *)

Lemma bind_Ok {A B : Type} (m : M A) (f : A -> M B) (c c' : converter)
    (b : B) :
  bind m f c = (Ok b, c') ->
  exists a c1, m c = (Ok a, c1) /\ f a c1 = (Ok b, c').
Proof.
  unfold bind. destruct (m c) as [[a|e] c1]; intros H; [eauto | discriminate].
Qed.

Lemma bind_Raise {A B : Type} (m : M A) (f : A -> M B) (c c' : converter)
    (e : exn) :
  bind m f c = (Raise e, c') ->
  m c = (Raise e, c') \/
  exists a c1, m c = (Ok a, c1) /\ f a c1 = (Raise e, c').
Proof.
  unfold bind. destruct (m c) as [[a|e0] c1]; intros H; [eauto|].
  left. congruence.
Qed.

Lemma lift_Ok {A : Type} (r : result A) (c c' : converter) (a : A) :
  lift r c = (Ok a, c') -> r = Ok a /\ c' = c.
Proof. unfold lift. intros H. split; congruence. Qed.

Lemma rbind_Ok {A B : Type} (r : result A) (f : A -> result B) (b : B) :
  rbind r f = Ok b -> exists a, r = Ok a /\ f a = Ok b.
Proof. destruct r; simpl; intros H; [eauto | discriminate]. Qed.

Lemma getitem_Ok (k : string) (d : dict) (v : value) :
  getitem k d = Ok v -> assoc k d = Some v.
Proof. unfold getitem. destruct (assoc k d); congruence. Qed.

(** Splits the hypothesis that a sequence of statements returned into one
    hypothesis for each statement. *)
Ltac inv_bind H :=
  let a := fresh "a" in
  let c1 := fresh "c" in
  let H1 := fresh "H" in
  apply bind_Ok in H as (a & c1 & H1 & H).

Lemma py_eq_str_iff (v : value) (s : string) :
  py_eq v (VStr s) = true <-> v = VStr s.
Proof.
  destruct v; simpl; split; intros H; try discriminate H.
  - apply String.eqb_eq in H. now subst.
  - injection H as ->. apply String.eqb_refl.
Qed.

Lemma assoc_dset_ne (k k' : string) (v : value) (d : dict) :
  k <> k' -> assoc k' (dset k v d) = assoc k' d.
Proof.
  intros Hne. induction d as [|[k0 v0] d IH]; simpl.
  - destruct (String.eqb_spec k' k); congruence.
  - destruct (String.eqb_spec k k0) as [->|Hk]; simpl.
    + destruct (String.eqb_spec k' k0); congruence.
    + destruct (String.eqb_spec k' k0); congruence.
Qed.

Lemma assoc_dset_eq (k : string) (v : value) (d : dict) :
  assoc k (dset k v d) = Some v.
Proof.
  induction d as [|[k0 v0] d IH]; simpl.
  - now rewrite String.eqb_refl.
  - destruct (String.eqb_spec k k0) as [->|Hk]; simpl.
    + now rewrite String.eqb_refl.
    + destruct (String.eqb_spec k k0); congruence.
Qed.

(** ** C9: the fields of a converted target *)

(** C9: for every target that [convert_query] converts, the [instant] field
    of the new target is true if and only if the target's [resultFormat] is
    the string ["table"], and its [intervalFactor] field is 1. *)
Theorem convert_query_instant (query : query_or_flag) (target : dict)
    (legend : string) (c c' : converter) (new_target : value)
    (over_times fills_ : list string) :
  convert_query query target legend c
  = (Ok (new_target, over_times, fills_), c') ->
  exists d b,
    new_target = VDict d /\
    assoc "intervalFactor" d = Some (VInt 1) /\
    assoc "instant" d = Some (VBool b) /\
    (b = true <-> assoc "resultFormat" target = Some (VStr "table")).
Proof.
  unfold convert_query. intros H.
  destruct query as [q|]; [|discriminate H].
  destruct (contains "<>" q); [discriminate H|].
  destruct (contains "(*)" q); [discriminate H|].
  inv_bind H. destruct a as [[[expr ots] fs] alias_name].
  inv_bind H. apply lift_Ok in H1 as [Hfmt ->]. apply getitem_Ok in Hfmt.
  inv_bind H. inv_bind H. injection H as <- <- <-.
  eexists _, _. split; [reflexivity|].
  split; [|split].
  - destruct (assoc "hide" target); reflexivity.
  - destruct (assoc "hide" target); reflexivity.
  - rewrite py_eq_str_iff, Hfmt. split; congruence.
Qed.

(** The theorem at a raw query shown as a table: the new target is instant. *)
Lemma convert_query_instant_witness :
  exists d b,
    VDict [("expr", VStr "avg(m_x)"); ("format", VStr "table");
           ("instant", VBool true); ("intervalFactor", VInt 1);
           ("refId", VStr "A"); ("legendFormat", VStr EmptyString)] = VDict d /\
    assoc "intervalFactor" d = Some (VInt 1) /\
    assoc "instant" d = Some (VBool b) /\
    (b = true <-> assoc "resultFormat" table_target = Some (VStr "table")).
Proof.
  apply (convert_query_instant table_query table_target EmptyString
           converter0 converter0 _ [] []).
  vm_compute. reflexivity.
Defined.


(** ** C2: divide-by-self *)

(** C2, the claim as stated fails on its own query: the condition is on the
    field [y], which the query does not select, and [get_conditions] raises
    before anything is rendered. *)
Lemma divide_by_self_foreign_condition_raises :
  fst (convert_expression divide_foreign_condition converter0)
  = Raise (ValueError (ConditionNotOnSelectField divide_foreign_condition)).
Proof. vm_compute. reflexivity. Qed.

Lemma conds_falsy (conditions : conds) (query field_name : string) :
  get_conditions query field_name = Ok conditions ->
  conds_truthy conditions = false ->
  conditions = CondStr EmptyString.
Proof.
  unfold get_conditions. intros H Hf.
  apply rbind_Ok in H as (l & _ & H).
  destruct (contains " OR " query && negb (Nat.eqb (length l) 0)) eqn:E.
  - injection H as <-. apply andb_true_iff in E as [_ E].
    destruct l; [discriminate E | discriminate Hf].
  - injection H as <-. simpl in Hf.
    destruct (join " " l); [reflexivity | discriminate Hf].
Qed.

(** A query that divides a selection by itself converts only when it has no
    condition on a value and no arithmetic modification: the rendering of a
    given condition as a [bool] comparison is never reached through
    [convert_expression]. *)
Lemma divide_by_self_has_no_condition (query : string) (c c' : converter)
    (e : expression) :
  convert_expression query c = (Ok e, c') ->
  exists series field_name,
    get_metric_name query = Ok (series, field_name) /\
    let field_name := replace "." "_" field_name in
    let query' := fst (get_labels query field_name) in
    (does_divide_by_self query' = true ->
     get_conditions query' field_name = Ok (CondStr EmptyString)
     /\ get_modifications query' = []).
Proof.
  unfold convert_expression. intros H.
  inv_bind H. destruct a as [series field_name].
  apply lift_Ok in H0 as [Hname ->].
  exists series, field_name. split; [exact Hname|].
  inv_bind H. apply lift_Ok in H0 as [_ ->].
  inv_bind H. apply lift_Ok in H0 as [_ ->].
  destruct (get_labels query (replace "." "_" field_name)) as [query' labels].
  cbn [fst]. inv_bind H. inv_bind H. inv_bind H.
  match goal with
  | Hc : lift (get_conditions _ _) _ = (Ok ?conditions, _) |- _ =>
      apply lift_Ok in Hc as [Hconds ->]; rename conditions into conds_
  end.
  intros Hdiv. rewrite Hdiv in H. cbn [andb] in H.
  destruct (conds_truthy conds_
            || negb (Nat.eqb (length (get_modifications query')) 0))
    eqn:E; [discriminate H|].
  apply orb_false_iff in E as [E1 E2].
  rewrite (conds_falsy conds_ _ _ Hconds E1) in Hconds. split; [exact Hconds|].
  destruct (get_modifications query'); [reflexivity | discriminate E2].
Qed.

(** C2, as the code has it.  The query of the claim compares a field that it
    does not select and raises for that reason, with or without a further
    condition; with the comparison on its own field it raises for the
    combination of a division by itself with a condition; without a
    comparison it converts, and the condition rendered is [!= bool 0]. *)
Theorem divide_by_self_conversion :
  fst (convert_expression divide_foreign_condition converter0)
  = Raise (ValueError (ConditionNotOnSelectField divide_foreign_condition))
  /\ fst (convert_expression divide_two_conditions converter0)
     = Raise (ValueError (ConditionNotOnSelectField divide_two_conditions))
  /\ fst (convert_expression divide_own_condition converter0)
     = Raise (ValueError (DivideBySelfCombined divide_own_condition))
  /\ fst (convert_expression divide_no_condition converter0)
     = Ok ("avg(m_x!= bool 0)", [], [], None).
Proof. repeat split; vm_compute; reflexivity. Qed.

(** ** The count promotion of [format_expression] *)

Lemma replace_same_char (c : ascii) (s : string) :
  replace (String c EmptyString) (String c EmptyString) s = s.
Proof.
  unfold replace, replace_n. induction s as [|a s IH]; [reflexivity|].
  simpl. destruct (Ascii.eqb_spec c a) as [->|Hne]; simpl.
  - now rewrite IH.
  - now rewrite IH.
Qed.

Lemma format_windows_count (gb : option GroupBy) :
  exists ot ota, format_windows ["count"] gb = ("count", ot, ota).
Proof.
  unfold format_windows. destruct gb as [g|]; simpl; [|eauto].
  destruct (nonempty (over_time g)); simpl; eauto.
Qed.

Lemma format_outer_count (metric : string) (gb : option GroupBy)
    (condition : string) (ot : option string) (ota : list string) :
  nonempty condition = true ->
  exists ot' ota',
    format_outer metric gb condition "count" ot ota
    = ("count" +:+ match gb with
                   | Some g => _replace_invalid_metric_characters (group_by g)
                   | None => EmptyString
                   end, ot', ota').
Proof.
  intros Hc. unfold format_outer. simpl. rewrite Hc. simpl.
  destruct gb as [g|]; [|eauto].
  destruct (nonempty (group_by g) || negb (Nat.eqb (length ota) 0)) eqn:E;
    [eauto|].
  apply orb_false_iff in E as [E _].
  destruct (group_by g); [|discriminate E]. eauto.
Qed.

Lemma format_inner_plain (si : Z) (metric : string) (aggs : list string)
    (labels : string) (mods ots : list string) (condition : string)
    (ot : option string) :
  fst (format_inner si metric aggs labels mods ots condition ot [])
  = metric
    +:+ (if nonempty labels then "{" +:+ labels +:+ "}" else EmptyString)
    +:+ condition +:+ ")" +:+ join " " mods.
Proof.
  unfold format_inner. cbn [length Nat.eqb negb].
  destruct ot as [o|].
  - destruct (nonempty o).
    + destruct (mem "rate" aggs || mem "increase" aggs).
      * destruct (mem o _ && _);
          destruct (nonempty labels); cbn [fst];
          rewrite ?append_assoc, ?append_empty_r; reflexivity.
      * destruct (nonempty labels); cbn [fst];
          rewrite ?append_assoc, ?append_empty_r; reflexivity.
    + destruct (nonempty labels); cbn [fst];
        rewrite ?append_assoc, ?append_empty_r; reflexivity.
  - destruct (nonempty labels); cbn [fst];
      rewrite ?append_assoc, ?append_empty_r; reflexivity.
Qed.

Lemma format_condition_count_filtered (si : Z) (metric labels : string)
    (gb : option GroupBy) (mods ots : list string) (condition : string) :
  nonempty condition = true ->
  fst (format_condition si false metric ["count"] labels gb mods ots condition)
  = "count"
    +:+ match gb with
        | Some g => _replace_invalid_metric_characters (group_by g)
        | None => EmptyString
        end
    +:+ "(" +:+ metric +:+ braces labels +:+ condition +:+ ")"
    +:+ join " " mods.
Proof.
  intros Hc. unfold format_condition.
  destruct (format_windows_count gb) as (ot & ota & ->).
  assert (format_bool_condition false "count" condition = condition) as ->.
  { unfold format_bool_condition. now destruct (String.eqb condition "> 0"). }
  destruct (format_outer_count metric gb condition ot ota Hc)
    as (ot' & ota' & ->).
  assert (format_clear_windows ["count"] condition ota' = []) as ->.
  { unfold format_clear_windows. now rewrite Hc. }
  pose proof (format_inner_plain si metric ["count"] labels mods ots
                condition ot') as Hin.
  destruct (format_inner _ _ _ _ _ _ _ _ _) as [inner ots'].
  cbn [fst] in *. subst inner.
  rewrite (replace_same_char "'"). unfold braces.
  now rewrite !append_assoc.
Qed.

Lemma format_condition_count_promoted (si : Z) (metric labels : string)
    (g : GroupBy) (mods ots : list string) :
  nonempty (over_time g) = true ->
  fst (format_condition si false metric ["count"] labels (Some g) mods ots
         EmptyString)
  = "sum" +:+ _replace_invalid_metric_characters (group_by g)
    +:+ "(count_over_time(" +:+ metric +:+ braces labels
    +:+ "[" +:+ sub false TIME_INTERVAL_REGEX (fun _ => "$__interval")
                  (over_time g)
    +:+ "])) " +:+ join " " mods.
Proof.
  intros Hot. unfold format_condition, format_windows.
  cbn [option_map truthy_str]. rewrite Hot. cbn [negb].
  change (over_time_aggregations_of ["count"] (List.last ["count"] EmptyString))
    with ("count", ["count_over_time"]).
  cbv beta iota.
  change (format_bool_condition false "count" EmptyString) with EmptyString.
  unfold format_outer.
  change (nonempty "count") with true. cbv iota.
  change (mem "count" ["rate"; "increase"]) with false.
  cbn [andb length Nat.eqb negb orb nonempty].
  rewrite orb_true_r. cbv beta iota.
  change (default "count" (assoc "count" AGGREGATION_TOPLEVEL_MAP)) with "sum".
  change (String.eqb "count" "count" && String.eqb "sum" "sum") with true.
  cbv beta iota.
  change (format_clear_windows ["count"] EmptyString ["count_over_time"])
    with ["count_over_time"].
  unfold format_inner. cbn [length Nat.eqb negb]. rewrite Hot.
  change (mem "rate" ["count"] || mem "increase" ["count"]) with false.
  cbv beta iota. rewrite (replace_same_char "'").
  unfold braces. change (join " " ["count_over_time"]) with "count_over_time".
  destruct (nonempty labels); cbn [fst];
    rewrite ?append_assoc, ?append_empty_r; reflexivity.
Qed.

Lemma format_expression_single (divide : bool) (metric : string)
    (aggs : list string) (labels : string) (gb : option GroupBy)
    (mods : list string) (condition : string) (alias_name : option string)
    (c : converter) :
  format_expression divide metric aggs labels gb mods (CondStr condition)
    alias_name c
  = (Ok (let r := format_condition (scrape_interval c) divide
                    (_replace_invalid_metric_characters metric) aggs labels gb
                    mods [] condition in
         (fst r, snd r,
          match gb with Some g => fills g | None => [] end, alias_name)),
     c).
Proof.
  unfold format_expression, bind, get, ret. cbn [fold_left].
  destruct (format_condition _ _ _ _ _ _ _ _ _) as [e o]. reflexivity.
Qed.

(** C3, as the code has it.  With a [WHERE] clause that holds no comparison
    of the counted field, the count query is promoted to
    [sum(count_over_time(...))], also when the clause filters on a tag; with
    a comparison of the field the outer aggregation stays [count] and no
    window is applied.  Both hold for every metric, label set, grouping and
    modification list that reach [format_expression]. *)
Theorem count_promotion (metric labels : string) (g : GroupBy)
    (mods : list string) (condition : string) (alias_name : option string)
    (c : converter)
    (Hwindow : nonempty (over_time g) = true)
    (Hcondition : nonempty condition = true) :
  let name := _replace_invalid_metric_characters metric in
  let by_ := _replace_invalid_metric_characters (group_by g) in
  (exists over_times,
     fst (format_expression false metric ["count"] labels (Some g) mods
            (CondStr EmptyString) alias_name c)
     = Ok ("sum" +:+ by_ +:+ "(count_over_time(" +:+ name +:+ braces labels
           +:+ "["
           +:+ sub false TIME_INTERVAL_REGEX (fun _ => "$__interval")
                 (over_time g)
           +:+ "])) " +:+ join " " mods,
           over_times, fills g, alias_name))
  /\ (exists over_times,
        fst (format_expression false metric ["count"] labels (Some g) mods
               (CondStr condition) alias_name c)
        = Ok ("count" +:+ by_ +:+ "(" +:+ name +:+ braces labels
              +:+ condition +:+ ")" +:+ join " " mods,
              over_times, fills g, alias_name))
  /\ fst (convert_expression count_plain converter0)
     = Ok ("sum(count_over_time(m_x[$__interval])) ", ["30s"; "5m"], [], None)
  /\ fst (convert_expression count_tag_filter converter0)
     = Ok (py "sum(count_over_time(m_x{host=`a`}[$__interval])) ",
           ["30s"; "5m"], [], None)
  /\ fst (convert_expression count_value_condition converter0)
     = Ok ("count(m_x> 5)", ["30s"; "5m"], [], None).
Proof.
  intros name by_. repeat split; try (vm_compute; reflexivity).
  - rewrite format_expression_single. cbn [fst]. eexists.
    rewrite format_condition_count_promoted by exact Hwindow. reflexivity.
  - rewrite format_expression_single. cbn [fst]. eexists.
    rewrite format_condition_count_filtered by exact Hcondition. reflexivity.
Qed.

Lemma count_promotion_witness :
  exists over_times,
    fst (format_expression false "m_x" ["count"] EmptyString
           (Some {| group_by := EmptyString; over_time := "5m"; fills := [] |})
           [] (CondStr "> 5") None converter0)
    = Ok ("count" +:+ EmptyString +:+ "(" +:+ "m_x" +:+ braces EmptyString
          +:+ "> 5" +:+ ")" +:+ join " " [],
          over_times, [], None).
Proof.
  exact (proj1 (proj2 (count_promotion "m_x" EmptyString
           {| group_by := EmptyString; over_time := "5m"; fills := [] |}
           [] "> 5" None converter0 eq_refl eq_refl))).
Defined.

(** C3, the query of the claim: without a [WHERE] clause the measurement is
    not found and the conversion raises. *)
Lemma count_without_where_raises :
  fst (convert_expression count_no_where converter0)
  = Raise (ValueError (UnableToFindMetricName count_no_where)).
Proof. vm_compute. reflexivity. Qed.

(** ** C4: OR groups *)

Lemma py_eq_str_l (s : string) (v : value) :
  py_eq (VStr s) v = true -> v = VStr s.
Proof.
  destruct v; simpl; intros H; try discriminate H.
  apply String.eqb_eq in H. now subst.
Qed.

Lemma distinct_values_In (ks : list string) (acc : list value) (k : string) :
  In k ks \/ In (VStr k) acc ->
  In (VStr k) (distinct_values (map VStr ks) acc).
Proof.
  revert acc. induction ks as [|k0 ks IH]; intros acc H;
    cbn [distinct_values map].
  - destruct H as [[]|H]; exact H.
  - apply IH. destruct H as [[->|H]|H]; [right | left; exact H | right].
    + destruct (existsb (py_eq (VStr k)) acc) eqn:E.
      * apply existsb_exists in E as (x & Hx & E).
        apply py_eq_str_l in E. now subst.
      * apply in_or_app. right. now left.
    + destruct (existsb _ acc); [exact H | apply in_or_app; now left].
Qed.

Lemma distinct_values_two_keys (ks : list string) (k1 k2 : string) :
  In k1 ks -> In k2 ks -> k1 <> k2 ->
  Nat.eqb (length (distinct_values (map VStr ks) [])) 1 = false.
Proof.
  intros H1 H2 Hne.
  pose proof (distinct_values_In ks [] k1 (or_introl H1)) as I1.
  pose proof (distinct_values_In ks [] k2 (or_introl H2)) as I2.
  destruct (distinct_values (map VStr ks) []) as [|a [|b r]];
    [destruct I1 | | reflexivity].
  destruct I1 as [->|[]]. destruct I2 as [E|[]]. congruence.
Qed.

Lemma keys_of_tags (tags : list value) (ks : list string) :
  Forall2 tag_with_key tags ks ->
  rmap (fun tag => rbind (as_dict tag) (getitem "key")) tags
  = Ok (map VStr ks).
Proof.
  induction 1 as [|tag k tags ks (d & -> & Hk) _ IH]; [reflexivity|].
  cbn [rmap as_dict rbind]. unfold getitem at 1. rewrite Hk.
  cbn [rbind]. rewrite IH. reflexivity.
Qed.

Lemma hashable_strings (ks : list string) :
  forallb hashable (map VStr ks) = true.
Proof. induction ks; simpl; auto. Qed.

Lemma where_of_tags_different_keys (tags : list value) (ks : list string)
    (k1 k2 : string) (c : converter) :
  any_of (tag_field_is "condition" "OR") tags = Ok true ->
  Forall2 tag_with_key tags ks ->
  In k1 ks -> In k2 ks -> k1 <> k2 ->
  where_of_tags tags c = (Raise (ValueError UnsupportedOrDifferentKey), c).
Proof.
  intros Hor Hkeys H1 H2 Hne. unfold where_of_tags, bind, lift.
  rewrite Hor, (keys_of_tags _ _ Hkeys), hashable_strings.
  cbn [negb]. now rewrite (distinct_values_two_keys ks k1 k2).
Qed.

Lemma bind_returns {A B : Type} (m : M A) (f : A -> M B) (c c1 : converter)
    (a : A) :
  m c = (Ok a, c1) -> bind m f c = f a c1.
Proof. unfold bind. now intros ->. Qed.

Lemma bind_raises {A B : Type} (m : M A) (f : A -> M B) (c c1 : converter)
    (e : exn) :
  m c = (Raise e, c1) -> bind m f c = (Raise e, c1).
Proof. unfold bind. now intros ->. Qed.

(** C4, as the code has it.  A structured target whose tags hold an OR
    condition and two different keys is never converted to a query text:
    flagged as not Influx it gives the flag back; not flagged, it raises the
    error of a missing [select], or the exception that reading its [select]
    raises, and, its [select] items read, it is refused with the error for
    an OR over different keys.  The two [host] tags joined by OR become the one
    matcher [host=~`a|b`], values in input order; in a raw query the same
    holds for the OR group written between parentheses. *)
Theorem or_group_conversion (target : dict) (tags : list value)
    (ks : list string) (k1 k2 legend : string) (c : converter)
    (Htags : assoc "tags" target = Some (VList tags))
    (Hor : any_of (tag_field_is "condition" "OR") tags = Ok true)
    (Hkeys : Forall2 tag_with_key tags ks)
    (H1 : In k1 ks) (H2 : In k2 ks) (Hne : k1 <> k2) :
  (forall query c',
     convert_to_query target legend c <> (Ok (QueryText query), c'))
  /\ (truthy (dget "not-influx-target" target) = true ->
      convert_to_query target legend c = (Ok NotInfluxTuple, c))
  /\ (truthy (dget "not-influx-target" target) = false ->
      assoc "select" target = None ->
      convert_to_query target legend c
      = (Raise (ValueError (MissingSelect (py_str (_current_dashboard c)))),
         c))
  /\ (forall selects e c1,
        truthy (dget "not-influx-target" target) = false ->
        assoc "select" target = Some (VList selects) ->
        for_each selects
          {| sv_value := EmptyString; sv_select_what := EmptyString;
             sv_alias := VStr EmptyString; sv_modifications := [] |}
          select_group c = (Raise e, c1) ->
        convert_to_query target legend c = (Raise e, c1))
  /\ (forall selects vars c1,
        truthy (dget "not-influx-target" target) = false ->
        assoc "select" target = Some (VList selects) ->
        for_each selects
          {| sv_value := EmptyString; sv_select_what := EmptyString;
             sv_alias := VStr EmptyString; sv_modifications := [] |}
          select_group c = (Ok vars, c1) ->
        fst (convert_to_query target legend c)
        = Raise (ValueError UnsupportedOrDifferentKey))
  /\ (exists query,
        fst (convert_to_query (or_target or_tags_same) EmptyString converter0)
        = Ok (QueryText query)
        /\ fst (convert_expression query converter0)
           = Ok (py "avg(m_x{host=~`a|b`})", [], [], None))
  /\ fst (convert_expression or_raw_group converter0)
     = Ok (py "avg(m_x{host=~`a|b`})", [], [], None).
Proof.
  split; [|split; [|split; [|split; [|split; [|split]]]]].
  - intros query c' H. unfold convert_to_query in H.
    destruct (truthy (dget "not-influx-target" target)); [discriminate H|].
    apply bind_Ok in H as (current & c0 & Hcur & H).
    injection Hcur as <- <-.
    destruct (dget "select" target) as [| | | |selects| |];
      try discriminate H;
      try (apply bind_Ok in H as (l & c1 & Hl & _); discriminate Hl).
    apply bind_Ok in H as (l & c1 & Hl & H). injection Hl as <- <-.
    apply bind_Ok in H as (vars & c2 & _ & H).
    apply bind_Ok in H as (items & c3 & Hitems & _).
    rewrite Htags in Hitems.
    apply bind_Ok in Hitems as (tags' & c4 & Ht & Hitems).
    injection Ht as <- <-.
    apply bind_Ok in Hitems as (items' & c5 & Hw & _).
    rewrite (where_of_tags_different_keys tags ks k1 k2 c2 Hor Hkeys H1 H2 Hne)
      in Hw.
    discriminate Hw.
  - intros Hflag. unfold convert_to_query. now rewrite Hflag.
  - intros Hflag Hselect. unfold convert_to_query. rewrite Hflag.
    unfold dget. rewrite Hselect. reflexivity.
  - intros selects e c1 Hflag Hselect Hitems.
    unfold convert_to_query. rewrite Hflag. unfold dget. rewrite Hselect.
    cbn [default from_option id]. erewrite bind_returns by reflexivity.
    cbv beta iota.
    erewrite bind_returns by reflexivity.
    erewrite bind_raises by exact Hitems. reflexivity.
  - intros selects vars c1 Hflag Hselect Hitems.
    unfold convert_to_query. rewrite Hflag. unfold dget. rewrite Hselect.
    cbn [default from_option id]. erewrite bind_returns by reflexivity.
    cbv beta iota.
    erewrite bind_returns by reflexivity.
    erewrite bind_returns by exact Hitems.
    erewrite bind_raises; [reflexivity|].
    rewrite Htags. erewrite bind_returns by reflexivity.
    erewrite bind_raises; [reflexivity|].
    exact (where_of_tags_different_keys tags ks k1 k2 c1 Hor Hkeys H1 H2 Hne).
  - exists (py "SELECT mean(`x`) FROM `m` WHERE ($timeFilter AND `host`=~/^a|b$/)").
    split; vm_compute; reflexivity.
  - vm_compute. reflexivity.
Qed.

(** The theorem at the target with the tags [host] and [region]: it is
    refused; with a select of the unknown function [spread] the error of
    the select comes first, and flagged it is given back. *)
Lemma or_group_conversion_witness :
  fst (convert_to_query (or_target or_tags_mixed) EmptyString converter0)
  = Raise (ValueError UnsupportedOrDifferentKey)
  /\ fst (convert_to_query
            (dset "select" (select_of "x" "spread") (or_target or_tags_mixed))
            EmptyString converter0)
     = Raise (ValueError (UnknownItemType "'spread'"))
  /\ fst (convert_to_query
            (dset "not-influx-target" (VBool true)
               (or_target or_tags_mixed))
            EmptyString converter0)
     = Ok NotInfluxTuple.
Proof.
  split; [|split; [vm_compute; reflexivity|]].
  - refine (proj1 (proj2 (proj2 (proj2 (proj2
              (or_group_conversion (or_target or_tags_mixed) or_tags_mixed
                 ["host"; "region"] "host" "region" EmptyString converter0
                 eq_refl eq_refl _ _ _ _)))))
              [VList [VDict [("type", VStr "field");
                             ("params", VList [VStr "x"])];
                      VDict [("type", VStr "mean"); ("params", VList [])]]]
              {| sv_value := "x"; sv_select_what := py "mean(`x`)";
                 sv_alias := VStr EmptyString; sv_modifications := [] |}
              converter0 eq_refl eq_refl _).
    + repeat constructor; eexists; split; reflexivity.
    + simpl. auto.
    + simpl. auto.
    + discriminate.
    + vm_compute. reflexivity.
  - refine (f_equal fst
              (proj1 (proj2
                 (or_group_conversion
                    (dset "not-influx-target" (VBool true)
                       (or_target or_tags_mixed))
                    or_tags_mixed ["host"; "region"] "host" "region"
                    EmptyString converter0 eq_refl eq_refl _ _ _ _))
                 eq_refl)).
    + repeat constructor; eexists; split; reflexivity.
    + simpl. auto.
    + simpl. auto.
    + discriminate.
Defined.



(** C4, the claim as stated fails for a raw query: an OR group over the keys
    [host] and [region] is left as it is and converts, without an error, to
    two matchers; and the OR that is not between parentheses is not unified. *)
Lemma or_group_mixed_keys_converts :
  fst (convert_expression or_raw_mixed converter0)
  = Ok (py "avg(m_x{host=`a`,region=`b`})", [], [], None)
  /\ fst (convert_expression or_raw_plain converter0)
     = Ok (py "avg(m_x{host=`a`,host=`b`})", [], [], None).
Proof. split; vm_compute; reflexivity. Qed.

(** ** C6: a target flagged by an earlier run *)

Lemma dset_same (k : string) (v : value) (d : dict) :
  assoc k d = Some v -> dset k v d = d.
Proof.
  induction d as [|[k' v'] d IH]; simpl; [discriminate|].
  destruct (String.eqb_spec k k') as [->|Hne]; intros H.
  - now injection H as ->.
  - now rewrite IH.
Qed.

(** A flagged target that the classifier rejects again is returned as it
    is, with no time window and no fill policy, and the metric-usage index
    is left as it was, by [convert_targets] and by
    [add_to_metric_and_object_list]. *)
Lemma flagged_target_rejected_again (target : dict) (datasource : value)
    (c : converter) :
  assoc "not-influx-target" target = Some (VBool true) ->
  is_target_influx c target (_context_templating c) datasource = Ok false ->
  (exists c1,
     convert_targets [VDict target] datasource c
     = (Ok ([VDict target], [], []), c1)
     /\ metric_to_objects c1 = metric_to_objects c
     /\ _context_templating c1 = _context_templating c
     /\ grafana_datasources c1 = grafana_datasources c)
  /\ (exists c2,
        add_to_metric_and_object_list [VDict target] [VDict target]
          datasource c = (Ok tt, c2)
        /\ metric_to_objects c2 = metric_to_objects c).
Proof.
  intros Hflag Hreject.
  pose (c1 := snd (add_error (Text "Skipping target - not Influx or is Flux")
                     "DEBUG" (skipped_target_notes target) c)).
  assert (metric_to_objects c1 = metric_to_objects c
          /\ _context_templating c1 = _context_templating c
          /\ grafana_datasources c1 = grafana_datasources c) as Hsame.
  { subst c1. unfold add_error, modify. cbn [snd].
    destruct (ctx_dashboard c), (ctx_panel c); repeat split; reflexivity. }
  split; exists c1.
  - split; [|exact Hsame].
    unfold convert_targets. cbn [for_each].
    erewrite bind_returns; [reflexivity|].
    unfold convert_target.
    erewrite bind_returns by reflexivity.
    erewrite bind_returns by reflexivity.
    erewrite bind_returns by (rewrite Hreject; reflexivity).
    cbv beta iota. rewrite (dset_same _ _ _ Hflag).
    erewrite bind_returns by reflexivity. reflexivity.
  - split; [|apply Hsame].
    unfold add_to_metric_and_object_list.
    cbn [with_new_targets for_each].
    erewrite bind_returns; [reflexivity|].
    unfold add_target_to_index.
    erewrite bind_returns by reflexivity.
    erewrite bind_returns by reflexivity.
    erewrite bind_returns by (rewrite Hreject; reflexivity).
    reflexivity.
Qed.

(** C6, the divergence.  A target that one run flags, here because the
    registry of datasources does not know the name the target gives, is not
    returned as it is by the next run when the classifier accepts it:
    [convert_to_query] answers the flag with a tuple, and [convert_query]
    calls [lower] on it.  This holds for every flagged target without a raw
    query that the classifier accepts and whose legend is read. *)
Theorem flagged_target_accepted_raises (target : dict) (datasource : value)
    (legend : string) (c c1 : converter)
    (Hflag : truthy (dget "not-influx-target" target) = true)
    (Hraw : truthy (dget "rawQuery" target) = false)
    (Haccept :
       is_target_influx c target (_context_templating c) datasource = Ok true)
    (Hlegend : get_legend_format target c = (Ok legend, c1)) :
  convert_targets [VDict target] datasource c
  = (Raise (AttributeError "'tuple' object has no attribute 'lower'"), c1)
  /\ fst (convert_targets [VDict named_target] prometheus_datasource converter0)
     = Ok ([VDict flagged_target], [], []).
Proof.
  split; [|vm_compute; reflexivity].
  unfold convert_targets. cbn [for_each].
  erewrite bind_raises; [reflexivity|].
  unfold convert_target.
  erewrite bind_returns by reflexivity.
  erewrite bind_returns by reflexivity.
  erewrite bind_returns by (rewrite Haccept; reflexivity).
  cbv beta iota. erewrite bind_returns by exact Hlegend.
  rewrite Hraw. unfold convert_to_query. rewrite Hflag.
  erewrite bind_raises; [reflexivity|].
  erewrite bind_returns by reflexivity. reflexivity.
Qed.

Lemma flagged_target_accepted_raises_witness :
  convert_targets [VDict flagged_target] prometheus_datasource
    converter_with_registry
  = (Raise (AttributeError "'tuple' object has no attribute 'lower'"),
     converter_with_registry).
Proof.
  refine (proj1 (flagged_target_accepted_raises flagged_target
                   prometheus_datasource EmptyString converter_with_registry
                   converter_with_registry eq_refl eq_refl _ _)).
  - vm_compute. reflexivity.
  - vm_compute. reflexivity.
Defined.

(** ** C8: template variables by kind *)
















Lemma returns_raise {A : Type} (P : A -> Prop) (e : exn) :
  returns_only P (raise e).
Proof. intros c a c' E. discriminate E. Qed.
























(** ** C5: where an error is contained *)

Lemma ddel_cons (k k0 : string) (v0 : value) (d : dict) :
  ddel k ((k0, v0) :: d)
  = if String.eqb k k0 then ddel k d else (k0, v0) :: ddel k d.
Proof. unfold ddel. simpl. now destruct (String.eqb k k0). Qed.

Lemma assoc_ddel_eq (k : string) (d : dict) : assoc k (ddel k d) = None.
Proof.
  induction d as [|[k0 v0] d IH]; [reflexivity|]. rewrite ddel_cons.
  destruct (String.eqb_spec k k0) as [->|Hne]; [exact IH|].
  cbn [assoc]. destruct (String.eqb_spec k k0); [contradiction | exact IH].
Qed.

Lemma assoc_ddel_None (k k' : string) (d : dict) :
  assoc k d = None -> assoc k (ddel k' d) = None.
Proof.
  induction d as [|[k0 v0] d IH]; [reflexivity|]. rewrite ddel_cons.
  cbn [assoc].
  destruct (String.eqb_spec k k0) as [->|Hne]; [discriminate|].
  intros H. destruct (String.eqb k' k0); [now apply IH|].
  cbn [assoc]. destruct (String.eqb_spec k k0); [contradiction | now apply IH].
Qed.

Lemma convert_panel_overrides_keeps (p p' : dict) (c c' : converter)
    (k : string) :
  convert_panel_overrides p c = (Ok tt, p', c') ->
  k <> "seriesOverrides" ->
  c' = c /\ assoc k p' = assoc k p.
Proof.
  unfold convert_panel_overrides, pbind, panel_get, of_M, lift, panel_set, pret.
  intros H Hk. destruct (truthy (dget "seriesOverrides" p)).
  - destruct (convert_series_overrides _) as [v|e]; [|discriminate H].
    injection H as <- <-. split; [reflexivity|].
    apply assoc_dset_ne. congruence.
  - injection H as <- <-. auto.
Qed.

Lemma add_error_records (msg : exn) (c : converter) (gd : GrafanaDashboard)
    (gp : GrafanaPanel) :
  ctx_dashboard c = Some gd -> ctx_panel c = Some gp ->
  _conversion_errors
    (snd (add_error (UnableToConvert msg) "ERROR" (NoteExn msg) c))
  = _conversion_errors c
    ++ [{| ce_message := UnableToConvert msg; ce_level := "ERROR";
           ce_notes := NoteExn msg; ce_dashboard := gd; ce_panel := gp |}].
Proof.
  intros Hd Hp. unfold add_error, modify. cbn [snd]. now rewrite Hd, Hp.
Qed.

(** [convert_panel] for a panel that is no row, from the run of its
    body. *)
Lemma convert_panel_plain (depth : nat) (panel : dict) (id type : value)
    (c : converter) :
  assoc "id" panel = Some id ->
  assoc "type" panel = Some type ->
  is_str "row" type = false ->
  convert_panel (S depth) (VDict panel) c
  = match convert_plain_panel panel
            (set_ctx_panel (Some (panel_context panel id)) c) with
    | (Ok _, panel', c') => (Ok (VDict panel'), c')
    | (Raise e, _, c') => (Raise e, c')
    end.
Proof.
  intros Hid Htype Hrow. cbn [convert_panel].
  erewrite bind_returns by reflexivity.
  erewrite bind_returns by (unfold lift, getitem; now rewrite Hid).
  erewrite bind_returns by reflexivity.
  erewrite bind_returns by (unfold lift, getitem; now rewrite Htype).
  now rewrite Hrow.
Qed.

(** The body of a panel that is no row, from the run of its [try]. *)
Lemma convert_plain_panel_try (panel p1 p2 : dict) (c c1 c2 : converter)
    (r : result unit) :
  convert_panel_datasource panel c = (Ok Continue, p1, c1) ->
  convert_panel_try (old_panel_datasource_of panel) p1 c1 = (r, p2, c2) ->
  convert_plain_panel panel c
  = match r with
    | Ok _ => convert_panel_overrides p2 c2
    | Raise ex =>
        if is_ValueError ex then
          convert_panel_overrides (ddel "alert" (ddel "targets" p2))
            (snd (add_error (UnableToConvert ex) "ERROR" (NoteExn ex) c2))
        else (Raise ex, p2, c2)
    end.
Proof.
  intros Hds Htry. unfold convert_plain_panel, pbind at 1 2, panel_get.
  rewrite Hds. unfold pbind, try_except_ValueError. rewrite Htry.
  destruct r as [[]|ex]; [reflexivity|].
  destruct (is_ValueError ex); [|reflexivity].
  unfold convert_panel_except, pbind, panel_pop, of_M.
  destruct (add_error _ _ _ c2) as [[[]|e] c3] eqn:E; [reflexivity|].
  discriminate E.
Qed.

(** An exception that is no [ValueError] is not caught: it leaves
    [convert_panel] and [convert_panels] when the panel's [try] raises it,
    and [convert_dashboard], as it is, when the templating raises it. *)
Lemma other_errors_escape :
  (forall depth panel p1 p2 id type c c1 c2 ex rest,
     assoc "id" panel = Some id ->
     assoc "type" panel = Some type ->
     is_str "row" type = false ->
     convert_panel_datasource panel
       (set_ctx_panel (Some (panel_context panel id)) c)
     = (Ok Continue, p1, c1) ->
     convert_panel_try (old_panel_datasource_of panel) p1 c1
     = (Raise ex, p2, c2) ->
     is_ValueError ex = false ->
     convert_panel (S depth) (VDict panel) c = (Raise ex, c2)
     /\ convert_panels (S depth) (VDict panel :: rest) c = (Raise ex, c2))
  /\ (forall dashboard meta d1 templating c c1 c2 ex,
        convert_dashboard_panels dashboard meta c = (Ok (templating, d1), c1) ->
        convert_dashboard_templating templating d1 c1 = (Raise ex, c2) ->
        is_ValueError ex = false ->
        convert_dashboard dashboard meta c = (Raise ex, c2)).
Proof.
  split.
  - intros depth panel p1 p2 id type c c1 c2 ex rest Hid Htype Hrow Hds Htry
      Hex.
    assert (convert_panel (S depth) (VDict panel) c = (Raise ex, c2)) as Hp.
    { rewrite (convert_panel_plain depth panel id type c Hid Htype Hrow).
      rewrite (convert_plain_panel_try _ _ _ _ _ _ _ Hds Htry).
      now rewrite Hex. }
    split; [exact Hp|].
    unfold convert_panels. cbn [for_each]. unfold convert_next_panel at 1.
    erewrite bind_raises; [reflexivity|].
    erewrite bind_raises; [reflexivity | exact Hp].
  - intros dashboard meta d1 templating c c1 c2 ex Hpanels Htemplating Hex.
    unfold convert_dashboard.
    erewrite bind_returns by exact Hpanels. cbv beta iota.
    erewrite bind_raises; [reflexivity|].
    unfold reraise_as_ConvertError. now rewrite Htemplating, Hex.
Qed.

(** C5, as the code has it.  A [ValueError] raised in the [try] of a panel
    that is no row is caught: the panel is returned without its targets and
    its alert, one record of level ERROR is added to the errors when a
    dashboard and a panel are in context, and [convert_panels] goes on with
    the panels that follow.  A [ValueError] raised by the templating leaves
    [convert_dashboard] as a [ConvertError] that holds it. *)
Theorem error_containment :
  (forall depth panel p1 p2 p3 id type c c1 c2 c3 ex,
     assoc "id" panel = Some id ->
     assoc "type" panel = Some type ->
     is_str "row" type = false ->
     convert_panel_datasource panel
       (set_ctx_panel (Some (panel_context panel id)) c)
     = (Ok Continue, p1, c1) ->
     convert_panel_try (old_panel_datasource_of panel) p1 c1
     = (Raise ex, p2, c2) ->
     is_ValueError ex = true ->
     convert_panel_overrides (ddel "alert" (ddel "targets" p2))
       (snd (add_error (UnableToConvert ex) "ERROR" (NoteExn ex) c2))
     = (Ok tt, p3, c3) ->
     convert_panel (S depth) (VDict panel) c = (Ok (VDict p3), c3)
     /\ assoc "targets" p3 = None
     /\ assoc "alert" p3 = None
     /\ (forall gd gp,
           ctx_dashboard c2 = Some gd -> ctx_panel c2 = Some gp ->
           _conversion_errors c3
           = _conversion_errors c2
             ++ [{| ce_message := UnableToConvert ex; ce_level := "ERROR";
                    ce_notes := NoteExn ex; ce_dashboard := gd;
                    ce_panel := gp |}])
     /\ (forall rest,
           convert_panels (S depth) (VDict panel :: rest) c
           = for_each rest [VDict p3]
               (convert_next_panel (convert_panel (S depth))) c3))
  /\ (forall dashboard meta d1 templating c c1 c2 ex,
        convert_dashboard_panels dashboard meta c = (Ok (templating, d1), c1) ->
        convert_dashboard_templating templating d1 c1 = (Raise ex, c2) ->
        is_ValueError ex = true ->
        convert_dashboard dashboard meta c = (Raise (ConvertError ex), c2)).
Proof.
  split.
  - intros depth panel p1 p2 p3 id type c c1 c2 c3 ex Hid Htype Hrow Hds Htry
      Hex Hover.
    assert (convert_panel (S depth) (VDict panel) c = (Ok (VDict p3), c3))
      as Hp.
    { rewrite (convert_panel_plain depth panel id type c Hid Htype Hrow).
      rewrite (convert_plain_panel_try _ _ _ _ _ _ _ Hds Htry).
      now rewrite Hex, Hover. }
    split; [exact Hp|].
    destruct (convert_panel_overrides_keeps _ _ _ _ "targets" Hover)
      as [Hc Ht]; [discriminate|].
    destruct (convert_panel_overrides_keeps _ _ _ _ "alert" Hover)
      as [_ Ha]; [discriminate|].
    split; [|split; [|split]].
    + rewrite Ht. apply assoc_ddel_None, assoc_ddel_eq.
    + rewrite Ha. apply assoc_ddel_eq.
    + intros gd gp Hd Hgp. rewrite Hc. now apply add_error_records.
    + intros rest. unfold convert_panels. cbn [for_each].
      unfold convert_next_panel at 1.
      erewrite bind_returns; [reflexivity|].
      erewrite bind_returns by exact Hp. reflexivity.
  - intros dashboard meta d1 templating c c1 c2 ex Hpanels Htemplating Hex.
    unfold convert_dashboard.
    erewrite bind_returns by exact Hpanels. cbv beta iota.
    erewrite bind_raises; [reflexivity|].
    unfold reraise_as_ConvertError. now rewrite Htemplating, Hex.
Qed.

(** C5, the claim as stated fails for an error that is no [ValueError]: a
    target without [resultFormat] raises [KeyError] out of
    [convert_dashboard], and so does a template variable without a type,
    with no [ConvertError] around it. *)
Lemma key_error_escapes :
  fst (convert_dashboard
         (dashboard_of [panel_of 1 target_without_format;
                        panel_of 2 target_plain] [])
         meta_example converter0)
  = Raise (KeyError "resultFormat")
  /\ fst (convert_dashboard (dashboard_of [panel_of 2 target_plain] [VRef 0])
            meta_example (set_objects store_without_type converter0))
     = Raise (KeyError "type").
Proof. split; vm_compute; reflexivity. Qed.

Lemma error_containment_witness :
  (exists c3,
     convert_panel 1 (VDict (panel_of 1 target_without_select))
       converter_in_dashboard
     = (Ok (VDict [("id", VInt 1); ("title", VStr "Traffic");
                   ("type", VStr "graph")]), c3)
     /\ length (_conversion_errors c3) = 1%nat)
  /\ fst (convert_dashboard (dashboard_of [panel_of 2 target_plain] [VRef 0])
            meta_example (set_objects store_unknown_type converter0))
     = Raise
         (ConvertError
            (ValueError
               (UnknownTemplateType "{'name': 'free', 'type': 'textbox'}"))).
Proof.
  destruct error_containment as [Hpanel Hdashboard]. split.
  - pose (panel := panel_of 1 target_without_select).
    pose (c0 := set_ctx_panel (Some (panel_context panel (VInt 1)))
                  converter_in_dashboard).
    pose (ex := ValueError (MissingSelect "Net")).
    pose (c2 := c0).
    pose (c3 := snd (add_error (UnableToConvert ex) "ERROR" (NoteExn ex) c2)).
    destruct (Hpanel 0%nat panel panel panel
                [("id", VInt 1); ("title", VStr "Traffic");
                 ("type", VStr "graph")]
                (VInt 1) (VStr "graph") converter_in_dashboard c0 c2 c3 ex)
      as (Hp & _ & _ & Herrors & _);
      try (vm_compute; reflexivity).
    exists c3. split; [exact Hp|].
    rewrite (Herrors _ _ eq_refl eq_refl). reflexivity.
  - pose (dashboard := dashboard_of [panel_of 2 target_plain] [VRef 0]).
    pose (c := set_objects store_unknown_type converter0).
    pose (run := convert_dashboard_panels dashboard meta_example c).
    pose (ex := ValueError
                  (UnknownTemplateType "{'name': 'free', 'type': 'textbox'}")).
    assert (convert_dashboard dashboard meta_example c
            = (Raise (ConvertError ex), snd run)) as H.
    { apply (Hdashboard dashboard meta_example
               (snd (default (VNone, []) (match fst run with
                                          | Ok x => Some x
                                          | Raise _ => None
                                          end)))
               (VDict [("list", VList [VRef 0])]) c (snd run) (snd run) ex);
        vm_compute; reflexivity. }
    exact (f_equal fst H).
Defined.

(** ** C1: the template variable under the keys of the index *)

Lemma assoc_sset_eq {A : Type} (k : string) (v : A) (d : list (string * A)) :
  assoc k (sset k v d) = Some v.
Proof.
  induction d as [|[k0 v0] d IH]; simpl.
  - now rewrite String.eqb_refl.
  - destruct (String.eqb_spec k k0) as [->|Hne]; simpl.
    + now rewrite String.eqb_refl.
    + destruct (String.eqb_spec k k0); [contradiction | exact IH].
Qed.

Lemma assoc_sset_ne {A : Type} (k k' : string) (v : A)
    (d : list (string * A)) :
  k' <> k -> assoc k' (sset k v d) = assoc k' d.
Proof.
  intros Hne. induction d as [|[k0 v0] d IH]; simpl.
  - destruct (String.eqb_spec k' k); [contradiction | reflexivity].
  - destruct (String.eqb_spec k k0) as [->|H0]; simpl.
    + destruct (String.eqb_spec k' k0); [contradiction | reflexivity].
    + destruct (String.eqb_spec k' k0); [reflexivity | exact IH].
Qed.


Lemma backfill_no_match (dashboard_metric : string) (o : nat)
    (metrics : list string) (c : converter) :
  Forall (fun m => label_metric_matches dashboard_metric m = false) metrics ->
  backfill dashboard_metric o metrics c = (Ok tt, c).
Proof.
  induction 1 as [|m metrics Hm _ IH]; cbn [backfill]; [reflexivity|].
  now rewrite Hm.
Qed.









(** ** Instances of the general lemmas *)

Lemma divide_by_self_has_no_condition_witness :
  exists series field_name,
    get_metric_name divide_no_condition = Ok (series, field_name) /\
    let field_name := replace "." "_" field_name in
    let query' := fst (get_labels divide_no_condition field_name) in
    (does_divide_by_self query' = true ->
     get_conditions query' field_name = Ok (CondStr EmptyString)
     /\ get_modifications query' = []).
Proof.
  apply (divide_by_self_has_no_condition divide_no_condition converter0
           converter0 ("avg(m_x!= bool 0)", [], [], None)).
  vm_compute. reflexivity.
Defined.

Lemma flagged_target_rejected_again_witness :
  (exists c1,
     convert_targets [VDict flagged_target] prometheus_datasource converter0
     = (Ok ([VDict flagged_target], [], []), c1)
     /\ metric_to_objects c1 = metric_to_objects converter0
     /\ _context_templating c1 = _context_templating converter0
     /\ grafana_datasources c1 = grafana_datasources converter0)
  /\ (exists c2,
        add_to_metric_and_object_list [VDict flagged_target]
          [VDict flagged_target] prometheus_datasource converter0
        = (Ok tt, c2)
        /\ metric_to_objects c2 = metric_to_objects converter0).
Proof.
  apply (flagged_target_rejected_again flagged_target prometheus_datasource
           converter0); vm_compute; reflexivity.
Defined.

(** ** Metric names *)

Lemma replace_char (c n : ascii) (s : string) :
  replace (String c EmptyString) (String n EmptyString) s
  = map_string (fun a => if Ascii.eqb c a then n else a) s.
Proof.
  unfold replace, replace_n. induction s as [|a s IH]; [reflexivity|].
  cbn [replace_go map_string startswith String.length Nat.sub option_map].
  rewrite IH. destruct (Ascii.eqb c a); reflexivity.
Qed.

Lemma map_string_map_string (f g : ascii -> ascii) (s : string) :
  map_string g (map_string f s) = map_string (fun a => g (f a)) s.
Proof. induction s as [|a s IH]; simpl; [reflexivity | now rewrite IH]. Qed.

Lemma map_string_ext (f g : ascii -> ascii) (s : string) :
  (forall a, f a = g a) -> map_string f s = map_string g s.
Proof.
  intros H. induction s as [|a s IH]; simpl; [reflexivity|].
  now rewrite H, IH.
Qed.

Lemma map_string_length (f : ascii -> ascii) (s : string) :
  String.length (map_string f s) = String.length s.
Proof. induction s as [|a s IH]; simpl; [reflexivity | now rewrite IH]. Qed.

Lemma contains_char (c : ascii) (s : string) :
  contains (String c EmptyString) s = existsb (Ascii.eqb c) (chars s).
Proof.
  induction s as [|a s IH]; [reflexivity|].
  cbn [contains startswith chars list_ascii_of_string existsb].
  fold (chars s). rewrite IH. now rewrite andb_true_r.
Qed.

(** The function as one pass over the characters. *)
Lemma replace_invalid_metric_characters_map (metric : string) :
  _replace_invalid_metric_characters metric
  = map_string (fun a => if invalid_metric_char a then "_"%char else a)
      metric.
Proof.
  unfold _replace_invalid_metric_characters, INVALID_PROMQL_METRIC_CHARACTERS.
  cbn [fold_left]. rewrite !replace_char, !map_string_map_string.
  apply map_string_ext. intros a. unfold invalid_metric_char.
  cbn [existsb INVALID_PROMQL_METRIC_CHARACTERS String.eqb].
  destruct (Ascii.eqb_spec "." a) as [<-|H1]; [reflexivity|].
  destruct (Ascii.eqb_spec "-" a) as [<-|H2]; [reflexivity|].
  destruct (Ascii.eqb_spec " " a) as [<-|H3]; [reflexivity|].
  destruct (Ascii.eqb_spec "%" a) as [<-|H4]; [reflexivity|].
  destruct (Ascii.eqb_spec a "."); [congruence|].
  destruct (Ascii.eqb_spec a "-"); [congruence|].
  destruct (Ascii.eqb_spec a " "); [congruence|].
  destruct (Ascii.eqb_spec a "%"); [congruence|].
  reflexivity.
Qed.

(** [_replace_invalid_metric_characters] keeps the length of the name,
    leaves none of the four characters in it, changes no other character,
    and changes nothing when applied again. *)
Theorem replace_invalid_metric_characters_valid (metric : string) :
  String.length (_replace_invalid_metric_characters metric)
  = String.length metric
  /\ (forall character,
        In character INVALID_PROMQL_METRIC_CHARACTERS ->
        contains character (_replace_invalid_metric_characters metric)
        = false)
  /\ (forallb (fun c => negb (invalid_metric_char c)) (chars metric) = true ->
      _replace_invalid_metric_characters metric = metric)
  /\ _replace_invalid_metric_characters
       (_replace_invalid_metric_characters metric)
     = _replace_invalid_metric_characters metric.
Proof.
  rewrite !replace_invalid_metric_characters_map.
  split; [apply map_string_length|]. split; [|split].
  - intros character Hin.
    assert (exists c, character = String c EmptyString
                      /\ invalid_metric_char c = true) as (c & -> & Hc).
    { simpl in Hin. destruct Hin as [<-|[<-|[<-|[<-|[]]]]];
        eexists; split; reflexivity. }
    rewrite contains_char. induction metric as [|a s IH]; [reflexivity|].
    cbn [map_string chars list_ascii_of_string existsb].
    unfold chars in IH. rewrite IH, orb_false_r.
    destruct (invalid_metric_char a) eqn:Ha.
    + destruct (Ascii.eqb_spec c "_"); [subst; discriminate Hc | reflexivity].
    + destruct (Ascii.eqb_spec c a); [subst; congruence | reflexivity].
  - induction metric as [|a s IH]; [reflexivity|].
    cbn [chars list_ascii_of_string forallb map_string]. fold (chars s).
    intros [Ha Hs]%andb_true_iff. rewrite IH by exact Hs.
    now destruct (invalid_metric_char a).
  - rewrite map_string_map_string. apply map_string_ext. intros a.
    destruct (invalid_metric_char a) eqn:Ha; [reflexivity | now rewrite Ha].
Qed.

(** ** Durations with any unit *)

Lemma endswith_empty (x : ascii) :
  endswith (String x EmptyString) EmptyString = false.
Proof. reflexivity. Qed.

(** ** Texts that are no integer literal *)

Lemma has_foreign_char_lstrip (s : string) :
  has_foreign_char (lstrip_by is_int_space s) = has_foreign_char s.
Proof.
  induction s as [|c s IH]; [reflexivity|].
  cbn [lstrip_by]. destruct (is_int_space c) eqn:E; [|reflexivity].
  rewrite IH. unfold has_foreign_char.
  cbn [chars list_ascii_of_string existsb]. unfold int_literal_char.
  rewrite E, !orb_true_r. reflexivity.
Qed.

Lemma has_foreign_char_rev_acc (s acc : string) :
  has_foreign_char (rev_string_acc s acc)
  = has_foreign_char s || has_foreign_char acc.
Proof.
  revert acc. induction s as [|c s IH]; intros acc; [reflexivity|].
  cbn [rev_string_acc]. rewrite IH. unfold has_foreign_char.
  cbn [chars list_ascii_of_string existsb].
  destruct (negb (int_literal_char c)); cbn [orb];
    [now rewrite orb_true_r | reflexivity].
Qed.

Lemma has_foreign_char_strip (s : string) :
  has_foreign_char (strip_by is_int_space s) = has_foreign_char s.
Proof.
  unfold strip_by, rstrip_by, rev_string.
  rewrite has_foreign_char_rev_acc, has_foreign_char_lstrip,
    has_foreign_char_rev_acc, has_foreign_char_lstrip.
  cbn. now rewrite !orb_false_r.
Qed.

Lemma has_foreign_char_cons (c : ascii) (s : string) :
  int_literal_char c = true ->
  has_foreign_char (String c s) = has_foreign_char s.
Proof.
  intros H. unfold has_foreign_char.
  cbn [chars list_ascii_of_string existsb]. now rewrite H.
Qed.

Lemma int_digits_foreign (s : string) (b : bool) :
  has_foreign_char s = true -> int_digits b s = None.
Proof.
  revert b. induction s as [|c s IH]; intros b H; [discriminate H|].
  cbn [int_digits].
  destruct (is_digit c) eqn:Hd.
  - rewrite has_foreign_char_cons in H
      by (unfold int_literal_char; now rewrite Hd).
    now rewrite IH.
  - destruct (Ascii.eqb_spec c "_") as [->|Hne]; [|reflexivity].
    destruct b; [|reflexivity]. cbn [andb].
    rewrite has_foreign_char_cons in H by reflexivity.
    destruct s as [|d s]; [reflexivity|].
    destruct (is_digit d); [now apply IH | reflexivity].
Qed.

Lemma nat_of_digits_foreign (s : string) :
  has_foreign_char s = true -> nat_of_digits s = None.
Proof.
  intros H. unfold nat_of_digits. now rewrite int_digits_foreign.
Qed.

(** [int] refuses a text with a character that no literal has. *)
Lemma to_Z_foreign (s : string) :
  has_foreign_char s = true -> to_Z s = None.
Proof.
  intros H. rewrite <- has_foreign_char_strip in H. unfold to_Z.
  destruct (strip_by is_int_space s) as [|c s']; [discriminate H|].
  destruct (Ascii.eqb_spec c "-") as [->|Hminus].
  { rewrite has_foreign_char_cons in H by reflexivity.
    now rewrite nat_of_digits_foreign. }
  destruct (Ascii.eqb_spec c "+") as [->|Hplus].
  { rewrite has_foreign_char_cons in H by reflexivity.
    now rewrite nat_of_digits_foreign. }
  pose proof (nat_of_digits_foreign _ H) as Hnat.
  destruct c as [[] [] [] [] [] [] [] []]; try exact Hnat;
    first [now destruct Hminus | now destruct Hplus].
Qed.

Lemma lower_foreign_char (c : ascii) :
  int_literal_char c = false -> int_literal_char (lower_char c) = false.
Proof.
  destruct c as [[] [] [] [] [] [] [] []]; vm_compute; intros H;
    first [discriminate H | reflexivity].
Qed.

Lemma has_foreign_char_lower (s : string) (c : ascii) :
  In c (chars s) -> int_literal_char c = false ->
  has_foreign_char (lower s) = true.
Proof.
  induction s as [|a s IH]; intros Hin Hc; [destruct Hin|].
  unfold has_foreign_char in *.
  cbn [lower chars list_ascii_of_string existsb].
  destruct Hin as [->|Hin].
  - now rewrite (lower_foreign_char c Hc).
  - fold (chars (lower s)). rewrite (IH Hin Hc). apply orb_true_r.
Qed.

(** [_duration_to_seconds] reads a natural number followed by one of the
    letters s, m, h, d and w, in either case, as that many seconds, minutes,
    hours, days and weeks; a text whose last character is none of these, and
    the empty text, raise [NotImplementedError]; and an ASCII text that ends
    with a unit raises [ValueError] when nothing is before the unit, or when
    a character before it is no digit, sign, underscore or white space of
    [int(...)]. *)
Theorem duration_to_seconds_units :
  (forall z unit_char mult,
     0 <= z -> In (unit_char, mult) DURATION_UNITS ->
     _duration_to_seconds (of_Z z +:+ String unit_char EmptyString)
     = Ok (z * mult))
  /\ (forall v,
        (forall u, In u ["s"; "m"; "h"; "d"; "w"] ->
                   endswith u (lower v) = false) ->
        _duration_to_seconds v = Raise (NotImplementedError (lower v)))
  /\ (forall v unit_char mult,
        In (unit_char, mult) DURATION_UNITS ->
        is_ascii_text v = true ->
        v = EmptyString
        \/ (exists c, In c (chars v) /\ int_literal_char c = false) ->
        _duration_to_seconds (v +:+ String unit_char EmptyString)
        = Raise (ValueError (InvalidIntLiteral (lower v)))).
Proof.
  split; [|split].
  - intros z unit_char mult Hz Hunit. unfold _duration_to_seconds.
    rewrite lower_app, (all_digits_lower _ (of_Z_digits z Hz)).
    unfold DURATION_UNITS in Hunit. simpl in Hunit.
    repeat (destruct Hunit as [H|Hunit];
            [injection H as <- <-; cbn [lower lower_char is_upper in_range];
             simpl lower_char;
             rewrite !endswith_snoc, drop_last_snoc, (to_Z_of_Z z Hz);
             reflexivity|]).
    destruct Hunit.
  - intros v H. unfold _duration_to_seconds.
    rewrite !H by (simpl; auto 10). reflexivity.
  - intros v unit_char mult Hunit _ Hv.
    assert (to_Z (lower v) = None) as Hint.
    { destruct Hv as [->|(c & Hin & Hc)]; [reflexivity|].
      apply to_Z_foreign. exact (has_foreign_char_lower v c Hin Hc). }
    unfold _duration_to_seconds. rewrite lower_app.
    unfold DURATION_UNITS in Hunit. simpl in Hunit.
    repeat (destruct Hunit as [H|Hunit];
            [injection H as <- <-; cbn [lower]; simpl lower_char;
             rewrite !endswith_snoc, drop_last_snoc, Hint; reflexivity|]).
    destruct Hunit.
Qed.

(** The theorem at two texts: a decimal point, and the separator 31 that
    [str.strip] would remove. *)
Lemma duration_to_seconds_units_witness :
  _duration_to_seconds "1.5m" = Raise (ValueError (InvalidIntLiteral "1.5"))
  /\ _duration_to_seconds (String "7" (String "031" "S"))
     = Raise (ValueError (InvalidIntLiteral (String "7" (String "031" "")))).
Proof.
  split.
  - apply (proj2 (proj2 duration_to_seconds_units) "1.5" "m"%char 60);
      [simpl; auto | reflexivity |].
    right. exists "."%char. split; [simpl; auto | reflexivity].
  - apply (proj2 (proj2 duration_to_seconds_units)
             (String "7" (String "031" "")) "S"%char 1);
      [simpl; auto 10 | reflexivity |].
    right. exists "031"%char. split; [simpl; auto | reflexivity].
Defined.

(** ** Aggregations *)

Lemma assoc_In_values (m : list (string * string)) (x y : string) :
  assoc x m = Some y -> In y (map snd m).
Proof.
  induction m as [|[k v] m IH]; [discriminate|].
  cbn [assoc map snd]. destruct (String.eqb x k).
  - intros [= ->]. now left.
  - intros H. right. now apply IH.
Qed.

Lemma omap_assoc_values (m : list (string * string)) (l : list string) :
  Forall (fun a => In a (map snd m)) (omap (fun item => assoc item m) l).
Proof.
  induction l as [|x l IH]; [constructor|].
  unfold omap in *. cbn [list_omap].
  destruct (assoc x m) as [y|] eqn:E; [|exact IH].
  constructor; [exact (assoc_In_values m x y E) | exact IH].
Qed.

(** [get_aggregations] returns names of PromQL functions only, one at most
    for each piece of the selection between two opening parentheses, and
    raises [ValueError] when it does not return. *)
Theorem get_aggregations_promql (query : string) :
  match get_aggregations query with
  | Ok aggregations =>
      Forall (fun a => In a ["count"; "max"; "min"; "avg"; "rate";
                             "increase"; "stddev"; "sum"; "delta"])
        aggregations
  | Raise e => e = ValueError (UnableToFindAggregations query)
  end.
Proof.
  unfold get_aggregations.
  destruct (search true select_re query) as [part1|]; [|reflexivity].
  pose proof (omap_assoc_values AGGREGATION_MAP
                (split "(" (group_text 1 part1))) as H.
  induction H as [|a l Ha _ IH]; constructor; [|exact IH].
  simpl in Ha. simpl. intuition.
Qed.

(** ** The classifier and the targets it rejects *)

Lemma normalize_target_uid_datasource (t1 t2 : dict) :
  assoc "datasource" t1 = assoc "datasource" t2 ->
  normalize_target_uid t1 = normalize_target_uid t2.
Proof.
  assert (forall t,
            normalize_target_uid t
            = let ds := default (VDict []) (assoc "datasource" t) in
              rbind (py_in "uid" ds) (fun has_uid =>
              let normalize (uid : value) :=
                rbind (as_str uid) (fun uid =>
                Ok (replace "}" EmptyString
                      (replace "{" EmptyString
                         (replace "$" EmptyString uid)))) in
              if has_uid then rbind (py_index "uid" ds) normalize
              else match ds with
                   | VStr _ => normalize ds
                   | _ => Ok EmptyString
                   end)) as Hform
    by (intros [|kv t]; reflexivity).
  intros H. rewrite !Hform, H. reflexivity.
Qed.

Lemma is_target_influx_fields (c1 c2 : converter) (t1 t2 : dict)
    (templating panel_datasource : value) :
  assoc "dsType" t1 = assoc "dsType" t2 ->
  assoc "datasource" t1 = assoc "datasource" t2 ->
  grafana_datasources c1 = grafana_datasources c2 ->
  objects c1 = objects c2 ->
  is_target_influx c1 t1 templating panel_datasource
  = is_target_influx c2 t2 templating panel_datasource.
Proof.
  intros Htype Hds Hreg Hobj.
  assert (forall uid l,
            templating_names_uid c1 uid l = templating_names_uid c2 uid l)
    as Hnames.
  { intros uid l. induction l as [|item l IH]; [reflexivity|].
    cbn [templating_names_uid]. unfold item_dict. rewrite Hobj, IH.
    reflexivity. }
  assert (forall t t',
            assoc "dsType" t = assoc "dsType" t' ->
            assoc "datasource" t = assoc "datasource" t' ->
            target_looks_influx c1 t templating
            = target_looks_influx c2 t' templating) as Hlooks.
  { intros t t' Ht Hd.
    unfold target_looks_influx, _influxdb_datasource_type,
      _uid_matches_influx_templating, _influxdb_like_by_uid,
      _influxdb_like_by_ds_name, dget.
    rewrite (normalize_target_uid_datasource t t' Hd), Ht, Hd, Hreg.
    destruct (normalize_target_uid t') as [uid|e]; [|reflexivity].
    cbn [rbind].
    assert (rbind (py_index "list" templating)
              (fun l => rbind (as_list l) (templating_names_uid c1 uid))
            = rbind (py_index "list" templating)
                (fun l => rbind (as_list l) (templating_names_uid c2 uid)))
      as ->; [|reflexivity].
    destruct (py_index "list" templating) as [l|e]; [|reflexivity].
    cbn [rbind]. destruct (as_list l) as [items|e]; [|reflexivity].
    cbn [rbind]. apply Hnames. }
  unfold is_target_influx. rewrite (Hlooks t1 t2 Htype Hds).
  destruct (target_looks_influx c2 t2 templating) as [ret|e]; [|reflexivity].
  cbn [rbind]. destruct (negb ret && truthy panel_datasource); [|reflexivity].
  now apply Hlooks.
Qed.

(** The classifier reads two fields of a target only, [dsType] and
    [datasource], and of the converter the registry of datasources and the
    objects behind the templating. *)
Theorem classifier_reads_two_fields (c1 c2 : converter) (t1 t2 : dict)
    (templating panel_datasource : value) :
  assoc "dsType" t1 = assoc "dsType" t2 ->
  assoc "datasource" t1 = assoc "datasource" t2 ->
  grafana_datasources c1 = grafana_datasources c2 ->
  objects c1 = objects c2 ->
  is_target_influx c1 t1 templating panel_datasource
  = is_target_influx c2 t2 templating panel_datasource.
Proof. apply is_target_influx_fields. Qed.

Lemma classifier_reads_two_fields_witness :
  is_target_influx converter_with_registry named_target VNone
    prometheus_datasource
  = is_target_influx converter_with_registry flagged_target VNone
      prometheus_datasource.
Proof.
  apply classifier_reads_two_fields; reflexivity.
Defined.

(** What stays of the converter when only errors are recorded. *)
Lemma add_error_keeps (msg : emsg) (level : string) (notes : enotes)
    (c : converter) :
  let c' := snd (add_error msg level notes c) in
  grafana_datasources c' = grafana_datasources c
  /\ objects c' = objects c
  /\ _context_templating c' = _context_templating c
  /\ metric_to_objects c' = metric_to_objects c.
Proof.
  unfold add_error, modify. cbn [snd].
  destruct (ctx_dashboard c), (ctx_panel c); repeat split.
Qed.

Lemma dset_dset_same (k : string) (v : value) (d : dict) :
  dset k v (dset k v d) = dset k v d.
Proof. apply dset_same, assoc_dset_eq. Qed.

(** The loop of [convert_targets] over targets that the classifier
    rejects: each is flagged, and nothing else is added. *)
Lemma convert_targets_rejected_loop (targets : list dict)
    (datasource : value) (acc : list value) (over_times fills_ : list string)
    (c : converter) :
  Forall (fun t =>
            is_target_influx c t (_context_templating c) datasource
            = Ok false) targets ->
  exists c',
    for_each (map VDict targets) (acc, over_times, fills_)
      (convert_target datasource) c
    = (Ok (acc ++ map flag_target targets, over_times, fills_), c')
    /\ grafana_datasources c' = grafana_datasources c
    /\ objects c' = objects c
    /\ _context_templating c' = _context_templating c
    /\ metric_to_objects c' = metric_to_objects c.
Proof.
  revert acc c. induction targets as [|t targets IH]; intros acc c Hall.
  - exists c. cbn [map for_each]. unfold ret. now rewrite app_nil_r.
  - apply Forall_cons in Hall as [Ht Hall].
    pose (c1 := snd (add_error (Text "Skipping target - not Influx or is Flux")
                       "DEBUG" (skipped_target_notes t) c)).
    destruct (add_error_keeps (Text "Skipping target - not Influx or is Flux")
                "DEBUG" (skipped_target_notes t) c) as (Hr & Ho & Hc & Hm).
    fold c1 in Hr, Ho, Hc, Hm.
    destruct (IH (acc ++ [flag_target t]) c1) as (c' & Hrun & Hr' & Ho' & Hc' & Hm').
    { eapply Forall_impl; [exact Hall|]. intros t' Ht'. cbn beta in *.
      rewrite Hc, <- Ht'. now apply is_target_influx_fields. }
    exists c'. split; [|repeat split; congruence].
    cbn [map for_each]. erewrite bind_returns; [|].
    + rewrite Hrun, <- app_assoc. reflexivity.
    + unfold convert_target.
      erewrite bind_returns by reflexivity.
      erewrite bind_returns by reflexivity.
      erewrite bind_returns by (rewrite Ht; reflexivity).
      cbv beta iota. erewrite bind_returns by reflexivity. reflexivity.
Qed.

(** Targets that the classifier rejects are returned with the flag set, no
    time window and no fill policy; converting what was returned, with the
    registry as it was, returns it again as it is, and the metric-usage
    index is the one before the two runs. *)
Theorem convert_targets_rejected_idempotent (targets : list dict)
    (datasource : value) (c : converter) :
  Forall (fun t =>
            is_target_influx c t (_context_templating c) datasource
            = Ok false) targets ->
  exists c1 c2,
    convert_targets (map VDict targets) datasource c
    = (Ok (map flag_target targets, [], []), c1)
    /\ convert_targets (map flag_target targets) datasource c1
       = (Ok (map flag_target targets, [], []), c2)
    /\ metric_to_objects c2 = metric_to_objects c.
Proof.
  intros Hall.
  destruct (convert_targets_rejected_loop targets datasource [] [] [] c Hall)
    as (c1 & Hrun1 & Hr1 & Ho1 & Hc1 & Hm1).
  destruct (convert_targets_rejected_loop
              (map (dset "not-influx-target" (VBool true)) targets)
              datasource [] [] [] c1) as (c2 & Hrun2 & _ & _ & _ & Hm2).
  { apply Forall_map. eapply Forall_impl; [exact Hall|].
    intros t Ht. cbn beta in *. rewrite Hc1, <- Ht.
    apply is_target_influx_fields; try assumption;
      now rewrite assoc_dset_ne by discriminate. }
  exists c1, c2. unfold convert_targets. split; [exact Hrun1|].
  split; [|congruence].
  assert (map VDict (map (dset "not-influx-target" (VBool true)) targets)
          = map flag_target targets) as E1
    by (rewrite List.map_map; reflexivity).
  assert (map flag_target
            (map (dset "not-influx-target" (VBool true)) targets)
          = map flag_target targets) as E2.
  { rewrite List.map_map. apply List.map_ext. intros t.
    unfold flag_target. now rewrite dset_dset_same. }
  rewrite E1, E2 in Hrun2. exact Hrun2.
Qed.

Lemma convert_targets_rejected_idempotent_witness :
  exists c1 c2,
    convert_targets (map VDict [named_target]) prometheus_datasource
      converter0
    = (Ok (map flag_target [named_target], [], []), c1)
    /\ convert_targets (map flag_target [named_target]) prometheus_datasource
         c1
       = (Ok (map flag_target [named_target], [], []), c2)
    /\ metric_to_objects c2 = metric_to_objects converter0.
Proof.
  apply convert_targets_rejected_idempotent.
  repeat constructor.
Defined.

(** ** The metric-usage index *)

Lemma py_eq_hashable_refl (v : value) : hashable v = true -> py_eq v v = true.
Proof.
  destruct v as [|b|n|s| | |]; intros H; try discriminate H; simpl.
  - reflexivity.
  - now destruct b.
  - apply Z.eqb_refl.
  - apply String.eqb_refl.
Qed.

Lemma vassoc_vset_eq {A : Type} (k : value) (v : A) (d : list (value * A)) :
  py_eq k k = true -> vassoc k (vset k v d) = Some v.
Proof.
  intros Hk. induction d as [|[k0 v0] d IH]; cbn [vset vassoc].
  - now rewrite Hk.
  - destruct (py_eq k k0) eqn:E; cbn [vassoc]; rewrite E; [reflexivity|].
    exact IH.
Qed.

(** The two appends at the end of the loop of
    [add_to_metric_and_object_list], for a dashboard title that can be a
    key: the object is listed twice after a list that was there, and once
    in a list that was not. *)
Lemma index_appends (metric : string) (x : value) (c : converter) :
  hashable (_current_dashboard c) = true ->
  exists c',
    bind (except_KeyError (index_append metric (Some x))
            (index_make_room metric))
      (fun _ => index_append metric (Some x)) c
    = (Ok tt, c')
    /\ entries_under metric (_current_dashboard c) c'
       = match assoc metric (metric_to_objects c) with
         | Some per_dashboard =>
             match vassoc (_current_dashboard c) per_dashboard with
             | Some l => l ++ [x; x]
             | None => [x]
             end
         | None => [x]
         end
    /\ (forall metric', metric' <> metric ->
          assoc metric' (metric_to_objects c')
          = assoc metric' (metric_to_objects c))
    /\ _current_dashboard c' = _current_dashboard c
    /\ grafana_datasources c' = grafana_datasources c
    /\ objects c' = objects c
    /\ _context_templating c' = _context_templating c.
Proof.
  intros Hh. pose proof (py_eq_hashable_refl _ Hh) as Hrefl.
  unfold bind, except_KeyError, index_append, index_make_room, bind, get,
    modify, raise, entries_under.
  destruct (assoc metric (metric_to_objects c)) as [per|] eqn:Hm.
  - rewrite Hh. cbn [negb].
    destruct (vassoc (_current_dashboard c) per) as [l|] eqn:Hl.
    + cbn [metric_to_objects _current_dashboard set_metric_to_objects].
      rewrite assoc_sset_eq, Hh. cbn [negb].
      rewrite vassoc_vset_eq by exact Hrefl.
      eexists. split; [reflexivity|].
      cbn [metric_to_objects _current_dashboard set_metric_to_objects
           grafana_datasources objects _context_templating].
      rewrite assoc_sset_eq. cbn [default from_option id].
      rewrite vassoc_vset_eq by exact Hrefl.
      split; [now rewrite <- app_assoc|].
      split; [|repeat split].
      intros metric' Hne. now rewrite !assoc_sset_ne by exact Hne.
    + assert (match per with kv :: d => kv :: d | [] => [] end = per) as Hper
        by now destruct per.
      rewrite Hm, Hper, Hh. cbn [negb].
      cbn [metric_to_objects _current_dashboard set_metric_to_objects].
      rewrite assoc_sset_eq, Hh. cbn [negb].
      rewrite vassoc_vset_eq by exact Hrefl.
      eexists. split; [reflexivity|].
      cbn [metric_to_objects _current_dashboard set_metric_to_objects
           grafana_datasources objects _context_templating].
      rewrite assoc_sset_eq. cbn [default from_option id].
      rewrite vassoc_vset_eq by exact Hrefl.
      split; [reflexivity|]. split; [|repeat split].
      intros metric' Hne. now rewrite !assoc_sset_ne by exact Hne.
  - rewrite Hm, Hh. cbn [negb].
    cbn [metric_to_objects _current_dashboard set_metric_to_objects].
    rewrite assoc_sset_eq, Hh. cbn [negb].
    rewrite vassoc_vset_eq by exact Hrefl.
    eexists. split; [reflexivity|].
    cbn [metric_to_objects _current_dashboard set_metric_to_objects
         grafana_datasources objects _context_templating].
    rewrite assoc_sset_eq. cbn [default from_option id].
    rewrite vassoc_vset_eq by exact Hrefl.
    split; [reflexivity|]. split; [|repeat split].
    intros metric' Hne. now rewrite !assoc_sset_ne by exact Hne.
Qed.

(** [add_to_metric_and_object_list] for a structured target that the
    classifier accepts: the converted target is listed under the metric
    made of the measurement and the first field, once when the index had no
    list for the metric and the dashboard, and twice, after what was there,
    when it had one; the other metrics keep their entries. *)
Theorem index_lists_target_twice (target : dict) (new_target select : value)
    (datasource : value) (measurement field : string) (c : converter)
    (Haccept :
       is_target_influx c target (_context_templating c) datasource = Ok true)
    (Hraw : dget "rawQuery" target <> VBool true)
    (Hmeasurement : assoc "measurement" target = Some (VStr measurement))
    (Hselect : assoc "select" target = Some select)
    (Hfield : get_metric_field_from_select select = Ok (VStr field))
    (Hnonempty : nonempty field = true)
    (Htitle : hashable (_current_dashboard c) = true) :
  let metric :=
    _replace_invalid_metric_characters (measurement +:+ "_" +:+ field) in
  exists c',
    add_to_metric_and_object_list [VDict target] [new_target] datasource c
    = (Ok tt, c')
    /\ entries_under metric (_current_dashboard c) c'
       = match assoc metric (metric_to_objects c) with
         | Some per_dashboard =>
             match vassoc (_current_dashboard c) per_dashboard with
             | Some l => l ++ [new_target; new_target]
             | None => [new_target]
             end
         | None => [new_target]
         end
    /\ forall metric', metric' <> metric ->
         assoc metric' (metric_to_objects c')
         = assoc metric' (metric_to_objects c).
Proof.
  intros metric.
  destruct (index_appends metric new_target c Htitle)
    as (c' & Hrun & Hentries & Hother & _).
  exists c'. split; [|split; assumption].
  unfold add_to_metric_and_object_list.
  cbn [with_new_targets for_each head].
  erewrite bind_returns; [reflexivity|].
  unfold add_target_to_index.
  erewrite bind_returns by reflexivity.
  erewrite bind_returns by reflexivity.
  erewrite bind_returns by (rewrite Haccept; reflexivity).
  cbn [negb].
  assert (match dget "rawQuery" target with
          | VBool true => true
          | _ => false
          end = false) as ->.
  { destruct (dget "rawQuery" target) as [|[|]| | | | |];
      try reflexivity. now destruct Hraw. }
  rewrite Hmeasurement.
  erewrite bind_returns; [exact Hrun|].
  erewrite bind_returns by reflexivity.
  erewrite bind_returns
    by (unfold lift, getitem; rewrite Hselect; reflexivity).
  erewrite bind_returns by (unfold lift; rewrite Hfield; reflexivity).
  cbn [truthy]. rewrite Hnonempty. unfold ret.
  now rewrite append_assoc.
Qed.

Lemma index_lists_target_twice_witness :
  exists c',
    add_to_metric_and_object_list [target_plain] [VStr "converted"]
      (VDict [("type", VStr "influxdb")]) (snd net_run)
    = (Ok tt, c')
    /\ entries_under "m_x" (VStr "Net") c'
       = [VStr "converted"]
    /\ forall metric', metric' <> "m_x" ->
         assoc metric' (metric_to_objects c')
         = assoc metric' (metric_to_objects (snd net_run)).
Proof.
  refine (index_lists_target_twice
            [("refId", VStr "A"); ("measurement", VStr "m");
             ("resultFormat", VStr "time_series");
             ("select", select_mean "x"); ("groupBy", VList [])]
            (VStr "converted") (select_mean "x")
            (VDict [("type", VStr "influxdb")]) "m" "x" (snd net_run)
            _ _ eq_refl eq_refl eq_refl eq_refl _).
  - vm_compute. reflexivity.
  - discriminate.
  - vm_compute. reflexivity.
Defined.

(** ** Series overrides and alerts *)

Lemma dset_keys (k : string) (v v0 : value) (d : dict) :
  assoc k d = Some v0 -> map fst (dset k v d) = map fst d.
Proof.
  induction d as [|[k' v'] d IH]; [discriminate|].
  cbn [assoc dset]. destruct (String.eqb_spec k k') as [->|Hne].
  - reflexivity.
  - intros H. cbn [map fst]. now rewrite IH.
Qed.

Lemma convert_series_override_converted (override override' : value) :
  convert_series_override override = Ok override' ->
  override_converted override override'.
Proof.
  unfold convert_series_override. intros H.
  apply rbind_Ok in H as (d & Hd & H).
  destruct override; try discriminate Hd. injection Hd as ->.
  destruct (truthy (dget "alias" d)) eqn:Halias.
  - destruct (dget "alias" d) as [| | |a| | |] eqn:Ha; try discriminate H.
    injection H as <-. exists d, (dset "alias" (VStr (sub false percentile_re
                                                        (fun _ => "Mean") a)) d).
    repeat split.
    + unfold dget in Ha. destruct (assoc "alias" d) as [v0|] eqn:E;
        [|discriminate Ha].
      exact (dset_keys _ _ _ _ E).
    + intros k Hk. apply assoc_dset_ne. congruence.
    + congruence.
  - injection H as <-. exists d, d. repeat split.
Qed.

(** [convert_series_overrides], when it returns, returns as many overrides
    as it was given, in the same order and each with the same keys; no field
    but [alias] is changed, and an override without an alias, or with an
    empty one, is returned as it is. *)
Theorem convert_series_overrides_keeps (overrides : list value)
    (converted : value) :
  convert_series_overrides (VList overrides) = Ok converted ->
  exists l,
    converted = VList l
    /\ length l = length overrides
    /\ Forall2 override_converted overrides l.
Proof.
  unfold convert_series_overrides. cbn [as_list rbind]. intros H.
  apply rbind_Ok in H as (l & Hl & H). injection H as <-.
  exists l. split; [reflexivity|].
  assert (Forall2 override_converted overrides l) as HF.
  { revert l Hl. induction overrides as [|o overrides IH]; intros l Hl.
    - cbn [rmap] in Hl. injection Hl as <-. constructor.
    - cbn [rmap] in Hl. apply rbind_Ok in Hl as (o' & Ho & Hl).
      apply rbind_Ok in Hl as (l' & Hl' & Hl). injection Hl as <-.
      constructor; [now apply convert_series_override_converted|].
      now apply IH. }
  split; [|exact HF]. symmetry. exact (Forall2_length _ _ _ HF).
Qed.

Lemma convert_series_overrides_keeps_witness :
  exists l,
    VList [VDict [("alias", VStr "Mean"); ("color", VStr "red")];
           VDict [("color", VStr "blue")]]
    = VList l
    /\ length l = 2%nat
    /\ Forall2 override_converted
         [VDict [("alias", VStr "95th percentile"); ("color", VStr "red")];
          VDict [("color", VStr "blue")]] l.
Proof.
  apply (convert_series_overrides_keeps
           [VDict [("alias", VStr "95th percentile"); ("color", VStr "red")];
            VDict [("color", VStr "blue")]]).
  vm_compute. reflexivity.
Defined.

Lemma existsb_false_In {A : Type} (f : A -> bool) (l : list A) (x : A) :
  existsb f l = false -> In x l -> f x = false.
Proof.
  induction l as [|y l IH]; [intros _ []|].
  cbn [existsb]. intros [Hy Hl]%orb_false_iff [->|Hin]; auto.
Qed.

Lemma convert_notification_step (ids : list (Z * value))
    (uids : list (string * value)) (ns ns' : list value) (n : value) :
  convert_notification ids uids ns n = Ok ns' ->
  ns' = ns
  \/ exists uid,
       ns' = ns ++ [VDict [("uid", uid)]] /\ is_none uid = false
       /\ existsb (py_eq (VDict [("uid", uid)])) ns = false.
Proof.
  unfold convert_notification. intros H.
  apply rbind_Ok in H as (d & _ & H).
  apply rbind_Ok in H as (u1 & _ & H).
  apply rbind_Ok in H as (uid & _ & H).
  destruct (is_none uid) eqn:Hnone; [discriminate H|].
  destruct (existsb (py_eq (VDict [("uid", uid)])) ns) eqn:Hin;
    injection H as <-; [now left|].
  right. exists uid. auto.
Qed.

Lemma convert_notifications_invariant (ids : list (Z * value))
    (uids : list (string * value)) (l : list value) (ns ns' : list value) :
  convert_notifications ids uids ns l = Ok ns' ->
  Forall mapped_notification ns -> distinct_notifications ns ->
  (length ns' <= length ns + length l)%nat
  /\ Forall mapped_notification ns' /\ distinct_notifications ns'.
Proof.
  revert ns. induction l as [|n l IH]; intros ns H HF HD;
    cbn [convert_notifications] in H.
  - injection H as <-. cbn [length]. rewrite Nat.add_0_r. auto.
  - apply rbind_Ok in H as (ns1 & Hstep & H).
    apply convert_notification_step in Hstep as [->|(uid & -> & Hnone & Hnew)].
    + destruct (IH ns H HF HD) as (Hlen & HF' & HD').
      cbn [length]. repeat split; [lia | assumption..].
    + destruct (IH _ H) as (Hlen & HF' & HD').
      * apply Forall_app. split; [exact HF|].
        constructor; [|constructor]. exists uid. auto.
      * intros i j a b Hij Ha Hb.
        destruct (decide (j < length ns)%nat) as [Hj|Hj].
        -- rewrite lookup_app_l in Ha, Hb by lia. exact (HD i j a b Hij Ha Hb).
        -- rewrite lookup_app_r in Hb by lia.
           destruct (j - length ns)%nat as [|k] eqn:Hk; [|discriminate Hb].
           injection Hb as <-. rewrite lookup_app_l in Ha by lia.
           apply (existsb_false_In _ _ _ Hnew).
           eapply list_elem_of_In, list_elem_of_lookup_2, Ha.
      * rewrite length_app in Hlen. cbn [length] in *.
        repeat split; [lia | assumption..].
Qed.

(** [convert_alerts].  Without both maps of notifications the alert loses
    its [notifications], and raises [KeyError] when it has none; with both,
    when it returns, the name has the suffix, and the notifications are
    dicts with the one key [uid] and a value that is not [None], no two of
    them equal and no more than the alert had; the converter is left as it
    was. *)
Theorem convert_alerts_notifications (alert : dict) (c : converter) :
  (alert_notifications_map c = None \/ alert_notifications_map c = Some []
   \/ alert_notifications_uid_map c = None
   \/ alert_notifications_uid_map c = Some [] ->
   convert_alerts alert c
   = match assoc "notifications" alert with
     | Some _ => (Ok (ddel "notifications" alert), c)
     | None => (Raise (KeyError "notifications"), c)
     end)
  /\ (forall alert' c' l,
        assoc "notifications" alert = Some (VList l) ->
        convert_alerts alert c = (Ok alert', c') ->
        (exists ids uids, alert_notifications_map c = Some ids
                          /\ alert_notifications_uid_map c = Some uids
                          /\ ids <> [] /\ uids <> []) ->
        c' = c
        /\ (exists name,
              assoc "name" alert = Some name
              /\ assoc "name" alert' = Some (VStr (py_str name +:+ " (M3)")))
        /\ exists ns,
             assoc "notifications" alert' = Some (VList ns)
             /\ (length ns <= length l)%nat
             /\ Forall mapped_notification ns
             /\ distinct_notifications ns).
Proof.
  split.
  - intros Hmaps. unfold convert_alerts, bind, get, lift, getitem, ret.
    destruct (alert_notifications_map c) as [[|i ids]|],
             (alert_notifications_uid_map c) as [[|u uids]|];
      try (destruct (assoc "notifications" alert); reflexivity).
    destruct Hmaps as [H|[H|[H|H]]]; discriminate H.
  - intros alert' c' l Hl H (ids & uids & Hids & Huids & Hi & Hu).
    unfold convert_alerts in H.
    erewrite bind_returns in H by reflexivity.
    erewrite bind_returns in H by reflexivity.
    rewrite Hids, Huids in H.
    destruct ids as [|i ids]; [congruence|].
    destruct uids as [|u uids]; [congruence|].
    inv_bind H. apply lift_Ok in H0 as [Hname ->].
    apply getitem_Ok in Hname.
    erewrite bind_returns in H
      by (unfold lift, getitem; rewrite assoc_dset_ne by discriminate;
          rewrite Hl; reflexivity).
    inv_bind H. apply lift_Ok in H0 as [Hns ->].
    unfold ret in H. injection H as <- <-.
    split; [reflexivity|]. split.
    + exists a. split; [exact Hname|].
      rewrite assoc_dset_ne by discriminate. apply assoc_dset_eq.
    + exists a0. split; [apply assoc_dset_eq|].
      destruct (convert_notifications_invariant _ _ _ _ _ Hns)
        as (Hlen & HF & HD).
      * constructor.
      * intros i0 j a1 b _ Hlookup. discriminate Hlookup.
      * auto.
Qed.

Lemma convert_alerts_notifications_witness :
  exists ns,
    assoc "notifications"
      (dset "notifications"
         (VList [VDict [("uid", VStr "uid-seven")];
                 VDict [("uid", VStr "uid-slack")]])
         (dset "name" (VStr "high (M3)") alert_example))
    = Some (VList ns)
    /\ (length ns <= 3)%nat
    /\ Forall mapped_notification ns
    /\ distinct_notifications ns.
Proof.
  destruct (convert_alerts_notifications alert_example
              converter_with_notifications) as [_ H].
  refine (proj2 (proj2 (H _ converter_with_notifications _ eq_refl _ _))).
  - vm_compute. reflexivity.
  - exists [(7, VStr "uid-seven")], [("slack", VStr "uid-slack")].
    repeat split; discriminate.
Defined.

(** ** The keys of a panel *)

Lemma assoc_ddel_ne (k k' : string) (d : dict) :
  k <> k' -> assoc k (ddel k' d) = assoc k d.
Proof.
  intros Hne. induction d as [|[k0 v0] d IH]; [reflexivity|].
  rewrite ddel_cons. cbn [assoc].
  destruct (String.eqb_spec k' k0) as [->|H0].
  - destruct (String.eqb_spec k k0); [contradiction | exact IH].
  - cbn [assoc]. destruct (String.eqb_spec k k0); [reflexivity | exact IH].
Qed.

Section PanelKeys.

Variable k : string.
Variable p0 : dict.

Local Abbreviation same_at := (same_value_at k p0).

Lemma same_after_pbind {A B : Type} (m : P A) (f : A -> P B) (p : dict)
    (c : converter) :
  same_at (panel_after m p c) ->
  (forall a p1 c1, m p c = (Ok a, p1, c1) ->
                   same_at (panel_after (f a) p1 c1)) ->
  same_at (panel_after (pbind m f) p c).
Proof.
  unfold panel_after, pbind. intros Hm Hf.
  destruct (m p c) as [[[a|e] p1] c1]; cbn [fst snd] in *.
  - now apply Hf.
  - exact Hm.
Qed.

Lemma panel_after_of_M {A : Type} (m : M A) (p : dict) (c : converter) :
  panel_after (of_M m) p c = p.
Proof. unfold panel_after, of_M. now destruct (m c). Qed.

Lemma panel_get_run {A : Type} (f : dict -> A) (p p1 : dict)
    (c c1 : converter) (a : A) :
  panel_get f p c = (Ok a, p1, c1) -> a = f p /\ p1 = p.
Proof. unfold panel_get. intros [= <- <- _]. auto. Qed.

Lemma panel_set_run (key : string) (v : value) (p p1 : dict)
    (c c1 : converter) (r : result unit) :
  panel_set key v p c = (r, p1, c1) -> p1 = dset key v p.
Proof. unfold panel_set. intros [= _ <- _]. reflexivity. Qed.

Lemma of_M_run {A : Type} (m : M A) (p p1 : dict) (c c1 : converter)
    (r : result A) :
  of_M m p c = (r, p1, c1) -> p1 = p.
Proof. unfold of_M. destruct (m c). congruence. Qed.

Lemma same_after_set (key : string) (v : value) (p : dict) (c : converter) :
  key <> k -> same_at p -> same_at (panel_after (panel_set key v) p c).
Proof.
  intros Hne H. unfold same_value_at, panel_after, panel_set. cbn [fst snd].
  now rewrite assoc_dset_ne.
Qed.

Lemma same_after_pop (key : string) (p : dict) (c : converter) :
  key <> k -> same_at p -> same_at (panel_after (panel_pop key) p c).
Proof.
  intros Hne H. unfold same_value_at, panel_after, panel_pop. cbn [fst snd].
  rewrite assoc_ddel_ne by congruence. exact H.
Qed.

(** Splits a sequence of steps: what the first step leaves, and the rest
    after the first step returned. *)
Ltac step :=
  apply same_after_pbind;
  [ first [ rewrite panel_after_of_M; assumption
          | apply same_after_set; [congruence | assumption]
          | apply same_after_pop; [congruence | assumption]
          | assumption
          | idtac ]
  | ].

Hypothesis Hinterval :
  k = "interval" -> truthy (dget "interval" p0) = true.

Lemma same_after_targets (datasource : value) (p : dict) (c : converter) :
  k <> "targets" -> k <> "nullPointMode" ->
  same_at p ->
  same_at (panel_after (convert_panel_targets datasource) p c).
Proof.
  intros Ht Hn Hp. unfold convert_panel_targets.
  step. intros old q1 c1 Hrun. apply panel_get_run in Hrun as [_ ->].
  step. intros old_targets q2 c2 Hrun. apply of_M_run in Hrun as ->.
  step. intros [[targets over_times_list] fills_list] q3 c3 Hrun.
  apply of_M_run in Hrun as ->.
  step. intros [] q4 c4 Hrun. apply of_M_run in Hrun as ->.
  assert (same_at (dset "targets" (VList targets) p)) as Hp1
    by (unfold same_value_at; now rewrite assoc_dset_ne by congruence).
  step. intros [] q5 c5 Hrun. apply panel_set_run in Hrun as ->.
  step. intros over_times q6 c6 Hrun. apply of_M_run in Hrun as ->.
  step. intros interval q7 c7 Hrun. apply panel_get_run in Hrun as [-> ->].
  apply same_after_pbind.
  - destruct (_ && _ && _) eqn:Hguard; [|exact Hp1].
    apply andb_true_iff in Hguard as [[_ Hfalsy]%andb_true_iff _].
    apply same_after_pbind; [now rewrite panel_after_of_M|].
    intros s r1 d1 Hrun. apply of_M_run in Hrun as ->.
    destruct (negb (s =? SCRAPE_INTERVAL_SECONDS)); [|exact Hp1].
    apply same_after_set; [|exact Hp1].
    intros <-. apply negb_true_iff in Hfalsy.
    unfold same_value_at, dget in *. rewrite Hp1 in Hfalsy.
    rewrite (Hinterval eq_refl) in Hfalsy. discriminate Hfalsy.
  - intros [] p2 d2 Hrun.
    assert (same_at p2) as Hp2.
    { destruct (_ && _ && _) eqn:Hguard.
      - apply andb_true_iff in Hguard as [[_ Hfalsy]%andb_true_iff _].
        unfold pbind in Hrun.
        destruct (of_M _ _ c7) as [[[s|e] p3] c8] eqn:Hs; [|discriminate Hrun].
        apply of_M_run in Hs as ->.
        destruct (negb (s =? SCRAPE_INTERVAL_SECONDS)).
        + injection Hrun as <- _. unfold same_value_at.
          rewrite assoc_dset_ne; [exact Hp1|].
          intros <-. apply negb_true_iff in Hfalsy.
          unfold same_value_at, dget in *. rewrite Hp1 in Hfalsy.
          rewrite (Hinterval eq_refl) in Hfalsy. discriminate Hfalsy.
        + injection Hrun as <- _. exact Hp1.
      - injection Hrun as <- _. exact Hp1. }
    apply same_after_pbind.
    + destruct (mem "0" _); [|exact Hp2].
      apply same_after_pbind;
        [apply same_after_set; [congruence | exact Hp2]|].
      intros [] p3 c9 Hrun3. apply panel_set_run in Hrun3 as ->.
      unfold same_value_at, panel_after, pret. cbn [fst snd].
      now rewrite assoc_dset_ne by congruence.
    + intros fills_ p3 c9 Hrun3.
      assert (same_at p3) as Hp3.
      { destruct (mem "0" _).
        - unfold pbind, panel_set, pret in Hrun3. injection Hrun3 as _ <- _.
          unfold same_value_at. now rewrite assoc_dset_ne by congruence.
        - injection Hrun3 as _ <- _. exact Hp2. }
      destruct fills_; [exact Hp3 | now rewrite panel_after_of_M].
Qed.

Lemma same_after_alert (p : dict) (c : converter) :
  k <> "alert" -> same_at p -> same_at (panel_after convert_panel_alert p c).
Proof.
  intros Ha Hp. unfold convert_panel_alert.
  step. intros alert q1 c1 Hrun. apply panel_get_run in Hrun as [-> ->].
  destruct (assoc "alert" p) as [alert|]; [|exact Hp].
  step. intros title q2 c2 Hrun. apply panel_get_run in Hrun as [_ ->].
  step. intros t q3 c3 Hrun. apply of_M_run in Hrun as ->.
  step. intros a q4 c4 Hrun. apply of_M_run in Hrun as ->.
  step. intros a' q5 c5 Hrun. apply of_M_run in Hrun as ->.
  apply same_after_set; [congruence | exact Hp].
Qed.

Lemma same_after_try (datasource : value) (p : dict) (c : converter) :
  k <> "targets" -> k <> "nullPointMode" -> k <> "alert" ->
  same_at p ->
  same_at (panel_after
             (try_except_ValueError (convert_panel_try datasource)
                convert_panel_except) p c).
Proof.
  intros Ht Hn Ha Hp.
  assert (same_at (panel_after (convert_panel_try datasource) p c)) as Htry.
  { unfold convert_panel_try.
    step. intros has q1 c1 Hrun. apply panel_get_run in Hrun as [_ ->].
    apply same_after_pbind.
    - destruct has; [now apply same_after_targets | exact Hp].
    - intros [] q2 c2 Hrun. apply same_after_alert; [exact Ha|].
      destruct has.
      + pose proof (same_after_targets datasource p c1 Ht Hn Hp) as H.
        unfold panel_after in H. now rewrite Hrun in H.
      + injection Hrun as <- _. exact Hp. }
  unfold panel_after, try_except_ValueError in *.
  destruct (convert_panel_try datasource p c) as [[[[]|ex] p1] c1];
    cbn [fst snd] in *; [exact Htry|].
  destruct (is_ValueError ex); [|exact Htry].
  change (same_at (panel_after (convert_panel_except ex) p1 c1)).
  unfold convert_panel_except.
  step. intros [] q1 d1 Hrun. injection Hrun as <- _.
  assert (same_at (ddel "targets" p1)) as H1
    by (unfold same_value_at; now rewrite assoc_ddel_ne by congruence).
  step. intros [] q2 d2 Hrun. injection Hrun as <- _.
  rewrite panel_after_of_M. unfold same_value_at.
  now rewrite assoc_ddel_ne by congruence.
Qed.

Lemma same_after_overrides (p : dict) (c : converter) :
  k <> "seriesOverrides" ->
  same_at p -> same_at (panel_after convert_panel_overrides p c).
Proof.
  intros Hs Hp. unfold convert_panel_overrides.
  step. intros overrides q1 c1 Hrun. apply panel_get_run in Hrun as [-> ->].
  destruct (truthy (dget "seriesOverrides" p)); [|exact Hp].
  step. intros o q2 c2 Hrun. apply of_M_run in Hrun as ->.
  apply same_after_set; [congruence | exact Hp].
Qed.

Lemma same_after_datasource (p : dict) (c : converter) :
  k <> "datasource" ->
  same_at p -> same_at (panel_after convert_panel_datasource p c).
Proof.
  intros Hd Hp. unfold convert_panel_datasource.
  step. intros replacement q1 c1 Hrun. apply of_M_run in Hrun as ->.
  step. intros map_ q2 c2 Hrun. apply of_M_run in Hrun as ->.
  destruct (truthy replacement).
  - step. intros has q3 c3 Hrun. apply panel_get_run in Hrun as [_ ->].
    apply same_after_pbind.
    + destruct has; [apply same_after_set; [congruence | exact Hp] | exact Hp].
    + intros [] q4 c4 Hrun. unfold panel_after, pret. cbn [fst snd].
      destruct has.
      * apply panel_set_run in Hrun as ->. unfold same_value_at.
        now rewrite assoc_dset_ne by congruence.
      * injection Hrun as <- _. exact Hp.
  - destruct map_ as [[|kv map']|]; try exact Hp.
    step. intros datasource q3 c3 Hrun. apply panel_get_run in Hrun as [_ ->].
    apply same_after_pbind.
    + destruct (truthy datasource); [|exact Hp].
      destruct datasource; try exact Hp;
        (apply same_after_pbind; [now rewrite panel_after_of_M|];
         intros known q4 c4 Hrun; apply of_M_run in Hrun as ->; exact Hp).
    + intros skip q4 c4 Hrun.
      assert (q4 = p) as ->.
      { destruct (truthy datasource); [|now injection Hrun as _ <- _].
        destruct datasource; try (now injection Hrun as _ <- _);
          unfold pbind in Hrun;
          match type of Hrun with
          | context [of_M ?m ?q ?d] =>
              destruct (of_M m q d) as [[[x|e] q5] c5] eqn:E;
              [apply of_M_run in E as ->; now injection Hrun as _ <- _
              | discriminate Hrun]
          end. }
      destruct skip; [exact Hp|].
      step. intros known q5 c5 Hrun5. apply of_M_run in Hrun5 as ->.
      destruct (vassoc datasource (kv :: map')).
      * step. intros [] q6 c6 Hrun6. apply panel_set_run in Hrun6 as ->.
        unfold panel_after, pret, same_value_at. cbn [fst snd].
        now rewrite assoc_dset_ne by congruence.
      * now rewrite panel_after_of_M.
Qed.

Lemma same_after_body (datasource : value) (p : dict) (c : converter) :
  k <> "targets" -> k <> "nullPointMode" -> k <> "alert" ->
  k <> "seriesOverrides" ->
  same_at p ->
  same_at (panel_after
             (pbind (try_except_ValueError (convert_panel_try datasource)
                       convert_panel_except)
                (fun _ => convert_panel_overrides)) p c).
Proof.
  intros Ht Hn Ha Hs Hp.
  pose proof (same_after_try datasource p c Ht Hn Ha Hp) as Htry.
  apply same_after_pbind; [exact Htry|].
  intros [] q1 c1 Hrun. apply same_after_overrides; [exact Hs|].
  unfold panel_after in Htry. now rewrite Hrun in Htry.
Qed.

Lemma same_after_plain (p : dict) (c : converter) :
  k <> "targets" -> k <> "nullPointMode" -> k <> "alert" ->
  k <> "seriesOverrides" -> k <> "datasource" ->
  same_at p -> same_at (panel_after convert_plain_panel p c).
Proof.
  intros Ht Hn Ha Hs Hd Hp. unfold convert_plain_panel.
  step. intros old q1 c1 Hrun. apply panel_get_run in Hrun as [_ ->].
  pose proof (same_after_datasource p c1 Hd Hp) as Hds.
  apply same_after_pbind; [exact Hds|].
  intros next q2 c2 Hrun. unfold panel_after in Hds. rewrite Hrun in Hds.
  destruct next; [now apply same_after_body | exact Hds].
Qed.

End PanelKeys.

(** [convert_panel_datasource] with a replacement datasource. *)
Lemma convert_panel_datasource_replaces (p : dict) (c : converter) :
  truthy (replacement_datasource c) = true ->
  convert_panel_datasource p c
  = (Ok Continue,
     if dhas "datasource" p
     then dset "datasource" (replacement_datasource c) p else p,
     c).
Proof.
  intros Hr. unfold convert_panel_datasource, pbind, of_M, get, panel_get.
  rewrite Hr. now destruct (dhas "datasource" p).
Qed.

Lemma plain_after_datasource (p p1 : dict) (c c1 : converter) :
  convert_panel_datasource p c = (Ok Continue, p1, c1) ->
  panel_after convert_plain_panel p c
  = panel_after
      (pbind (try_except_ValueError
                (convert_panel_try (old_panel_datasource_of p))
                convert_panel_except)
         (fun _ => convert_panel_overrides)) p1 c1.
Proof.
  intros H. unfold panel_after, convert_plain_panel.
  unfold pbind at 1, panel_get. unfold pbind at 1. now rewrite H.
Qed.

(** [convert_panel] for a panel that is no row, when it returns: every key
    it does not write has the value it had; an interval that the panel sets
    itself is kept; and with a replacement datasource the panel names it
    exactly when it named a datasource before. *)
Theorem convert_panel_keeps_keys (depth : nat) (panel p' : dict)
    (id type : value) (c c' : converter)
    (Hid : assoc "id" panel = Some id)
    (Htype : assoc "type" panel = Some type)
    (Hrow : is_str "row" type = false)
    (Hrun : convert_panel (S depth) (VDict panel) c = (Ok (VDict p'), c')) :
  (forall k, ~ In k PANEL_KEYS_WRITTEN -> assoc k p' = assoc k panel)
  /\ (truthy (dget "interval" panel) = true ->
      assoc "interval" p' = assoc "interval" panel)
  /\ (truthy (replacement_datasource c) = true ->
      assoc "datasource" p'
      = if dhas "datasource" panel then Some (replacement_datasource c)
        else None).
Proof.
  rewrite (convert_panel_plain depth panel id type c Hid Htype Hrow) in Hrun.
  set (c0 := set_ctx_panel (Some (panel_context panel id)) c) in *.
  assert (p' = panel_after convert_plain_panel panel c0) as ->.
  { unfold panel_after.
    destruct (convert_plain_panel panel c0) as [[[[]|e] p1] c1];
      cbn [fst snd]; congruence. }
  split; [|split].
  - intros k Hk. unfold PANEL_KEYS_WRITTEN in Hk. cbn [In] in Hk.
    apply (same_after_plain k panel); try (intros ->; tauto).
    reflexivity.
  - intros Hinterval.
    apply (same_after_plain "interval" panel); try discriminate;
      [intros _; exact Hinterval | reflexivity].
  - intros Hr.
    assert (truthy (replacement_datasource c0) = true) as Hr0 by exact Hr.
    rewrite (plain_after_datasource panel _ c0 c0
               (convert_panel_datasource_replaces panel c0 Hr0)).
    set (p1 := if dhas "datasource" panel
               then dset "datasource" (replacement_datasource c0) panel
               else panel).
    assert (same_value_at "datasource" p1
              (panel_after
                 (pbind (try_except_ValueError
                           (convert_panel_try (old_panel_datasource_of panel))
                           convert_panel_except)
                    (fun _ => convert_panel_overrides)) p1 c0)) as H.
    { apply same_after_body; try discriminate. reflexivity. }
    unfold same_value_at in H. rewrite H. subst p1.
    change (replacement_datasource c0) with (replacement_datasource c).
    unfold dhas. destruct (assoc "datasource" panel) eqn:E;
      [apply assoc_dset_eq | exact E].
Qed.

Lemma convert_panel_keeps_keys_witness :
  assoc "gridPos" (converted_panel panel_with_interval converter_in_dashboard)
  = Some (VDict [("h", VInt 8); ("w", VInt 12)])
  /\ assoc "interval"
       (converted_panel panel_with_interval converter_in_dashboard)
     = Some (VStr "10s")
  /\ assoc "datasource"
       (converted_panel panel_with_interval converter_in_dashboard)
     = Some (VDict [("uid", VStr "m3"); ("type", VStr "prometheus")]).
Proof.
  destruct (convert_panel_keeps_keys 0 panel_with_interval
              (converted_panel panel_with_interval converter_in_dashboard)
              (VInt 3) (VStr "graph") converter_in_dashboard
              (snd (convert_panel 1 (VDict panel_with_interval)
                      converter_in_dashboard))
              eq_refl eq_refl eq_refl)
    as (Hkeys & Hinterval & Hdatasource).
  - vm_compute. reflexivity.
  - split; [|split].
    + rewrite Hkeys; [reflexivity|].
      unfold PANEL_KEYS_WRITTEN. cbn [In].
      intros [H|[H|[H|[H|[H|[H|[]]]]]]]; discriminate H.
    + rewrite Hinterval; reflexivity.
    + rewrite Hdatasource; reflexivity.
Defined.

(** ** Splitting at a character *)

Lemma rev_string_acc_eq (s acc : string) :
  rev_string_acc s acc = rev_string s +:+ acc.
Proof.
  revert acc. induction s as [|c s IH]; intros acc; [reflexivity|].
  cbn [rev_string_acc]. unfold rev_string. cbn [rev_string_acc].
  rewrite IH, (IH (String c EmptyString)), append_assoc. reflexivity.
Qed.

Lemma contains_char_cons (c x : ascii) (s : string) :
  contains (String c EmptyString) (String x s) = false ->
  Ascii.eqb c x = false /\ contains (String c EmptyString) s = false.
Proof.
  cbn [contains startswith]. rewrite andb_true_r.
  intros H. now apply orb_false_iff in H.
Qed.

Lemma split_char_step (c x : ascii) (cur s : string) :
  split_go (String c EmptyString) 0 cur (String x s)
  = if Ascii.eqb c x
    then rev_string cur :: split_go (String c EmptyString) 0 EmptyString s
    else split_go (String c EmptyString) 0 (String x cur) s.
Proof.
  cbn [split_go startswith String.length Nat.sub]. rewrite andb_true_r.
  reflexivity.
Qed.

Lemma split_char_none (c : ascii) (cur t : string) :
  contains (String c EmptyString) t = false ->
  split_go (String c EmptyString) 0 cur t = [rev_string_acc cur t].
Proof.
  revert cur. induction t as [|x t IH]; intros cur H; [reflexivity|].
  apply contains_char_cons in H as [Hx Ht].
  rewrite split_char_step, Hx. now rewrite IH.
Qed.

Lemma split_char_app (c : ascii) (cur a y : string) :
  split_go (String c EmptyString) 0 cur (a +:+ String c y)
  = split_go (String c EmptyString) 0 cur a
    ++ split_go (String c EmptyString) 0 EmptyString y.
Proof.
  revert cur. induction a as [|x a IH]; intros cur.
  - cbn [String.append]. rewrite split_char_step, Ascii.eqb_refl. reflexivity.
  - change (String x a +:+ String c y) with (String x (a +:+ String c y)).
    rewrite !split_char_step. destruct (Ascii.eqb c x).
    + now rewrite IH.
    + apply IH.
Qed.

Lemma split_go_nonempty (sep : string) (skip : nat) (cur s : string) :
  split_go sep skip cur s <> [].
Proof.
  revert skip cur. induction s as [|x s IH]; intros skip cur;
    cbn [split_go]; [discriminate|].
  destruct skip; [|apply IH].
  destruct (startswith sep (String x s)); [discriminate | apply IH].
Qed.

Lemma join_cons (sep x : string) (l : list string) :
  l <> [] -> join sep (x :: l) = x +:+ sep +:+ join sep l.
Proof. destruct l; [congruence | reflexivity]. Qed.

Lemma join_split_char (c : ascii) (cur a : string) :
  join (String c EmptyString) (split_go (String c EmptyString) 0 cur a)
  = rev_string_acc cur a.
Proof.
  revert cur. induction a as [|x a IH]; intros cur; [reflexivity|].
  rewrite split_char_step. destruct (Ascii.eqb_spec c x) as [<-|Hne].
  - rewrite join_cons by apply split_go_nonempty.
    rewrite IH. cbn [rev_string_acc].
    rewrite (rev_string_acc_eq cur). reflexivity.
  - rewrite IH. reflexivity.
Qed.

(** Splitting at a character and joining with it give the string back, and
    splitting a join of pieces without the character gives the pieces. *)
Lemma split_join_char (c : ascii) (l : list string) :
  l <> [] ->
  Forall (fun x => contains (String c EmptyString) x = false) l ->
  split (String c EmptyString) (join (String c EmptyString) l) = l.
Proof.
  intros Hne HF. induction HF as [|x l Hx HF IH]; [congruence|].
  destruct l as [|y l].
  - unfold split. cbn [join]. now rewrite split_char_none.
  - rewrite join_cons by discriminate. unfold split.
    change (x +:+ String c EmptyString +:+ join (String c EmptyString) (y :: l))
      with (x +:+ String c (join (String c EmptyString) (y :: l))).
    rewrite split_char_app, split_char_none by exact Hx.
    cbn [rev_string_acc app]. f_equal. apply IH. discriminate.
Qed.

Lemma rsplit1_last_piece (c : ascii) (a t : string) :
  contains (String c EmptyString) t = false ->
  rsplit1 (String c EmptyString) (a +:+ String c t) = [a; t].
Proof.
  intros Ht. unfold rsplit1, split.
  rewrite split_char_app, (split_char_none c EmptyString t Ht).
  cbn [rev_string_acc]. rewrite rev_app_distr. cbn [rev app].
  pose proof (join_split_char c EmptyString a) as Hjoin.
  cbn [rev_string_acc] in Hjoin.
  destruct (rev (split_go (String c EmptyString) 0 EmptyString a))
    as [|b before] eqn:E.
  - apply (f_equal (@rev string)) in E. rewrite rev_involutive in E.
    now apply split_go_nonempty in E.
  - rewrite <- E, rev_involutive, Hjoin. reflexivity.
Qed.

Lemma rsplit1_no_separator (c : ascii) (s : string) :
  contains (String c EmptyString) s = false ->
  rsplit1 (String c EmptyString) s = [s].
Proof.
  intros H. unfold rsplit1, split. now rewrite split_char_none.
Qed.

Lemma append_cons_neq (s r : string) (c : ascii) : s +:+ String c r <> s.
Proof.
  induction s as [|a s IH]; cbn [String.append]; [discriminate|].
  intros [= H]. exact (IH H).
Qed.

(** The test of [_update_label_values_metric] accepts an index key for a
    measurement when the key is the measurement followed by one more
    segment; a key with two or more segments after the measurement is
    refused, and so is a key without an underscore. *)
Theorem label_metric_matches_last_segment (measurement : string) :
  (forall t,
     contains "_" t = false ->
     label_metric_matches measurement (measurement +:+ "_" +:+ t) = true)
  /\ (forall u t,
        contains "_" t = false ->
        label_metric_matches measurement
          (measurement +:+ "_" +:+ u +:+ "_" +:+ t)
        = false)
  /\ (forall metric,
        contains "_" metric = false ->
        label_metric_matches measurement metric = false).
Proof.
  split; [|split].
  - intros t Ht. unfold label_metric_matches.
    change (measurement +:+ "_" +:+ t) with (measurement +:+ String "_" t).
    rewrite (rsplit1_last_piece "_" measurement t Ht).
    now rewrite String.eqb_refl.
  - intros u t Ht. unfold label_metric_matches.
    assert (measurement +:+ "_" +:+ u +:+ "_" +:+ t
            = (measurement +:+ String "_" u) +:+ String "_" t) as E
      by (rewrite !append_assoc; reflexivity).
    rewrite E at 1.
    rewrite (rsplit1_last_piece "_" (measurement +:+ String "_" u) t Ht).
    apply orb_false_iff. split; apply String.eqb_neq.
    + apply append_cons_neq.
    + change (measurement +:+ "_" +:+ u +:+ "_" +:+ t)
        with (measurement +:+ String "_" (u +:+ "_" +:+ t)).
      apply append_cons_neq.
  - intros metric H. unfold label_metric_matches.
    now rewrite (rsplit1_no_separator "_" metric H).
Qed.

(** The theorem at the measurement [net]: the key [net_recv] is accepted
    and the key [net_bytes_recv] is refused. *)
Lemma label_metric_matches_last_segment_witness :
  label_metric_matches "net" "net_recv" = true
  /\ label_metric_matches "net" "net_bytes_recv" = false.
Proof.
  split.
  - apply (proj1 (label_metric_matches_last_segment "net") "recv").
    reflexivity.
  - apply (proj1 (proj2 (label_metric_matches_last_segment "net"))
             "bytes" "recv").
    reflexivity.
Defined.

(** ** The default legend *)

Lemma legend_if_nonempty (legend : string) :
  (if nonempty legend then _replace_invalid_metric_characters legend
   else legend)
  = _replace_invalid_metric_characters legend.
Proof. destruct legend; reflexivity. Qed.

(** The legend of a target without an alias comes from the query converted
    before it: [convert_targets] reads the legend before it converts the
    target's own query, so a target that is converted when the labels of the
    last group-by are [labels] gets the legend built from [labels], whatever
    its own query groups by. *)
Theorem default_legend_from_earlier_query (target : dict)
    (old_panel_datasource : value) (c c' : converter) (labels : list string)
    (new_targets : list value) (over_times fills_ : list string) :
  default (VStr EmptyString) (assoc "alias" target) = VStr EmptyString ->
  group_by_labels c = Some labels ->
  labels <> [] ->
  contains "$col" (labels_legend labels) = false ->
  is_target_influx c target (_context_templating c) old_panel_datasource
  = Ok true ->
  convert_targets [VDict target] old_panel_datasource c
  = (Ok (new_targets, over_times, fills_), c') ->
  exists d,
    new_targets = [VDict d]
    /\ assoc "legendFormat" d = Some (VStr (labels_legend labels)).
Proof.
  intros Halias Hlabels Hne Hcol Hinflux H.
  unfold convert_targets in H. cbn [for_each] in H.
  apply bind_Ok in H as (acc & c9 & Hbody & H). injection H as -> ->.
  unfold convert_target in Hbody.
  apply bind_Ok in Hbody as (td & c2 & Hd & Hbody).
  apply lift_Ok in Hd as [[= <-] ->].
  apply bind_Ok in Hbody as (templating & c3 & Ht & Hbody).
  injection Ht as <- <-.
  apply bind_Ok in Hbody as (influx & c4 & Hi & Hbody).
  rewrite Hinflux in Hi. injection Hi as <- <-.
  apply bind_Ok in Hbody as (legend & c5 & Hlegend & Hbody).
  assert (legend
          = join " " (map (fun label => "{{" +:+ label +:+ "}}") labels)
          /\ c5 = c) as [-> ->].
  { unfold get_legend_format in Hlegend. rewrite Halias in Hlegend.
    change (sub false percentile_re (fun _ => "Mean")
              (sub false legend_tag_re
                 (fun m => "{{ " +:+ group_text 2 m +:+ " }}") EmptyString))
      with EmptyString in Hlegend.
    apply bind_Ok in Hlegend as (ls & c6 & Hget & Hlegend).
    injection Hget as <- <-. rewrite Hlabels in Hlegend.
    destruct labels as [|label labels']; [congruence|].
    injection Hlegend as <- <-. split; reflexivity. }
  clear Hlegend. rewrite legend_if_nonempty in Hbody.
  fold (labels_legend labels) in Hbody.
  apply bind_Ok in Hbody as ([[new_target ots] fs] & c6 & Hconv & Hbody).
  assert (exists q c7, convert_query q target (labels_legend labels) c7
                       = (Ok (new_target, ots, fs), c6)) as (q & c7 & Hq).
  { destruct (truthy (dget "rawQuery" target)).
    - apply bind_Ok in Hconv as (q1 & c7 & _ & Hconv).
      apply bind_Ok in Hconv as (q2 & c8 & _ & Hconv). eauto.
    - apply bind_Ok in Hconv as (q1 & c7 & _ & Hconv). eauto. }
  clear Hconv.
  assert (exists d, new_target = VDict d
                    /\ assoc "legendFormat" d
                       = Some (VStr (labels_legend labels))) as (d & -> & Hd).
  { unfold convert_query in Hq.
    destruct q as [q|]; [|discriminate Hq].
    destruct (contains "<>" q); [discriminate Hq|].
    destruct (contains "(*)" q); [discriminate Hq|].
    apply bind_Ok in Hq as ([[[expr ots'] fs'] alias_name] & c8 & _ & Hq).
    apply bind_Ok in Hq as (fmt & c10 & _ & Hq).
    apply bind_Ok in Hq as (legend & c11 & Hl & Hq).
    rewrite Hcol in Hl. injection Hl as <- <-.
    apply bind_Ok in Hq as (ref_id & c12 & _ & Hq).
    injection Hq as <- <- <- <-.
    eexists. split; [reflexivity|].
    destruct (assoc "hide" target); reflexivity. }
  cbn [py_eq] in Hbody. injection Hbody as <- <- <- <-.
  exists d. split; [reflexivity | exact Hd].
Qed.

(** The theorem on two targets of one panel: the second groups by
    [region], and its legend names [host], the label of the first. *)
Lemma default_legend_from_earlier_query_witness :
  exists d,
    fst (convert_targets [VDict (grouped_target "B" "region")] VNone
           (snd (convert_targets [VDict (grouped_target "A" "host")] VNone
                   converter0)))
    = Ok ([VDict d], ["30s"; "1m"], [])
    /\ assoc "legendFormat" d = Some (VStr "{{host}}").
Proof.
  pose (c1 := snd (convert_targets [VDict (grouped_target "A" "host")] VNone
                     converter0)).
  pose (r := convert_targets [VDict (grouped_target "B" "region")] VNone c1).
  destruct (default_legend_from_earlier_query
              (grouped_target "B" "region")
              VNone c1 (snd r) ["host"]
              (match fst r with Ok (t, _, _) => t | Raise _ => [] end)
              (match fst r with Ok (_, o, _) => o | Raise _ => [] end)
              (match fst r with Ok (_, _, f) => f | Raise _ => [] end))
    as (d & Hd & Hl);
    [reflexivity | vm_compute; reflexivity | discriminate | reflexivity
    | vm_compute; reflexivity | vm_compute; reflexivity |].
  exists d. split; [|exact Hl].
  transitivity
    (Ok (match fst r with Ok (t, _, _) => t | Raise _ => [] end, ["30s"; "1m"],
         @nil string));
    [vm_compute; reflexivity | now rewrite Hd].
Defined.

(** ** Subqueries *)

Lemma convert_subquery_raises (query : string) (c : converter) :
  exists e c', convert_subquery query c = (Raise e, c').
Proof.
  unfold convert_subquery.
  destruct (rmatch_at_start true subquery_re query) as [m|];
    [|unfold raise; eauto].
  unfold bind, raise.
  destruct (convert_expression _ c) as [[r|e] c1]; eauto.
Qed.

(** No query with a subquery is converted: [convert_subquery] raises for
    every query, since it unpacks three values from the four that
    [convert_expression] returns, and so [convert_query] raises for every
    query text in which [from (] occurs in any case; when the pattern of
    [convert_subquery] does not match the query, the exception is the
    [ValueError] for an unsupported subquery and the converter is as
    before. *)
Theorem subquery_never_converts (query : string) (target : dict)
    (legend : string) (c : converter) :
  contains "from (" (lower query) = true ->
  (exists e c', convert_query (QueryText query) target legend c
                = (Raise e, c'))
  /\ (contains "<>" query = false -> contains "(*)" query = false ->
      rmatch_at_start true subquery_re query = None ->
      convert_query (QueryText query) target legend c
      = (Raise (ValueError (UnsupportedSubquery query)), c)).
Proof.
  intros Hfrom. unfold convert_query. rewrite Hfrom. split.
  - destruct (contains "<>" query); [unfold raise; eauto|].
    destruct (contains "(*)" query); [unfold raise; eauto|].
    destruct (convert_subquery_raises query c) as (e & c' & He).
    unfold bind. rewrite He. eauto.
  - intros -> -> Hm. unfold bind, convert_subquery. now rewrite Hm.
Qed.

(** The theorem at a downsampling query: the inner query converts, and the
    unpacking raises. *)
Lemma subquery_never_converts_witness :
  fst (convert_query (QueryText downsampling_query) table_target EmptyString
         converter0)
  = Raise (ValueError (WrongNumberOfValuesToUnpack 3 4)).
Proof.
  destruct (subquery_never_converts downsampling_query table_target
              EmptyString converter0) as [(e & c' & He) _];
    [vm_compute; reflexivity|].
  vm_compute. reflexivity.
Defined.

(** ** Structured targets: the order of the items of a select *)

(** The items of a select are handled in the order of their lower-cased
    types, so a function whose name sorts before [field] is rendered before
    the field is read: for a target without tags and groups whose select is
    one field and one of [count], [derivative] and [difference], the query
    text applies the function to the empty name, whatever the field is. *)
Theorem function_before_field_loses_field (target : dict)
    (field function measurement legend : string) (c : converter) :
  In function ["count"; "derivative"; "difference"] ->
  truthy (dget "not-influx-target" target) = false ->
  assoc "select" target = Some (select_of field function) ->
  assoc "tags" target = None ->
  assoc "groupBy" target = Some (VList []) ->
  assoc "measurement" target = Some (VStr measurement) ->
  measurement <> EmptyString ->
  convert_to_query target legend c
  = (Ok (QueryText
           ("SELECT " +:+ function +:+ "(" +:+ String dq (String dq ")")
              +:+ " FROM " +:+ String dq measurement +:+ String dq EmptyString
              +:+ " WHERE ($timeFilter)")), c).
Proof.
  intros Hin Hflag Hselect Htags Hgroups Hm Hne.
  unfold convert_to_query, getitem. rewrite Hflag.
  unfold dget. rewrite Hselect, Htags, Hgroups, Hm.
  cbn [default from_option id truthy].
  destruct measurement as [|ch measurement]; [congruence|].
  destruct Hin as [<-|[<-|[<-|[]]]]; reflexivity.
Qed.

(** The theorem at a target that counts the field [usage] of [cpu]; the
    expression that comes out counts [cpu_cpu]. *)
Lemma function_before_field_loses_field_witness :
  convert_to_query count_target EmptyString converter0
  = (Ok (QueryText (py "SELECT count(``) FROM `cpu` WHERE ($timeFilter)")),
     converter0)
  /\ fst (convert_targets [VDict count_target] VNone converter0)
     = Ok ([VDict [("expr", VStr "count(cpu_cpu)");
                   ("format", VStr "time_series"); ("instant", VBool false);
                   ("intervalFactor", VInt 1); ("refId", VStr "A");
                   ("legendFormat", VStr EmptyString)]], [], []).
Proof.
  split; [|vm_compute; reflexivity].
  apply (function_before_field_loses_field count_target "usage" "count" "cpu"
           EmptyString converter0);
    [left; reflexivity | reflexivity | reflexivity | reflexivity
    | reflexivity | reflexivity | discriminate].
Defined.

(** ** The clause of a group-by *)

Lemma map_string_app (f : ascii -> ascii) (s t : string) :
  map_string f (s +:+ t) = map_string f s +:+ map_string f t.
Proof.
  induction s as [|a s IH]; [reflexivity|].
  change (String a s +:+ t) with (String a (s +:+ t)).
  cbn [map_string]. rewrite IH. reflexivity.
Qed.

Lemma replace_invalid_by_clause (labels : string) :
  _replace_invalid_metric_characters (" by (" +:+ labels +:+ ")")
  = "_by_(" +:+ _replace_invalid_metric_characters labels +:+ ")".
Proof.
  rewrite !replace_invalid_metric_characters_map.
  change (" by (" +:+ labels +:+ ")")
    with (String " " (String "b" (String "y" (String " " (String "("
            (labels +:+ ")")))))).
  cbn [map_string]. rewrite map_string_app. reflexivity.
Qed.

Lemma map_string_id (f : ascii -> ascii) (s : string) :
  (forall a, f a = a) -> map_string f s = s.
Proof.
  intros H. induction s as [|a s IH]; [reflexivity|].
  cbn [map_string]. now rewrite H, IH.
Qed.

Lemma replace_char_same (ch : ascii) (s : string) :
  replace (String ch EmptyString) (String ch EmptyString) s = s.
Proof.
  rewrite replace_char. apply map_string_id.
  intros a. destruct (Ascii.eqb_spec ch a); congruence.
Qed.

Lemma promql_aggregation_nonempty (a : string) :
  In a PROMQL_AGGREGATIONS -> nonempty a = true.
Proof.
  unfold PROMQL_AGGREGATIONS. cbn [In].
  intros H. decompose [or] H; subst; try reflexivity; contradiction.
Qed.

Lemma aggregation_map_values (a : string) :
  In a (map snd AGGREGATION_MAP) -> In a PROMQL_AGGREGATIONS.
Proof.
  unfold AGGREGATION_MAP, PROMQL_AGGREGATIONS. cbn [map snd In].
  intros H. decompose [or] H; subst; auto 10; contradiction.
Qed.

Lemma first_matching_In (rs : list (regex * string)) (name f : string) :
  first_matching rs name = Some f -> In f (map snd rs).
Proof.
  induction rs as [|[r f'] rs IH]; [discriminate|].
  cbn [first_matching map snd In].
  destruct (rmatch_at_start false r name).
  - intros [= ->]. now left.
  - intros H. right. now apply IH.
Qed.

Lemma get_metric_aggregation_promql (metric_name : string) :
  In (get_metric_aggregation metric_name) PROMQL_AGGREGATIONS.
Proof.
  unfold get_metric_aggregation.
  destruct (first_matching METRIC_AGGREGATION_REGEXPS metric_name) as [f|]
    eqn:E; cbn [default from_option id].
  - apply first_matching_In in E.
    unfold METRIC_AGGREGATION_REGEXPS in E. cbn [map snd In] in E.
    unfold PROMQL_AGGREGATIONS. cbn [In].
    decompose [or] E; subst; auto 10; contradiction.
  - unfold PROMQL_AGGREGATIONS. cbn [In]. auto 10.
Qed.

Lemma toplevel_aggregation_promql (a : string) :
  In a PROMQL_AGGREGATIONS ->
  In (default a (assoc a AGGREGATION_TOPLEVEL_MAP)) PROMQL_AGGREGATIONS.
Proof.
  unfold PROMQL_AGGREGATIONS. cbn [In].
  intros H. decompose [or] H; subst; cbn; auto 10; contradiction.
Qed.

Lemma last_In {A : Type} (l : list A) (d : A) :
  l <> [] -> In (List.last l d) l.
Proof.
  induction l as [|x [|y l] IH]; [congruence | now left|].
  intros _. right. apply IH. discriminate.
Qed.

Lemma last_default {A : Type} (l : list A) (d d' : A) :
  l <> [] -> List.last l d = List.last l d'.
Proof.
  induction l as [|x [|y l] IH]; [congruence | reflexivity|].
  intros _. apply IH. discriminate.
Qed.

Lemma fold_left_last {A B : Type} (h : A -> B -> B) (l : list A) (a0 : A)
    (b0 : B) :
  fst (fold_left (fun '(_, b) a => (a, h a b)) l (a0, b0)) = List.last l a0.
Proof.
  revert a0 b0. induction l as [|a l IH]; intros a0 b0; [reflexivity|].
  cbn [fold_left]. rewrite IH. destruct l as [|a1 l]; [reflexivity|].
  change (List.last (a :: a1 :: l) a0) with (List.last (a1 :: l) a0).
  apply last_default; discriminate.
Qed.

Lemma over_time_aggregations_of_last (aggregations : list string)
    (aggregation : string) :
  fst (over_time_aggregations_of aggregations aggregation)
  = List.last aggregations aggregation.
Proof.
  unfold over_time_aggregations_of.
  apply (fold_left_last
           (fun aggregation ota =>
              if mem aggregation OVER_TIME_AGGREGATIONS then
                if mem "rate" aggregations then set_add "rate" ota
                else if mem "increase" aggregations
                     then set_add "increase" ota
                     else set_add (aggregation +:+ "_over_time") ota
              else ota)).
Qed.

Lemma last_last {A : Type} (l : list A) (d : A) :
  List.last l (List.last l d) = List.last l d.
Proof.
  destruct l as [|x l]; [reflexivity|].
  revert x. induction l as [|y l IH]; intros x; [reflexivity|].
  change (List.last (x :: y :: l) d) with (List.last (y :: l) d).
  change (List.last (x :: y :: l) (List.last (y :: l) d))
    with (List.last (y :: l) (List.last (y :: l) d)).
  apply IH.
Qed.

Lemma format_windows_aggregation (aggregations : list string)
    (group_by_ : option GroupBy) :
  fst (fst (format_windows aggregations group_by_))
  = List.last aggregations EmptyString.
Proof.
  unfold format_windows. destruct group_by_ as [g|]; [|reflexivity].
  destruct (negb (truthy_str (option_map over_time (Some g))));
    [reflexivity|].
  pose proof (over_time_aggregations_of_last aggregations
                (List.last aggregations EmptyString)) as H.
  destruct (over_time_aggregations_of _ _) as [a ota]. cbn [fst] in *.
  rewrite H. apply last_last.
Qed.

(** The text that [format_expression] writes before the opening
    parenthesis, for a group-by with a clause. *)
Lemma format_outer_clause (metric_name : string) (g : GroupBy)
    (condition aggregation labels : string) (over_time_ : option string)
    (over_times : list string) :
  In aggregation PROMQL_AGGREGATIONS ->
  group_by g = " by (" +:+ labels +:+ ")" ->
  exists a,
    In a PROMQL_AGGREGATIONS
    /\ fst (fst (format_outer metric_name (Some g) condition aggregation
                   over_time_ over_times))
       = a +:+ "_by_(" +:+ _replace_invalid_metric_characters labels +:+ ")".
Proof.
  intros Ha Hg. unfold format_outer.
  rewrite (promql_aggregation_nonempty _ Ha), Hg, replace_invalid_by_clause.
  pose proof (get_metric_aggregation_promql metric_name) as Hm.
  destruct (mem aggregation ["rate"; "increase"]
            && Nat.eqb (length over_times) 0);
    cbn [nonempty append orb];
    destruct (negb (nonempty condition)); cbn [fst];
    eauto using toplevel_aggregation_promql.
Qed.

Lemma format_condition_clause (self_scrape_interval : Z)
    (divide_by_self : bool) (metric_name : string)
    (aggregations : list string) (labels : string) (g : GroupBy)
    (modifications over_times : list string) (condition : string)
    (group_labels : list string) :
  In (List.last aggregations EmptyString) PROMQL_AGGREGATIONS ->
  group_by g = " by (" +:+ join "," group_labels +:+ ")" ->
  begins_with_clause group_labels
    (fst (format_condition self_scrape_interval divide_by_self metric_name
            aggregations labels (Some g) modifications over_times
            condition)).
Proof.
  intros Ha Hg. unfold format_condition.
  pose proof (format_windows_aggregation aggregations (Some g)) as Hw.
  destruct (format_windows aggregations (Some g)) as [[aggregation ot] otas].
  cbn [fst] in Hw. subst aggregation.
  destruct (format_outer_clause metric_name g
              (format_bool_condition divide_by_self
                 (List.last aggregations EmptyString) condition)
              (List.last aggregations EmptyString) (join "," group_labels)
              ot otas Ha Hg) as (a & Hin & Hexpr).
  destruct (format_outer _ _ _ _ _ _) as [[expr ot'] otas'].
  cbn [fst] in Hexpr. subst expr.
  destruct (format_inner _ _ _ _ _ _ _ _ _) as [inner ots]. cbn [fst].
  exists a, inner. split; [exact Hin|].
  rewrite replace_char_same, !append_assoc. reflexivity.
Qed.

Lemma format_expression_clause (divide_by_self : bool) (metric_name : string)
    (aggregations : list string) (labels : string) (g : GroupBy)
    (modifications : list string) (conditions : conds)
    (alias_name : option string) (group_labels : list string)
    (c : converter) :
  In (List.last aggregations EmptyString) PROMQL_AGGREGATIONS ->
  group_by g = " by (" +:+ join "," group_labels +:+ ")" ->
  exists expressions over_times,
    format_expression divide_by_self metric_name aggregations labels
      (Some g) modifications conditions alias_name c
    = (Ok (join " or " expressions, over_times, fills g, alias_name), c)
    /\ Forall (begins_with_clause group_labels) expressions
    /\ length expressions
       = length (match conditions with
                 | CondList l => l
                 | CondStr s => [s]
                 end).
Proof.
  intros Ha Hg. unfold format_expression, bind, get, ret.
  set (l := match conditions with CondList l => l | CondStr s => [s] end).
  set (step := fun '(expressions, over_times) condition =>
                 let '(expr, over_times) :=
                   format_condition (scrape_interval c) divide_by_self
                     (_replace_invalid_metric_characters metric_name)
                     aggregations labels (Some g) modifications over_times
                     condition in
                 (expressions ++ [expr], over_times)).
  assert (forall conditions' expressions0 (over_times0 : list string),
            Forall (begins_with_clause group_labels) expressions0 ->
            Forall (begins_with_clause group_labels)
              (fst (fold_left step conditions' (expressions0, over_times0)))
            /\ length (fst (fold_left step conditions'
                              (expressions0, over_times0)))
               = (length expressions0 + length conditions')%nat) as Hfold.
  { induction conditions' as [|condition conditions' IH];
      intros expressions0 over_times0 H0; cbn [fold_left length].
    - cbn [fst]. split; [exact H0 | lia].
    - unfold step at 2 4.
      pose proof (format_condition_clause (scrape_interval c) divide_by_self
                    (_replace_invalid_metric_characters metric_name)
                    aggregations labels g modifications over_times0
                    condition group_labels Ha Hg) as Hc.
      destruct (format_condition _ _ _ _ _ _ _ _ _) as [expr ots].
      cbn [fst] in Hc.
      destruct (IH (expressions0 ++ [expr]) ots) as [HF Hlen].
      { apply Forall_app. split; [exact H0 | now constructor]. }
      split; [exact HF|]. rewrite Hlen, length_app. cbn [length]. lia. }
  destruct (Hfold l [] []) as [HF Hlen]; [constructor|].
  fold step. destruct (fold_left step l ([], [])) as [expressions over_times].
  cbn [fst] in *. exists expressions, over_times.
  split; [reflexivity|]. split; [exact HF | exact Hlen].
Qed.

(** What [get_group_by] returns and what it leaves in [group_by_labels]. *)
Lemma get_group_by_labels (query : string) (c c' : converter)
    (group_by_ : option GroupBy) :
  get_group_by query c = (Ok group_by_, c') ->
  match group_by_ with
  | None => group_by_labels c' = None
  | Some g =>
      exists labels,
        group_by_labels c' = Some labels
        /\ group_by g
           = match labels with
             | [] => EmptyString
             | _ => " by (" +:+ join "," labels +:+ ")"
             end
  end.
Proof.
  intros H. unfold get_group_by in H.
  apply bind_Ok in H as (u & c1 & Hreset & H). injection Hreset as _ <-.
  destruct (split "group by" (lower query)) as [|p0 [|groups1 ps]];
    try (injection H as <- <-; reflexivity).
  apply bind_Ok in H as (vars & c2 & Hvars & H).
  apply lift_Ok in Hvars as [_ ->].
  apply bind_Ok in H as (u' & c3 & Hmod & H).
  injection Hmod as _ <-. injection H as <- <-.
  exists (gb_group_by vars). split; reflexivity.
Qed.

Lemma add_error_group_by_labels (msg : emsg) (level : string)
    (notes : enotes) (c : converter) :
  group_by_labels (snd (add_error msg level notes c)) = group_by_labels c.
Proof.
  unfold add_error, modify. cbn [snd].
  destruct (ctx_dashboard c), (ctx_panel c); reflexivity.
Qed.

Lemma last_Forall {A : Type} (P : A -> Prop) (l : list A) (d : A) :
  l <> [] -> Forall P l -> P (List.last l d).
Proof.
  intros Hne HF. rewrite Forall_forall in HF. apply HF.
  apply list_elem_of_In. now apply last_In.
Qed.

Lemma get_aggregations_values (query : string) (aggregations : list string) :
  get_aggregations query = Ok aggregations ->
  Forall (fun a => In a PROMQL_AGGREGATIONS) aggregations.
Proof.
  unfold get_aggregations.
  destruct (search true select_re query) as [part1|]; [|discriminate].
  intros Heq.
  assert (aggregations
          = omap (fun item => assoc item AGGREGATION_MAP)
              (split "(" (group_text 1 part1))) as -> by congruence.
  eapply Forall_impl; [apply omap_assoc_values|].
  intros a. apply aggregation_map_values.
Qed.

(** The clause of a group-by in the expression.  When [get_group_by]
    returns a group-by with labels, the labels are kept in [group_by_labels],
    its clause is [ by (] with the labels joined by commas and [)], and
    [format_expression] writes the clause after the aggregation through
    [_replace_invalid_metric_characters]: every expression it joins with
    [ or ] begins with an aggregation followed by [_by_(labels)(], the
    spaces of the clause turned into underscores.  So does every expression
    that [convert_expression] returns when it leaves labels in
    [group_by_labels]. *)
Theorem group_by_clause_in_expression (query : string) (c : converter) :
  (forall g c',
     get_group_by query c = (Ok (Some g), c') ->
     group_by g <> EmptyString ->
     exists labels,
       labels <> []
       /\ group_by_labels c' = Some labels
       /\ group_by g = " by (" +:+ join "," labels +:+ ")"
       /\ forall divide_by_self metric_name aggregations matchers
            modifications conditions alias_name c0,
            In (List.last aggregations EmptyString) PROMQL_AGGREGATIONS ->
            exists expressions over_times,
              format_expression divide_by_self metric_name aggregations
                matchers (Some g) modifications conditions alias_name c0
              = (Ok (join " or " expressions, over_times, fills g,
                     alias_name), c0)
              /\ Forall (begins_with_clause labels) expressions)
  /\ (forall expr over_times fills_ alias_name labels c',
        convert_expression query c
        = (Ok (expr, over_times, fills_, alias_name), c') ->
        group_by_labels c' = Some labels ->
        labels <> [] ->
        exists expressions,
          expr = join " or " expressions
          /\ Forall (begins_with_clause labels) expressions).
Proof.
  split.
  - intros g c' H Hne.
    destruct (get_group_by_labels query c c' (Some g) H)
      as (labels & Hlabels & Hg).
    destruct labels as [|label labels']; [congruence|].
    exists (label :: labels'). split; [discriminate|].
    split; [exact Hlabels|]. split; [exact Hg|].
    intros divide_by_self metric_name aggregations matchers modifications
      conditions alias_name c0 Ha.
    destruct (format_expression_clause divide_by_self metric_name
                aggregations matchers g modifications conditions alias_name
                (label :: labels') c0 Ha Hg)
      as (expressions & ots & Hrun & HF & _).
    eauto.
  - intros expr over_times fills_ alias_name labels c' H Hlabels Hne.
    unfold convert_expression in H.
    apply bind_Ok in H as ([series_name field_name] & c1 & Hname & H).
    apply lift_Ok in Hname as [_ ->].
    apply bind_Ok in H as (alias & c2 & Halias & H).
    apply lift_Ok in Halias as [_ ->].
    apply bind_Ok in H as (aggregations & c3 & Haggs & H).
    apply lift_Ok in Haggs as [Haggs ->].
    destruct (get_labels query (replace "." "_" field_name))
      as [query' matchers].
    apply bind_Ok in H as (group_by_ & c4 & Hgroup & H).
    apply bind_Ok in H as (aggregations' & c5 & Hdefault & H).
    apply bind_Ok in H as (conditions & c6 & Hconds & H).
    apply lift_Ok in Hconds as [_ ->].
    set (metric_name :=
           replace (String dq EmptyString) EmptyString
             (List.last (split "." series_name) EmptyString)
           +:+ "_" +:+ replace "." "_" field_name) in *.
    pose proof (get_aggregations_values query aggregations Haggs) as Hall.
    pose proof (get_metric_aggregation_promql metric_name) as Hmetric.
    assert (Forall (fun a => In a PROMQL_AGGREGATIONS)
              (if is_just_avg aggregations
               then [get_metric_aggregation metric_name]
               else aggregations)) as Hall1.
    { destruct (is_just_avg aggregations); [now constructor | exact Hall]. }
    pose proof (get_group_by_labels query' c c4 group_by_ Hgroup) as Hspec.
    assert (group_by_labels c5 = group_by_labels c4
            /\ exists g,
                 group_by_ = Some g
                 /\ (group_by_labels c4 = Some labels ->
                     In (List.last aggregations' EmptyString)
                       PROMQL_AGGREGATIONS)) as (Hsame & g & -> & Hlast).
    { destruct group_by_ as [g|].
      - destruct Hspec as (labels0 & Hl0 & Hg).
        destruct (if is_just_avg aggregations
                  then [get_metric_aggregation metric_name]
                  else aggregations) as [|a0 l0] eqn:E.
        + destruct (nonempty (group_by g)) eqn:Hn.
          * apply bind_Ok in Hdefault as (u & c7 & Herr & Hdefault).
            injection Hdefault as <- <-.
            assert (group_by_labels c7 = group_by_labels c4) as Hc7.
            { destruct (is_just_avg [get_metric_aggregation metric_name]).
              - pose proof (add_error_group_by_labels
                              (Text ("Using default aggregation of avg for "
                                       +:+ query'))
                              "WARN" NoNotes c4) as Hk.
                unfold add_error in *. now rewrite Herr in Hk.
              - now injection Herr as _ <-. }
            split; [exact Hc7|]. exists g. split; [reflexivity|].
            intros _. exact Hmetric.
          * injection Hdefault as <- <-. split; [reflexivity|].
            exists g. split; [reflexivity|]. intros Hc4.
            rewrite Hl0 in Hc4. injection Hc4 as ->.
            rewrite Hg in Hn. destruct labels; [congruence | discriminate Hn].
        + injection Hdefault as <- <-. split; [reflexivity|].
          exists g. split; [reflexivity|]. intros _.
          apply (last_Forall (fun a => In a PROMQL_AGGREGATIONS));
            [discriminate | exact Hall1].
      - exfalso.
        assert (c5 = c4) as ->.
        { destruct (if is_just_avg aggregations
                    then [get_metric_aggregation metric_name]
                    else aggregations); now injection Hdefault. }
        destruct (does_divide_by_self query'
                  && (conds_truthy conditions
                      || negb (Nat.eqb (length (get_modifications query')) 0)));
          [discriminate H|].
        unfold format_expression, bind, get, ret in H.
        destruct (fold_left _ _ _) as [es ots] in H.
        injection H as _ _ _ _ <-. congruence. }
    destruct Hspec as (labels0 & Hl0 & Hg).
    destruct (does_divide_by_self query'
              && (conds_truthy conditions
                  || negb (Nat.eqb (length (get_modifications query')) 0)));
      [discriminate H|].
    assert (group_by_labels c' = group_by_labels c5) as Hc'.
    { unfold format_expression, bind, get, ret in H.
      destruct (fold_left _ _ _) as [es ots] in H.
      now injection H as _ _ _ _ <-. }
    rewrite Hc', Hsame in Hlabels. specialize (Hlast Hlabels).
    rewrite Hl0 in Hlabels. injection Hlabels as ->.
    destruct labels as [|label labels']; [congruence|].
    destruct (format_expression_clause (does_divide_by_self query')
                metric_name aggregations' matchers g
                (get_modifications query') conditions alias
                (label :: labels') c5 Hlast Hg)
      as (expressions & ots & Hrun & HF & _).
    rewrite Hrun in H. injection H as <- _ _ _ _.
    exists expressions. split; [reflexivity | exact HF].
Qed.

(** The theorem at a query grouped by [host]. *)
Lemma group_by_clause_in_expression_witness :
  exists rest,
    fst (convert_expression grouped_by_host converter0)
    = Ok ("avg_by_(host)(" +:+ rest, ["30s"; "1m"], [], None).
Proof.
  pose (r := convert_expression grouped_by_host converter0).
  pose (expr := match fst r with Ok (e, _, _, _) => e | Raise _ => "" end).
  destruct (proj2 (group_by_clause_in_expression grouped_by_host converter0)
              expr ["30s"; "1m"] [] None ["host"] (snd r))
    as (expressions & Hexpr & HF);
    [vm_compute; reflexivity | vm_compute; reflexivity | discriminate|].
  destruct expressions as [|e [|e' es]].
  - vm_compute in Hexpr. discriminate Hexpr.
  - apply Forall_cons in HF as [(a & rest & Ha & He) _].
    cbn [join] in Hexpr. rewrite He in Hexpr. clear He.
    assert (a = "avg") as ->.
    { assert (startswith "avg" expr = true) as Hs
        by (vm_compute; reflexivity).
      rewrite Hexpr in Hs. unfold PROMQL_AGGREGATIONS in Ha. cbn [In] in Ha.
      decompose [or] Ha; subst; try reflexivity; try discriminate Hs;
        contradiction. }
    exists rest.
    transitivity (Ok (expr, ["30s"; "1m"], @nil string, @None string));
      [vm_compute; reflexivity|].
    rewrite Hexpr. reflexivity.
  - exfalso.
    assert (contains " or " expr = false) as Hno by (vm_compute; reflexivity).
    assert (forall x t, contains " or " (x +:+ " or " +:+ t) = true) as Hor.
    { intros x t. induction x as [|ch x IH]; [reflexivity|].
      change (String ch x +:+ " or " +:+ t)
        with (String ch (x +:+ " or " +:+ t)).
      cbn [contains]. rewrite IH. apply orb_true_r. }
    cbn [join] in Hexpr.
    rewrite Hexpr, Hor in Hno. discriminate Hno.
Defined.


(** ** The loop over the dashboards *)

(** Every dashboard that the loop of [convert_dashboards] handles goes to
    one of the two lists: the lists only grow at their ends, the new titles
    of [invalid_dashboards] are titles of the given dashboards, and when the
    loop completes the two lists have grown by as many entries as there are
    dashboards.  When the loop ends the program, the exit code is 1 and at
    least one dashboard is in neither list. *)
Theorem convert_dashboards_partition (exn_str : exn -> string)
    (dashboards influx_dashboards invalid_dashboards : list value)
    (c c' : converter) (influx' invalid' : list value) (how : loop_end) :
  convert_dashboards exn_str dashboards influx_dashboards invalid_dashboards c
  = (Ok (influx', invalid', how), c') ->
  exists converted titles,
    influx' = influx_dashboards ++ converted
    /\ invalid' = invalid_dashboards ++ titles
    /\ Forall (fun title =>
                 exists e d, In (VDict e) dashboards
                             /\ assoc "dashboard" e = Some (VDict d)
                             /\ assoc "title" d = Some title) titles
    /\ match how with
       | Completed =>
           (length converted + length titles = length dashboards)%nat
       | Exited code =>
           code = 1
           /\ (length converted + length titles < length dashboards)%nat
       end.
Proof.
  revert influx_dashboards invalid_dashboards c.
  induction dashboards as [|dashboard dashboards' IH];
    intros influx_dashboards invalid_dashboards c H.
  - injection H as <- <- <- <-. exists [], [].
    rewrite !app_nil_r. repeat split. constructor.
  - cbn [convert_dashboards] in H.
    apply bind_Ok in H as ([[e d] meta] & c1 & Hctx & H).
    assert (dashboard = VDict e /\ assoc "dashboard" e = Some (VDict d))
      as [-> He].
    { unfold dashboard_context in Hctx.
      apply bind_Ok in Hctx as (e0 & c2 & He0 & Hctx).
      apply lift_Ok in He0 as [He0 ->].
      apply bind_Ok in Hctx as (d0 & c3 & Hd0 & Hctx).
      apply lift_Ok in Hd0 as [Hd0 ->].
      apply rbind_Ok in Hd0 as (v & Hv & Hd0). apply getitem_Ok in Hv.
      apply bind_Ok in Hctx as (uid & c4 & _ & Hctx).
      apply bind_Ok in Hctx as (title & c5 & _ & Hctx).
      apply bind_Ok in Hctx as (meta0 & c6 & _ & Hctx).
      apply bind_Ok in Hctx as (folder & c7 & _ & Hctx).
      apply bind_Ok in Hctx as (updater & c8 & _ & Hctx).
      apply bind_Ok in Hctx as (u & c9 & _ & Hctx).
      injection Hctx as <- <- <- <-.
      destruct dashboard; try discriminate He0. injection He0 as ->.
      destruct v; try discriminate Hd0. injection Hd0 as ->.
      split; [reflexivity | exact Hv]. }
    clear Hctx.
    destruct (convert_dashboard d meta c1) as [[d'|ex] c2].
    + apply IH in H as (converted & titles & -> & -> & Ht & Hhow).
      eexists (_ :: converted), titles. rewrite <- app_assoc.
      split; [reflexivity|]. split; [reflexivity|]. split.
      * eapply Forall_impl; [exact Ht|].
        intros t (e1 & d1 & Hin & H1 & H2).
        exists e1, d1. split; [right; exact Hin | now split].
      * destruct how; cbn [length]; [lia | split; [apply Hhow | lia]].
    + destruct ex;
        try (injection H as <- <- <- <-; exists [], [];
             rewrite !app_nil_r; split; [reflexivity|];
             split; [reflexivity|]; split; [constructor|];
             split; [reflexivity | cbn [length]; lia]).
      apply bind_Ok in H as (u & c3 & _ & H).
      apply bind_Ok in H as (title & c4 & Htitle & H).
      apply lift_Ok in Htitle as [Htitle ->]. apply getitem_Ok in Htitle.
      apply IH in H as (converted & titles & -> & -> & Ht & Hhow).
      exists converted, (title :: titles). rewrite <- app_assoc.
      split; [reflexivity|]. split; [reflexivity|]. split.
      * constructor.
        -- exists e, d. split; [left; reflexivity | now split].
        -- eapply Forall_impl; [exact Ht|].
           intros t (e1 & d1 & Hin & H1 & H2).
           exists e1, d1. split; [right; exact Hin | now split].
      * destruct how; cbn [length]; [lia | split; [apply Hhow | lia]].
Qed.

(** The theorem on four dashboards: the first is converted, the second is
    skipped for its template, the third ends the program, and the fourth is
    never reached. *)
Lemma convert_dashboards_partition_witness :
  exists converted,
    fst (convert_dashboards (fun _ => EmptyString) exported_dashboards [] []
           exported_converter)
    = Ok ([converted], [VStr "second"], Exited 1).
Proof.
  pose (r := convert_dashboards (fun _ => EmptyString) exported_dashboards
               [] [] exported_converter).
  pose (influx := match fst r with Ok (i, _, _) => i | Raise _ => [] end).
  assert (fst r = Ok (influx, [VStr "second"], Exited 1)) as Hr
    by (vm_compute; reflexivity).
  assert (length influx = 1%nat) as Hlen by (vm_compute; reflexivity).
  destruct (convert_dashboards_partition (fun _ => EmptyString)
              exported_dashboards [] [] exported_converter (snd r)
              influx [VStr "second"] (Exited 1))
    as (converted & titles & Hi & _); [vm_compute; reflexivity|].
  cbn [app] in Hi. rewrite Hi in Hlen.
  destruct converted as [|d [|? ?]]; try discriminate Hlen.
  exists d. fold r. rewrite Hr, Hi. reflexivity.
Defined.

(** ** The report of errors *)

Lemma replace_remove_char (ch : ascii) (s : string) :
  replace (String ch EmptyString) EmptyString s
  = filter_string (fun a => negb (Ascii.eqb ch a)) s.
Proof.
  unfold replace, replace_n. induction s as [|a s IH]; [reflexivity|].
  cbn [replace_go filter_string startswith String.length Nat.sub option_map].
  rewrite IH, andb_true_r. cbn [andb]. now destruct (Ascii.eqb ch a).
Qed.

Lemma contains_char_app (ch : ascii) (s t : string) :
  contains (String ch EmptyString) (s +:+ t)
  = contains (String ch EmptyString) s || contains (String ch EmptyString) t.
Proof.
  induction s as [|a s IH].
  - reflexivity.
  - change (String a s +:+ t) with (String a (s +:+ t)).
    cbn [contains startswith]. rewrite IH, !andb_true_r.
    now rewrite orb_assoc.
Qed.

Lemma contains_char_filter (ch : ascii) (f : ascii -> bool) (s : string) :
  contains (String ch EmptyString) s = false ->
  contains (String ch EmptyString) (filter_string f s) = false.
Proof.
  induction s as [|a s IH]; [reflexivity|].
  intros [Ha Hs]%contains_char_cons. cbn [filter_string].
  destruct (f a); [|now apply IH].
  cbn [contains startswith]. rewrite andb_true_r, Ha. now apply IH.
Qed.

Lemma contains_char_removed (ch : ascii) (s : string) :
  contains (String ch EmptyString)
    (filter_string (fun a => negb (Ascii.eqb ch a)) s) = false.
Proof.
  induction s as [|a s IH]; [reflexivity|].
  cbn [filter_string]. destruct (Ascii.eqb ch a) eqn:E; cbn [negb];
    [exact IH|].
  cbn [contains startswith]. now rewrite andb_true_r, E.
Qed.

Import ErrorReport.

Lemma csv_join (e : row) : csv e = join "," (map c (fields e)).
Proof. reflexivity. Qed.

(** The report of errors as a table.  A row read back at the commas gives
    the eight fields, each without its commas, as many as the header has
    columns; and when no field holds a line feed, the report read back at
    the line feeds gives the header and one row for each error, in the
    order of the errors. *)
Theorem errors_csv_table (errors : list row) :
  (forall e,
     split "," (csv e) = map c (fields e)
     /\ length (split "," (csv e)) = length (split "," csv_header))
  /\ (errors <> [] ->
      Forall (fun e => Forall (fun f => contains lf f = false) (fields e))
        errors ->
      split lf (errors_csv errors) = csv_header :: map csv errors)
  /\ errors_csv [] = EmptyString.
Proof.
  assert (forall e, split "," (csv e) = map c (fields e)) as Hrow.
  { intros e. rewrite csv_join. apply (split_join_char ","); [discriminate|].
    unfold fields. cbn [map]. unfold c.
    repeat constructor; rewrite replace_remove_char;
      apply contains_char_removed. }
  split; [|split; [|reflexivity]].
  - intros e. split; [apply Hrow|]. rewrite Hrow. reflexivity.
  - intros Hne HF. unfold errors_csv.
    destruct errors as [|e0 errors']; [congruence|].
    apply (split_join_char "010"); [discriminate|].
    constructor; [reflexivity|].
    apply Forall_map. eapply Forall_impl; [exact HF|].
    intros e He. cbn beta in *. unfold fields in He.
    repeat match goal with
           | H : Forall _ (_ :: _) |- _ =>
               apply Forall_cons in H as [? H]
           end.
    unfold csv, c, lf in *.
    rewrite !contains_char_app, !replace_remove_char.
    rewrite !contains_char_filter by assumption. reflexivity.
Qed.

Lemma errors_csv_table_witness :
  split lf
    (errors_csv
       [{| message := "Unsupported fills"; folder := "General";
           dashboard_title := "Net, in and out"; panel_title := "Traffic";
           error_level := "INFO"; notes := "{'previous', 'linear'}";
           updater := "admin"; link := "Cannot-Calculate-Link" |}])
  = [csv_header;
     "Unsupported fills,General,Net in and out,Traffic,INFO,{'previous' 'linear'},admin,Cannot-Calculate-Link"].
Proof.
  refine (proj1 (proj2 (errors_csv_table _)) _ _); [discriminate|].
  repeat constructor.
Defined.
